(** * OV13855 image sensor driver: register transport, mode catalogue,
      controls, power and streaming

    A shallow embedding of [drivers/media/i2c/ov13855.c].  C integers are
    values of [Z] with their wrap-around written out; the driver's state
    and everything it asks of the platform (I2C adapter, runtime PM,
    regulators, clock, reset line) are threaded through a small state
    monad whose state records the calls made so far. *)

From Stdlib Require Import ZArith List Bool Lia.
From stdpp Require Import base list.
Import ListNotations.
Local Open Scope Z_scope.

(** ** Machine integers *)

Module Int.

Definition to_u8 (z : Z) : Z := z mod 2 ^ 8.
Definition to_u16 (z : Z) : Z := z mod 2 ^ 16.
Definition to_u32 (z : Z) : Z := z mod 2 ^ 32.
(** Two's-complement reading of the low 32 bits ([int], [s32]). *)
Definition to_s32 (z : Z) : Z := (z + 2 ^ 31) mod 2 ^ 32 - 2 ^ 31.

Definition INT_MAX : Z := 2 ^ 31 - 1.
Definition U32_MAX : Z := 2 ^ 32 - 1.

Definition is_u32 (z : Z) : Prop := 0 <= z <= U32_MAX.

End Int.
Import Int.

(** Error numbers ([include/uapi/asm-generic/errno-base.h]). *)
Definition EIO : Z := 5.
Definition EACCES : Z := 13.
Definition EINVAL : Z := 22.
Definition ERANGE : Z := 34.

(** ** Register map and constants *)

Definition OV13855_REG_VALUE_08BIT : Z := 1.
Definition OV13855_REG_VALUE_16BIT : Z := 2.
Definition OV13855_REG_VALUE_24BIT : Z := 3.

Definition OV13855_REG_MODE_SELECT : Z := 0x0100.
Definition OV13855_MODE_STANDBY : Z := 0x00.
Definition OV13855_MODE_STREAMING : Z := 0x01.

Definition OV13855_REG_SOFTWARE_RST : Z := 0x0103.
Definition OV13855_SOFTWARE_RST : Z := 0x01.

Definition OV13855_REG_CHIP_ID : Z := 0x300a.
Definition OV13855_CHIP_ID : Z := 0x00d855.

Definition OV13855_REG_VTS : Z := 0x380e.
Definition OV13855_VTS_30FPS : Z := 0x0c8e.
Definition OV13855_VTS_60FPS : Z := 0x0648.
Definition OV13855_VTS_MAX : Z := 0x7fff.
Definition OV13855_VBLANK_MIN : Z := 56.

Definition OV13855_PPL_540MHZ : Z := 2244.
Definition OV13855_PPL_1080MHZ : Z := 4488.

Definition OV13855_REG_EXPOSURE : Z := 0x3500.
Definition OV13855_EXPOSURE_MIN : Z := 4.
Definition OV13855_EXPOSURE_STEP : Z := 1.
Definition OV13855_EXPOSURE_DEFAULT : Z := 0x640.

Definition OV13855_REG_ANALOG_GAIN : Z := 0x3508.
Definition OV13855_ANA_GAIN_MIN : Z := 0.
Definition OV13855_ANA_GAIN_MAX : Z := 0x1fff.
Definition OV13855_ANA_GAIN_STEP : Z := 1.
Definition OV13855_ANA_GAIN_DEFAULT : Z := 0x80.

Definition OV13855_REG_TEST_PATTERN : Z := 0x4503.
Definition OV13855_TEST_PATTERN_ENABLE : Z := Z.shiftl 1 7.
Definition OV13855_TEST_PATTERN_MASK : Z := 0xfc.

Definition OV13855_NUM_OF_LINK_FREQS : Z := 2.
Definition OV13855_LINK_FREQ_INDEX_0 : Z := 0.
Definition OV13855_LINK_FREQ_INDEX_1 : Z := 1.

(** ** Mode catalogue *)

(** [struct ov13855_reg]: a 16-bit register address and the byte to put
    there. *)
Record ov13855_reg := R { address : Z; val : Z }.

(** [struct ov13855_link_freq_config]; [reg_list] is the PLL register
    list ([num_of_regs] is its length). *)
Record ov13855_link_freq_config := {
  pixel_rate : Z;
  pixels_per_line : Z;
  pll_reg_list : list ov13855_reg
}.

(** [struct ov13855_mode]. *)
Record ov13855_mode := {
  width : Z;
  height : Z;
  vts : Z;
  link_freq_index : Z;
  reg_list : list ov13855_reg
}.

Definition init_setting : list ov13855_reg :=
  [R 0x0103 0x01; R 0x0300 0x02; R 0x0301 0x00; R 0x0302 0x5a; R 0x0303 0x00;
   R 0x0304 0x00; R 0x0305 0x01; R 0x030b 0x06; R 0x030c 0x02; R 0x030d 0x88;
   R 0x0312 0x11; R 0x3022 0x01; R 0x3013 0x32; R 0x3016 0x72; R 0x301b 0xf0;
   R 0x301f 0xd0; R 0x3106 0x15; R 0x3107 0x23; R 0x3500 0x00; R 0x3501 0x80;
   R 0x3502 0x00; R 0x3508 0x02; R 0x3509 0x00; R 0x350a 0x00; R 0x350e 0x00;
   R 0x3510 0x00; R 0x3511 0x02; R 0x3512 0x00; R 0x3600 0x2b; R 0x3601 0x52;
   R 0x3602 0x60; R 0x3612 0x05; R 0x3613 0xa4; R 0x3620 0x80; R 0x3621 0x10;
   R 0x3622 0x30; R 0x3624 0x1c; R 0x3640 0x10; R 0x3661 0x70; R 0x3661 0x80;
   R 0x3662 0x12; R 0x3664 0x73; R 0x3665 0xa7; R 0x366e 0xff; R 0x366f 0xf4;
   R 0x3674 0x00; R 0x3679 0x0c; R 0x367f 0x01; R 0x3680 0x0c; R 0x3681 0x50;
   R 0x3682 0x50; R 0x3683 0xa9; R 0x3684 0xa9; R 0x3709 0x5f; R 0x3714 0x24;
   R 0x371a 0x3e; R 0x3737 0x04; R 0x3738 0xcc; R 0x3739 0x12; R 0x373d 0x26;
   R 0x3764 0x20; R 0x3765 0x20; R 0x37a1 0x36; R 0x37a8 0x3b; R 0x37ab 0x31;
   R 0x37c2 0x04; R 0x37c3 0xf1; R 0x37c5 0x00; R 0x37d8 0x03; R 0x37d9 0x0c;
   R 0x37da 0xc2; R 0x37dc 0x02; R 0x37e0 0x00; R 0x37e1 0x0a; R 0x37e2 0x14;
   R 0x37e3 0x04; R 0x37e4 0x2a; R 0x37e5 0x03; R 0x37e6 0x04; R 0x3800 0x00;
   R 0x3801 0x00; R 0x3802 0x00; R 0x3803 0x08; R 0x3804 0x10; R 0x3805 0x9f;
   R 0x3806 0x0c; R 0x3807 0x57; R 0x3808 0x10; R 0x3809 0x80; R 0x380a 0x0c;
   R 0x380b 0x40; R 0x380c 0x04; R 0x380d 0x62; R 0x380e 0x0c; R 0x380f 0x8e;
   R 0x3811 0x10; R 0x3813 0x08; R 0x3814 0x01; R 0x3815 0x01; R 0x3816 0x01;
   R 0x3817 0x01; R 0x3820 0xa8; R 0x3821 0x00; R 0x3822 0xc2; R 0x3823 0x18;
   R 0x3826 0x11; R 0x3827 0x1c; R 0x3829 0x03; R 0x3832 0x00; R 0x3c80 0x00;
   R 0x3c87 0x01; R 0x3c8c 0x19; R 0x3c8d 0x1c; R 0x3c90 0x00; R 0x3c91 0x00;
   R 0x3c92 0x00; R 0x3c93 0x00; R 0x3c94 0x40; R 0x3c95 0x54; R 0x3c96 0x34;
   R 0x3c97 0x04; R 0x3c98 0x00; R 0x3d8c 0x73; R 0x3d8d 0xc0; R 0x3f00 0x0b;
   R 0x3f03 0x00; R 0x4001 0xe0; R 0x4008 0x00; R 0x4009 0x0f; R 0x4011 0xf0;
   R 0x4050 0x04; R 0x4051 0x0b; R 0x4052 0x00; R 0x4053 0x80; R 0x4054 0x00;
   R 0x4055 0x80; R 0x4056 0x00; R 0x4057 0x80; R 0x4058 0x00; R 0x4059 0x80;
   R 0x405e 0x00; R 0x4500 0x07; R 0x4503 0x00; R 0x450a 0x04; R 0x4809 0x04;
   R 0x480c 0x12; R 0x481f 0x30; R 0x4833 0x10; R 0x4837 0x0e; R 0x4902 0x01;
   R 0x4d00 0x03; R 0x4d01 0xc9; R 0x4d02 0xbc; R 0x4d03 0xd7; R 0x4d04 0xf0;
   R 0x4d05 0xa2; R 0x5000 0xff; R 0x5001 0x07; R 0x5040 0x39; R 0x5041 0x10;
   R 0x5042 0x10; R 0x5043 0x84; R 0x5044 0x62; R 0x5180 0x00; R 0x5181 0x10;
   R 0x5182 0x02; R 0x5183 0x0f; R 0x5200 0x1b; R 0x520b 0x07; R 0x520c 0x0f;
   R 0x5300 0x04; R 0x5301 0x0C; R 0x5302 0x0C; R 0x5303 0x0f; R 0x5304 0x00;
   R 0x5305 0x70; R 0x5306 0x00; R 0x5307 0x80; R 0x5308 0x00; R 0x5309 0xa5;
   R 0x530a 0x00; R 0x530b 0xd3; R 0x530c 0x00; R 0x530d 0xf0; R 0x530e 0x01;
   R 0x530f 0x10; R 0x5310 0x01; R 0x5311 0x20; R 0x5312 0x01; R 0x5313 0x20;
   R 0x5314 0x01; R 0x5315 0x20; R 0x5316 0x08; R 0x5317 0x08; R 0x5318 0x10;
   R 0x5319 0x88; R 0x531a 0x88; R 0x531b 0xa9; R 0x531c 0xaa; R 0x531d 0x0a;
   R 0x5405 0x02; R 0x5406 0x67; R 0x5407 0x01; R 0x5408 0x4a].

Definition mode_4224x3136_regs : list ov13855_reg :=
  [R 0x0300 0x02; R 0x0301 0x00; R 0x0302 0x5a; R 0x0303 0x00; R 0x0304 0x00;
   R 0x0305 0x01; R 0x3022 0x01; R 0x3013 0x32; R 0x3016 0x72; R 0x301b 0xf0;
   R 0x301f 0xd0; R 0x3106 0x15; R 0x3107 0x23; R 0x3500 0x00; R 0x3501 0xc8;
   R 0x3502 0x60; R 0x3622 0x30; R 0x3624 0x1c; R 0x3662 0x12; R 0x3709 0x5f;
   R 0x3714 0x24; R 0x3737 0x04; R 0x3739 0x12; R 0x37a1 0x36; R 0x37a8 0x3b;
   R 0x37ab 0x31; R 0x37c2 0x04; R 0x37d9 0x0c; R 0x37e1 0x0a; R 0x37e2 0x14;
   R 0x37e3 0x04; R 0x37e4 0x2a; R 0x37e5 0x03; R 0x37e6 0x04; R 0x3800 0x00;
   R 0x3801 0x00; R 0x3802 0x00; R 0x3803 0x08; R 0x3804 0x10; R 0x3805 0x9f;
   R 0x3806 0x0c; R 0x3807 0x57; R 0x3808 0x10; R 0x3809 0x80; R 0x380a 0x0c;
   R 0x380b 0x40; R 0x380c 0x04; R 0x380d 0x62; R 0x380e 0x0c; R 0x380f 0x8e;
   R 0x3811 0x10; R 0x3812 0x00; R 0x3813 0x08; R 0x3814 0x01; R 0x3815 0x01;
   R 0x3816 0x01; R 0x3817 0x01; R 0x3820 0xa8; R 0x3821 0x00; R 0x3826 0x11;
   R 0x3827 0x1c; R 0x3829 0x03; R 0x3f03 0x00; R 0x4009 0x0f; R 0x4011 0xf0;
   R 0x4050 0x04; R 0x4051 0x0b; R 0x4500 0x07; R 0x4837 0x0e; R 0x4902 0x01;
   R 0x4d00 0x03; R 0x4d01 0xc9; R 0x4d02 0xbc; R 0x4d03 0xd7; R 0x4d04 0xf0;
   R 0x4d05 0xa2; R 0x5000 0xff; R 0x5041 0x10; R 0x5042 0x10; R 0x5043 0x84;
   R 0x5044 0x62; R 0x5300 0x04; R 0x5301 0x0c; R 0x5302 0x0c; R 0x5303 0x0f;
   R 0x5305 0x70; R 0x5307 0x80; R 0x5309 0xa5; R 0x530b 0xd3; R 0x5319 0x88;
   R 0x531a 0x88; R 0x531b 0xa9; R 0x531c 0xaa; R 0x531d 0x0a; R 0x5405 0x02;
   R 0x5406 0x67; R 0x5407 0x01; R 0x5408 0x4a].

Definition mode_2112x1568_regs : list ov13855_reg :=
  [R 0x0300 0x02; R 0x0301 0x00; R 0x0302 0x5a; R 0x0303 0x01; R 0x0304 0x00;
   R 0x0305 0x01; R 0x3022 0x01; R 0x3013 0x32; R 0x3016 0x72; R 0x301b 0xf0;
   R 0x301f 0xd0; R 0x3106 0x15; R 0x3107 0x23; R 0x3500 0x00; R 0x3501 0x64;
   R 0x3502 0x00; R 0x3622 0x30; R 0x3624 0x1c; R 0x3662 0x10; R 0x3709 0x5f;
   R 0x3714 0x28; R 0x3737 0x08; R 0x3739 0x20; R 0x37a1 0x36; R 0x37a8 0x3b;
   R 0x37ab 0x31; R 0x37c2 0x14; R 0x37d9 0x0c; R 0x37e1 0x0a; R 0x37e2 0x14;
   R 0x37e3 0x08; R 0x37e4 0x38; R 0x37e5 0x03; R 0x37e6 0x08; R 0x3800 0x00;
   R 0x3801 0x00; R 0x3802 0x00; R 0x3803 0x08; R 0x3804 0x10; R 0x3805 0x9f;
   R 0x3806 0x0c; R 0x3807 0x4f; R 0x3808 0x08; R 0x3809 0x40; R 0x380a 0x06;
   R 0x380b 0x20; R 0x380c 0x04; R 0x380d 0x62; R 0x380e 0x06; R 0x380f 0x48;
   R 0x3811 0x08; R 0x3812 0x00; R 0x3813 0x02; R 0x3814 0x03; R 0x3815 0x01;
   R 0x3816 0x03; R 0x3817 0x01; R 0x3820 0xab; R 0x3821 0x00; R 0x3826 0x04;
   R 0x3827 0x90; R 0x3829 0x07; R 0x3f03 0x00; R 0x4009 0x0d; R 0x4011 0xf0;
   R 0x4050 0x04; R 0x4051 0x0b; R 0x4500 0x07; R 0x4837 0x1c; R 0x4902 0x01;
   R 0x4d00 0x03; R 0x4d01 0xc9; R 0x4d02 0xbc; R 0x4d03 0xd7; R 0x4d04 0xf0;
   R 0x4d05 0xa2; R 0x5000 0xff; R 0x5041 0x10; R 0x5042 0x10; R 0x5043 0x84;
   R 0x5044 0x62; R 0x5300 0x04; R 0x5301 0x0c; R 0x5302 0x0c; R 0x5303 0x0f;
   R 0x5305 0x70; R 0x5307 0x80; R 0x5309 0xa5; R 0x530b 0xd3; R 0x5319 0x88;
   R 0x531a 0x88; R 0x531b 0xa9; R 0x531c 0xaa; R 0x531d 0x0a; R 0x5405 0x02;
   R 0x5406 0x67; R 0x5407 0x01; R 0x5408 0x4a].

Definition mode_1056x784_regs : list ov13855_reg :=
  [R 0x3013 0x32; R 0x301b 0xf0; R 0x301f 0xd0; R 0x3106 0x15; R 0x3107 0x23;
   R 0x350a 0x00; R 0x350e 0x00; R 0x3510 0x00; R 0x3511 0x02; R 0x3512 0x00;
   R 0x3600 0x2b; R 0x3601 0x52; R 0x3602 0x60; R 0x3612 0x05; R 0x3613 0xa4;
   R 0x3620 0x80; R 0x3621 0x10; R 0x3622 0x30; R 0x3624 0x1c; R 0x3640 0x10;
   R 0x3641 0x70; R 0x3661 0x80; R 0x3662 0x08; R 0x3664 0x73; R 0x3665 0xa7;
   R 0x366e 0xff; R 0x366f 0xf4; R 0x3674 0x00; R 0x3679 0x0c; R 0x367f 0x01;
   R 0x3680 0x0c; R 0x3681 0x50; R 0x3682 0x50; R 0x3683 0xa9; R 0x3684 0xa9;
   R 0x3709 0x5f; R 0x3714 0x30; R 0x371a 0x3e; R 0x3737 0x08; R 0x3738 0xcc;
   R 0x3739 0x20; R 0x373d 0x26; R 0x3764 0x20; R 0x3765 0x20; R 0x37a1 0x36;
   R 0x37a8 0x3b; R 0x37ab 0x31; R 0x37c2 0x2c; R 0x37c3 0xf1; R 0x37c5 0x00;
   R 0x37d8 0x03; R 0x37d9 0x06; R 0x37da 0xc2; R 0x37dc 0x02; R 0x37e0 0x00;
   R 0x37e1 0x0a; R 0x37e2 0x14; R 0x37e3 0x08; R 0x37e4 0x36; R 0x37e5 0x03;
   R 0x37e6 0x08; R 0x3800 0x00; R 0x3801 0x00; R 0x3802 0x00; R 0x3803 0x00;
   R 0x3804 0x10; R 0x3805 0x9f; R 0x3806 0x0c; R 0x3807 0x5f; R 0x3808 0x04;
   R 0x3809 0x20; R 0x380a 0x03; R 0x380b 0x10; R 0x380c 0x04; R 0x380d 0x62;
   R 0x380e 0x0c; R 0x380f 0x8e; R 0x3811 0x04; R 0x3813 0x05; R 0x3814 0x07;
   R 0x3815 0x01; R 0x3816 0x07; R 0x3817 0x01; R 0x3820 0xac; R 0x3821 0x00;
   R 0x3822 0xc2; R 0x3823 0x18; R 0x3826 0x04; R 0x3827 0x48; R 0x3829 0x03;
   R 0x3832 0x00; R 0x3c80 0x00; R 0x3c87 0x01; R 0x3c8c 0x19; R 0x3c8d 0x1c;
   R 0x3c90 0x00; R 0x3c91 0x00; R 0x3c92 0x00; R 0x3c93 0x00; R 0x3c94 0x40;
   R 0x3c95 0x54; R 0x3c96 0x34; R 0x3c97 0x04; R 0x3c98 0x00; R 0x3d8c 0x73;
   R 0x3d8d 0xc0; R 0x3f00 0x0b; R 0x3f03 0x00; R 0x4001 0xe0; R 0x4008 0x00;
   R 0x4009 0x05; R 0x4011 0xf0; R 0x4017 0x08; R 0x4050 0x02; R 0x4051 0x05;
   R 0x4052 0x00; R 0x4053 0x80; R 0x4054 0x00; R 0x4055 0x80; R 0x4056 0x00;
   R 0x4057 0x80; R 0x4058 0x00; R 0x4059 0x80; R 0x405e 0x20; R 0x4500 0x07;
   R 0x4503 0x00; R 0x450a 0x04; R 0x4809 0x04; R 0x480c 0x12; R 0x481f 0x30;
   R 0x4833 0x10; R 0x4837 0x1e; R 0x4902 0x02; R 0x4d00 0x03; R 0x4d01 0xc9;
   R 0x4d02 0xbc; R 0x4d03 0xd7; R 0x4d04 0xf0; R 0x4d05 0xa2; R 0x5000 0xfd;
   R 0x5001 0x01; R 0x5040 0x39; R 0x5041 0x10; R 0x5042 0x10; R 0x5043 0x84;
   R 0x5044 0x62; R 0x5180 0x00; R 0x5181 0x10; R 0x5182 0x02; R 0x5183 0x0f;
   R 0x5200 0x1b; R 0x520b 0x07; R 0x520c 0x0f; R 0x5300 0x04; R 0x5301 0x0c;
   R 0x5302 0x0c; R 0x5303 0x0f; R 0x5304 0x00; R 0x5305 0x70; R 0x5306 0x00;
   R 0x5307 0x80; R 0x5308 0x00; R 0x5309 0xa5; R 0x530a 0x00; R 0x530b 0xd3;
   R 0x530c 0x00; R 0x530d 0xf0; R 0x530e 0x01; R 0x530f 0x10; R 0x5310 0x01;
   R 0x5311 0x20; R 0x5312 0x01; R 0x5313 0x20; R 0x5314 0x01; R 0x5315 0x20;
   R 0x5316 0x08; R 0x5317 0x08; R 0x5318 0x10; R 0x5319 0x88; R 0x531a 0x88;
   R 0x531b 0xa9; R 0x531c 0xaa; R 0x531d 0x0a; R 0x5405 0x02; R 0x5406 0x67;
   R 0x5407 0x01; R 0x5408 0x4a].

Definition mipi_data_rate_1080mbps : list ov13855_reg := [].
Definition mipi_data_rate_540mbps : list ov13855_reg := [].

Definition link_freq_configs : list ov13855_link_freq_config :=
  [ {| pixel_rate := to_u32 (4224 * 3136 * 30);
       pixels_per_line := OV13855_PPL_1080MHZ;
       pll_reg_list := mipi_data_rate_1080mbps |};
    {| pixel_rate := to_u32 (2112 * 1568 * 60);
       pixels_per_line := OV13855_PPL_540MHZ;
       pll_reg_list := mipi_data_rate_540mbps |} ].

Definition mode_4224x3136 : ov13855_mode :=
  {| width := 4224; height := 3136; vts := OV13855_VTS_30FPS;
     reg_list := mode_4224x3136_regs;
     link_freq_index := OV13855_LINK_FREQ_INDEX_0 |}.

Definition mode_2112x1568 : ov13855_mode :=
  {| width := 2112; height := 1568; vts := OV13855_VTS_60FPS;
     reg_list := mode_2112x1568_regs;
     link_freq_index := OV13855_LINK_FREQ_INDEX_1 |}.

Definition mode_1056x784 : ov13855_mode :=
  {| width := 1056; height := 784; vts := OV13855_VTS_30FPS;
     reg_list := mode_1056x784_regs;
     link_freq_index := OV13855_LINK_FREQ_INDEX_1 |}.

Definition supported_modes : list ov13855_mode :=
  [mode_4224x3136; mode_2112x1568; mode_1056x784].

(** [link_freq_configs[i]]; every mode's index is 0 or 1. *)
Definition link_freq_config_at (i : Z) : ov13855_link_freq_config :=
  nth (Z.to_nat i) link_freq_configs
      {| pixel_rate := 0; pixels_per_line := 0; pll_reg_list := [] |}.

(** *** Best-fit selection *)

(** Modelled from the spec: the kernel's [abs()] macro
    ([include/linux/kernel.h], not among the sources at hand).  The spec
    writes the distance with absolute values; on a 32-bit argument the
    macro reads the argument as a signed [int] and negates it when it is
    negative, giving an [int] again. *)
Definition abs (x : Z) : Z :=
  let __x := to_s32 x in
  to_s32 (if __x <? 0 then - __x else __x).

(** [ov13855_get_resolution_dist]: [mode->width - framefmt->width] is
    computed on [u32] operands, the sum of the two [abs] values is an
    [int]. *)
Definition ov13855_get_resolution_dist (mode : ov13855_mode) (fw fh : Z) : Z :=
  to_s32 (abs (to_u32 (width mode - fw)) + abs (to_u32 (height mode - fh))).

(** The [for] loop of [ov13855_find_best_fit], at index [i] with
    [modes] the entries from [i] on. *)
Fixpoint best_fit_loop (modes : list ov13855_mode) (fw fh : Z) (i : nat)
    (cur_best_fit : nat) (cur_best_fit_dist : Z) : nat :=
  match modes with
  | [] => cur_best_fit
  | m :: rest =>
      let dist := ov13855_get_resolution_dist m fw fh in
      if (cur_best_fit_dist =? -1) || (dist <? cur_best_fit_dist)
      then best_fit_loop rest fw fh (S i) i dist
      else best_fit_loop rest fw fh (S i) cur_best_fit cur_best_fit_dist
  end.

(** Index chosen by [ov13855_find_best_fit] for a requested
    [fw] x [fh] ([framefmt->width], [framefmt->height], both [__u32]). *)
Definition ov13855_find_best_fit_index (fw fh : Z) : nat :=
  best_fit_loop supported_modes (to_u32 fw) (to_u32 fh) 0 0 (-1).

Definition ov13855_find_best_fit (fw fh : Z) : ov13855_mode :=
  nth (ov13855_find_best_fit_index fw fh) supported_modes mode_4224x3136.

(** The distance the spec speaks of, on unbounded integers. *)
Definition resolution_distance (mode : ov13855_mode) (fw fh : Z) : Z :=
  Z.abs (width mode - fw) + Z.abs (height mode - fh).

(** ** Controls, device state and the platform *)

Inductive ctrl_id : Type :=
| V4L2_CID_LINK_FREQ
| V4L2_CID_PIXEL_RATE
| V4L2_CID_VBLANK
| V4L2_CID_HBLANK
| V4L2_CID_EXPOSURE
| V4L2_CID_ANALOGUE_GAIN
| V4L2_CID_TEST_PATTERN.

#[global] Instance ctrl_id_eq_dec : EqDecision ctrl_id.
Proof. solve_decision. Defined.

(** [struct v4l2_ctrl], the fields the driver touches: [cur] is
    [ctrl->cur.val], [read_only] the [V4L2_CTRL_FLAG_READ_ONLY] bit of
    [ctrl->flags]. *)
Record v4l2_ctrl := {
  id : ctrl_id;
  minimum : Z;
  maximum : Z;
  step : Z;
  default_value : Z;
  cur : Z;
  read_only : bool
}.

(** [struct ov13855].  The control pointers ([link_freq], [vblank],
    [exposure], ...) point into the handler, so they are the controls'
    ids here; [reset_gpio] says whether the optional reset line exists. *)
Record ov13855 := {
  ctrl_handler : list v4l2_ctrl;
  cur_mode : ov13855_mode;
  reset_gpio : bool;
  power_count : Z;
  streaming : bool
}.

(** What the driver asks of the platform. *)
Inductive event : Type :=
| I2C_MASTER_SEND (buf : list Z)
| I2C_TRANSFER (addr : list Z) (len : Z)
| PM_RUNTIME_GET_SYNC
| PM_RUNTIME_GET_IF_IN_USE
| PM_RUNTIME_PUT
| PM_RUNTIME_PUT_NOIDLE
| GPIOD_SET_VALUE (v : Z)
| REGULATOR_BULK_ENABLE
| REGULATOR_BULK_DISABLE
| CLK_PREPARE_ENABLE
| CLK_DISABLE_UNPREPARE
| UDELAY (usecs : Z)
| USLEEP_RANGE (lo hi : Z)
| WARN.

(** The platform's side: the return code of the call at the head of a
    history (newest call first), and the bytes a device puts on the bus
    during the read at the head of a history. *)
Record environment := {
  reply : list event -> Z;
  rx : list event -> nat -> Z
}.

(** The driver instance, the usage counter of its [struct device]
    ([client->dev]) and the history of platform calls, newest first. *)
Record world := {
  dev : ov13855;
  usage_count : Z;
  trace : list event
}.

Definition set_dev (d : ov13855) (w : world) : world :=
  {| dev := d; usage_count := usage_count w; trace := trace w |}.
Definition set_usage_count (n : Z) (w : world) : world :=
  {| dev := dev w; usage_count := n; trace := trace w |}.
Definition set_trace (tr : list event) (w : world) : world :=
  {| dev := dev w; usage_count := usage_count w; trace := tr |}.

Definition set_ctrl_handler (h : list v4l2_ctrl) (d : ov13855) : ov13855 :=
  {| ctrl_handler := h; cur_mode := cur_mode d; reset_gpio := reset_gpio d;
     power_count := power_count d; streaming := streaming d |}.
Definition set_cur_mode (m : ov13855_mode) (d : ov13855) : ov13855 :=
  {| ctrl_handler := ctrl_handler d; cur_mode := m; reset_gpio := reset_gpio d;
     power_count := power_count d; streaming := streaming d |}.
Definition set_power_count (n : Z) (d : ov13855) : ov13855 :=
  {| ctrl_handler := ctrl_handler d; cur_mode := cur_mode d;
     reset_gpio := reset_gpio d; power_count := n; streaming := streaming d |}.
Definition set_streaming (b : bool) (d : ov13855) : ov13855 :=
  {| ctrl_handler := ctrl_handler d; cur_mode := cur_mode d;
     reset_gpio := reset_gpio d; power_count := power_count d; streaming := b |}.

(** *** The state monad of driver code *)

Definition M (A : Type) : Type := world -> A * world.

Definition ret {A} (a : A) : M A := fun w => (a, w).
Definition bind {A B} (c : M A) (k : A -> M B) : M B :=
  fun w => let (a, w') := c w in k a w'.

Declare Scope drv_scope.
Delimit Scope drv_scope with drv.
Notation "x <- c ;; k" := (bind c (fun x => k))
  (at level 100, c at next level, right associativity) : drv_scope.
Notation "c ;; k" := (bind c (fun _ => k))
  (at level 100, right associativity) : drv_scope.
Local Open Scope drv_scope.

Definition get_dev : M ov13855 := fun w => (dev w, w).
Definition modify_dev (f : ov13855 -> ov13855) : M unit :=
  fun w => (tt, set_dev (f (dev w)) w).
Definition when (b : bool) (c : M unit) : M unit := if b then c else ret tt.

(** *** Control handler access *)

Definition null_ctrl : v4l2_ctrl :=
  {| id := V4L2_CID_LINK_FREQ; minimum := 0; maximum := 0; step := 0;
     default_value := 0; cur := 0; read_only := false |}.

Definition find_ctrl (c : ctrl_id) (h : list v4l2_ctrl) : option v4l2_ctrl :=
  List.find (fun x => bool_decide (id x = c)) h.

(** Dereferencing a control pointer such as [ov13855->exposure]. *)
Definition ctrl (c : ctrl_id) (d : ov13855) : v4l2_ctrl :=
  default null_ctrl (find_ctrl c (ctrl_handler d)).

Definition update_ctrl (c : ctrl_id) (f : v4l2_ctrl -> v4l2_ctrl)
    (h : list v4l2_ctrl) : list v4l2_ctrl :=
  List.map (fun x => if bool_decide (id x = c) then f x else x) h.

Definition set_range (mn mx st df : Z) (c : v4l2_ctrl) : v4l2_ctrl :=
  {| id := id c; minimum := mn; maximum := mx; step := st;
     default_value := df; cur := cur c; read_only := read_only c |}.
Definition set_cur (v : Z) (c : v4l2_ctrl) : v4l2_ctrl :=
  {| id := id c; minimum := minimum c; maximum := maximum c; step := step c;
     default_value := default_value c; cur := v; read_only := read_only c |}.
Definition set_read_only (b : bool) (c : v4l2_ctrl) : v4l2_ctrl :=
  {| id := id c; minimum := minimum c; maximum := maximum c; step := step c;
     default_value := default_value c; cur := cur c; read_only := b |}.

(** ** Byte order *)

Definition byte_of (v : Z) (k : Z) : Z := Z.land (Z.shiftr v (8 * k)) 0xff.

(** The bytes of [cpu_to_be16(v)] / [cpu_to_be32(v)] in memory order. *)
Definition cpu_to_be16 (v : Z) : list Z := [byte_of v 1; byte_of v 0].
Definition cpu_to_be32 (v : Z) : list Z :=
  [byte_of v 3; byte_of v 2; byte_of v 1; byte_of v 0].

(** [be32_to_cpu] of the four bytes found in memory. *)
Definition be32_to_cpu (bs : list Z) : Z :=
  Z.lor (Z.shiftl (nth 0 bs 0) 24)
    (Z.lor (Z.shiftl (nth 1 bs 0) 16)
       (Z.lor (Z.shiftl (nth 2 bs 0) 8) (nth 3 bs 0))).

(** The [w] low bytes of [v], most significant first. *)
Fixpoint be_bytes (w : nat) (v : Z) : list Z :=
  match w with
  | O => []
  | S w' => byte_of v (Z.of_nat w') :: be_bytes w' v
  end.

Section Driver.

Variable env : environment.

(** ** Platform calls *)

(** A call that returns an [int]: it is appended to the history and the
    platform's answer for that history is its result. *)
Definition call (e : event) : M Z :=
  fun w => let tr := e :: trace w in (to_s32 (reply env tr), set_trace tr w).

(** A call whose result the driver does not look at. *)
Definition emit (e : event) : M unit :=
  fun w => (tt, set_trace (e :: trace w) w).

(** [i2c_master_send(client, buf, count)]: one write transaction of the
    first [count] bytes of [buf]; the result is the number of bytes
    written or a negative errno. *)
Definition i2c_master_send (buf : list Z) (count : Z) : M Z :=
  call (I2C_MASTER_SEND (take (Z.to_nat count) buf)).

(** [i2c_transfer] of the two messages of [ov13855_read_reg]: the
    address bytes are written, then [len] bytes are read without a new
    start.  The result is the number of messages done or a negative
    errno, together with the bytes read. *)
Definition i2c_transfer (addr : list Z) (len : Z) : M (Z * list Z) :=
  fun w =>
    let tr := I2C_TRANSFER addr len :: trace w in
    ((to_s32 (reply env tr),
      List.map (fun k => to_u8 (rx env tr k)) (seq 0 (Z.to_nat len))),
     set_trace tr w).

(** ** Register transport *)

(** Stores [src] into [dst] from index [at_] on ([msgs[1].buf =
    &data_be_p[4 - len]]). *)
Fixpoint store_bytes (at_ : nat) (src dst : list Z) : list Z :=
  match src with
  | [] => dst
  | b :: src' => store_bytes (S at_) src' (<[at_ := b]> dst)
  end.

(** Read registers up to 4 at a time.  [v] is what [*val] held before;
    the result is the return code and what [*val] holds afterwards. *)
Definition ov13855_read_reg (reg len v : Z) : M (Z * Z) :=
  let reg := to_u16 reg in
  let len := to_u32 len in
  let data_be := cpu_to_be32 0 in
  let reg_addr_be := cpu_to_be16 reg in
  if 4 <? len then ret (- EINVAL, v)
  else
    r <- i2c_transfer reg_addr_be len ;;
    if negb (fst r =? 2) then ret (- EIO, v)
    else
      let data_be := store_bytes (Z.to_nat (4 - len)) (snd r) data_be in
      ret (0, be32_to_cpu data_be).

(** [while (val_i < 4) buf[buf_i++] = val_p[val_i++];] -- [n] is the
    number of iterations left, [4 - val_i]. *)
Fixpoint copy_val_bytes (n : nat) (val_p buf : list Z) (buf_i val_i : nat)
    : list Z :=
  match n with
  | O => buf
  | S n' =>
      copy_val_bytes n' val_p (<[buf_i := nth val_i val_p 0]> buf)
                     (S buf_i) (S val_i)
  end.

(** The six-byte buffer [buf] of [ov13855_write_reg] when it is handed
    to the bus. *)
Definition write_reg_buf (reg len v : Z) : list Z :=
  let buf := replicate 6 0 in
  let buf := <[0%nat := to_u8 (Z.shiftr reg 8)]> buf in
  let buf := <[1%nat := to_u8 (Z.land reg 0xff)]> buf in
  let val_p := cpu_to_be32 v in
  let buf_i := 2%nat in
  let val_i := Z.to_nat (4 - len) in
  copy_val_bytes (4 - val_i) val_p buf buf_i val_i.

(** Write registers up to 4 at a time. *)
Definition ov13855_write_reg (reg len v : Z) : M Z :=
  let reg := to_u16 reg in
  let len := to_u32 len in
  let v := to_u32 v in
  if 4 <? len then ret (- EINVAL)
  else
    n <- i2c_master_send (write_reg_buf reg len v) (len + 2) ;;
    if negb (to_u32 n =? len + 2) then ret (- EIO) else ret 0.

(** Write a list of registers. *)
Fixpoint ov13855_write_regs (regs : list ov13855_reg) : M Z :=
  match regs with
  | [] => ret 0
  | r :: regs' =>
      e <- ov13855_write_reg (address r) 1 (val r) ;;
      if negb (e =? 0) then ret e else ov13855_write_regs regs'
  end.

Definition ov13855_write_reg_list (r_list : list ov13855_reg) : M Z :=
  ov13855_write_regs r_list.

(** The source assigns [pattern = 1] before anything else. *)
Definition ov13855_enable_test_pattern (pattern : Z) : M Z :=
  let pattern := to_u32 pattern in
  let pattern := 1 in
  r <- ov13855_read_reg OV13855_REG_TEST_PATTERN OV13855_REG_VALUE_08BIT 0 ;;
  if negb (fst r =? 0) then ret (fst r)
  else
    let v := snd r in
    let v :=
      if negb (pattern =? 0)
      then to_u32 (Z.lor (Z.land v OV13855_TEST_PATTERN_MASK)
                     (Z.lor (to_u32 (pattern - 1))
                        OV13855_TEST_PATTERN_ENABLE))
      else to_u32 (Z.land v (Z.lnot OV13855_TEST_PATTERN_ENABLE)) in
    ov13855_write_reg OV13855_REG_TEST_PATTERN OV13855_REG_VALUE_08BIT v.

(** ** Runtime power management *)

(** Modelled from the spec: [pm_runtime_get_sync] (runtime PM core, not
    among the sources at hand) is the spec's [enable_power()]: it
    increments the power reference count, and on the transition from 0
    to 1 the device is powered up, which can fail with a negative
    errno.  The count stays incremented then; the caller drops it. *)
Definition pm_runtime_get_sync : M Z :=
  fun w =>
    let n := usage_count w in
    let (r, w') := call PM_RUNTIME_GET_SYNC (set_usage_count (n + 1) w) in
    if n =? 0 then (if r <? 0 then r else 0, w') else (0, w').

(** Modelled from the spec: [pm_runtime_put] is the spec's
    [disable_power()]: it decrements the power reference count; the
    platform powers the device down on the transition from 1 to 0 and
    never reports a failure. *)
Definition pm_runtime_put : M unit :=
  fun w => emit PM_RUNTIME_PUT (set_usage_count (usage_count w - 1) w).

(** Modelled from the spec: [pm_runtime_put_noidle] drops the reference
    that a failed [pm_runtime_get_sync] left behind and does nothing
    else. *)
Definition pm_runtime_put_noidle : M unit :=
  fun w => emit PM_RUNTIME_PUT_NOIDLE (set_usage_count (usage_count w - 1) w).

(** Modelled from the spec: the device is powered exactly when the
    power reference count is positive; [pm_runtime_get_if_in_use] takes
    a reference and returns 1 then, and returns 0 otherwise. *)
Definition pm_runtime_get_if_in_use : M Z :=
  fun w =>
    let n := usage_count w in
    if 0 <? n
    then (1, set_trace (PM_RUNTIME_GET_IF_IN_USE :: trace w)
               (set_usage_count (n + 1) w))
    else (0, set_trace (PM_RUNTIME_GET_IF_IN_USE :: trace w) w).

(** ** The control framework *)

(** Modelled from the spec: [__v4l2_ctrl_modify_range] (V4L2 control
    framework, not among the sources at hand) recomputes a control's
    minimum, maximum, step and default and clamps the current value
    into the new range when it now lies outside. *)
Definition modify_range (mn mx st df : Z) (x : v4l2_ctrl) : v4l2_ctrl :=
  let x := set_range mn mx st df x in
  if mx <? cur x then set_cur mx x
  else if cur x <? mn then set_cur mn x
  else x.

Definition __v4l2_ctrl_modify_range (c : ctrl_id) (mn mx st df : Z) : M Z :=
  modify_dev (fun d =>
    set_ctrl_handler
      (update_ctrl c (modify_range mn mx st df) (ctrl_handler d)) d) ;;
  ret 0.

(** The first [switch] of [ov13855_set_ctrl]: propagate change of
    current control to all related controls.  [v] is [ctrl->val], an
    [s32]; the new maximum is computed in [u32] and widened to [s64]. *)
Definition propagate_ctrl (c : ctrl_id) (v : Z) : M unit :=
  match c with
  | V4L2_CID_VBLANK =>
      d <- get_dev ;;
      (* Update max exposure while meeting expected vblanking *)
      let max := to_u32 (height (cur_mode d) + to_u32 v - 8) in
      __v4l2_ctrl_modify_range V4L2_CID_EXPOSURE
        (minimum (ctrl V4L2_CID_EXPOSURE d)) max
        (step (ctrl V4L2_CID_EXPOSURE d)) max ;;
      ret tt
  | _ => ret tt
  end.

(** The second [switch] of [ov13855_set_ctrl]: the register write of
    the control. *)
Definition write_ctrl (c : ctrl_id) (v : Z) : M Z :=
  d <- get_dev ;;
  match c with
  | V4L2_CID_EXPOSURE =>
      ov13855_write_reg OV13855_REG_EXPOSURE OV13855_REG_VALUE_24BIT
        (to_s32 (Z.shiftl v 4))
  | V4L2_CID_VBLANK =>
      (* Update VTS that meets expected vertical blanking *)
      ov13855_write_reg OV13855_REG_VTS OV13855_REG_VALUE_16BIT
        (to_u32 (height (cur_mode d) + to_u32 v))
  | V4L2_CID_TEST_PATTERN => ov13855_enable_test_pattern v
  | _ => ret 0
  end.

(** [ov13855_set_ctrl], the handler's [s_ctrl] operation. *)
Definition ov13855_set_ctrl (c : ctrl_id) (v : Z) : M Z :=
  propagate_ctrl c v ;;
  (* Applying V4L2 control value only happens when power is up for
     streaming *)
  n <- pm_runtime_get_if_in_use ;;
  if n <=? 0 then ret 0
  else
    e <- write_ctrl c v ;;
    pm_runtime_put ;;
    ret e.

(** Modelled from the spec: [__v4l2_ctrl_s_ctrl] (and its 64-bit twin)
    is the spec's [set] when it comes from internal propagation: a
    value outside [minimum, maximum] is refused and the control left
    unchanged; otherwise the handler's [s_ctrl] operation runs with the
    new value, and the value is recorded when that succeeds. *)
Definition __v4l2_ctrl_s_ctrl (c : ctrl_id) (v : Z) : M Z :=
  d <- get_dev ;;
  if (v <? minimum (ctrl c d)) || (maximum (ctrl c d) <? v)
  then ret (- ERANGE)
  else
    e <- ov13855_set_ctrl c v ;;
    if negb (e =? 0) then ret e
    else
      modify_dev (fun d =>
        set_ctrl_handler (update_ctrl c (set_cur v) (ctrl_handler d)) d) ;;
      ret 0.

Definition __v4l2_ctrl_s_ctrl_int64 (c : ctrl_id) (v : Z) : M Z :=
  __v4l2_ctrl_s_ctrl c v.

(** Modelled from the spec: a [set] from outside (the control ioctls
    of the framework) fails on a read-only control and otherwise
    behaves like the internal one. *)
Definition v4l2_s_ctrl (c : ctrl_id) (v : Z) : M Z :=
  d <- get_dev ;;
  if read_only (ctrl c d) then ret (- EACCES) else __v4l2_ctrl_s_ctrl c v.

(** Modelled from the spec: [__v4l2_ctrl_handler_setup] replays every
    control's current value through the handler's [s_ctrl] operation,
    reading each value when its turn comes, and stops at the first
    error. *)
Fixpoint replay_ctrls (ids : list ctrl_id) : M Z :=
  match ids with
  | [] => ret 0
  | c :: ids' =>
      d <- get_dev ;;
      e <- ov13855_set_ctrl c (cur (ctrl c d)) ;;
      if negb (e =? 0) then ret e else replay_ctrls ids'
  end.

Definition __v4l2_ctrl_handler_setup : M Z :=
  d <- get_dev ;;
  replay_ctrls (List.map id (ctrl_handler d)).

(** ** Controls of the device *)

(** Modelled from the spec: [v4l2_ctrl_new_std] and its menu variants
    create a control with the given range whose current value is the
    default. *)
Definition v4l2_ctrl_new_std (c : ctrl_id) (mn mx st df : Z) : v4l2_ctrl :=
  {| id := c; minimum := mn; maximum := mx; step := st;
     default_value := df; cur := df; read_only := false |}.

(** Initialize control handlers: the controls in creation order, for
    the mode [ov13855->cur_mode] points to. *)
Definition ov13855_init_controls (m : ov13855_mode) : list v4l2_ctrl :=
  let exposure_max := to_u32 (vts m - 8) in
  [ set_read_only true
      (v4l2_ctrl_new_std V4L2_CID_LINK_FREQ 0
         (OV13855_NUM_OF_LINK_FREQS - 1) 1 0);
    (* By default, PIXEL_RATE is read only *)
    set_read_only true
      (v4l2_ctrl_new_std V4L2_CID_PIXEL_RATE 0
         (pixel_rate (link_freq_config_at 0)) 1
         (pixel_rate (link_freq_config_at 0)));
    v4l2_ctrl_new_std V4L2_CID_VBLANK OV13855_VBLANK_MIN
      (to_u32 (OV13855_VTS_MAX - height m)) 1 (to_u32 (vts m - height m));
    set_read_only true
      (v4l2_ctrl_new_std V4L2_CID_HBLANK
         (to_u32 (OV13855_PPL_1080MHZ - width m))
         (to_u32 (OV13855_PPL_1080MHZ - width m)) 1
         (to_u32 (OV13855_PPL_1080MHZ - width m)));
    v4l2_ctrl_new_std V4L2_CID_EXPOSURE OV13855_EXPOSURE_MIN exposure_max
      OV13855_EXPOSURE_STEP OV13855_EXPOSURE_DEFAULT;
    v4l2_ctrl_new_std V4L2_CID_ANALOGUE_GAIN OV13855_ANA_GAIN_MIN
      OV13855_ANA_GAIN_MAX OV13855_ANA_GAIN_STEP OV13855_ANA_GAIN_DEFAULT;
    v4l2_ctrl_new_std V4L2_CID_TEST_PATTERN 0 4 1 0 ].

(** ** Pad format *)

Definition V4L2_SUBDEV_FORMAT_TRY : Z := 0.
Definition V4L2_SUBDEV_FORMAT_ACTIVE : Z := 1.

(** [ov13855_set_pad_format] for a request [fw] x [fh]; the result is
    the return code and the width and height written back to
    [fmt->format].  A TRY request only stores the format in the
    caller's pad configuration. *)
Definition ov13855_set_pad_format (which fw fh : Z) : M (Z * (Z * Z)) :=
  let mode := ov13855_find_best_fit fw fh in
  let fmt := (width mode, height mode) in
  if which =? V4L2_SUBDEV_FORMAT_TRY then ret (0, fmt)
  else
    modify_dev (set_cur_mode mode) ;;
    __v4l2_ctrl_s_ctrl V4L2_CID_LINK_FREQ (link_freq_index mode) ;;
    __v4l2_ctrl_s_ctrl_int64 V4L2_CID_PIXEL_RATE
      (pixel_rate (link_freq_config_at (link_freq_index mode))) ;;
    (* Update limits and set FPS to default *)
    let vblank_def := to_s32 (vts mode - height mode) in
    __v4l2_ctrl_modify_range V4L2_CID_VBLANK OV13855_VBLANK_MIN
      (to_u32 (OV13855_VTS_MAX - height mode)) 1 vblank_def ;;
    __v4l2_ctrl_s_ctrl V4L2_CID_VBLANK vblank_def ;;
    let h_blank :=
      to_u32 (pixels_per_line (link_freq_config_at (link_freq_index mode))
              - width mode) in
    __v4l2_ctrl_modify_range V4L2_CID_HBLANK h_blank h_blank 1 h_blank ;;
    ret (0, fmt).

(** ** Streaming *)

(** Start streaming *)
Definition ov13855_start_streaming : M Z :=
  (* Get out of software reset *)
  e <- ov13855_write_reg OV13855_REG_SOFTWARE_RST OV13855_REG_VALUE_08BIT
         OV13855_SOFTWARE_RST ;;
  if negb (e =? 0) then ret e
  else
    e <- ov13855_write_regs init_setting ;;
    if negb (e =? 0) then ret e
    else
      (* Apply default values of current mode *)
      d <- get_dev ;;
      e <- ov13855_write_reg_list (reg_list (cur_mode d)) ;;
      if negb (e =? 0) then ret e
      else
        (* Apply customized values from user *)
        e <- __v4l2_ctrl_handler_setup ;;
        if negb (e =? 0) then ret e
        else
          ov13855_write_reg OV13855_REG_MODE_SELECT OV13855_REG_VALUE_08BIT
            OV13855_MODE_STREAMING.

(** Stop streaming *)
Definition ov13855_stop_streaming : M Z :=
  ov13855_write_reg OV13855_REG_MODE_SELECT OV13855_REG_VALUE_08BIT
    OV13855_MODE_STANDBY.

(** [ov13855_set_stream(sd, enable)]; [streaming] is a [bool], [enable]
    an [int]. *)
Definition ov13855_set_stream (enable : Z) : M Z :=
  let enable := to_s32 enable in
  d <- get_dev ;;
  if Z.b2z (streaming d) =? enable then ret 0
  else if negb (enable =? 0) then
    r <- pm_runtime_get_sync ;;
    if r <? 0 then
      pm_runtime_put_noidle ;;
      ret r
    else
      (* Apply default & customized values and then start streaming. *)
      r <- ov13855_start_streaming ;;
      if negb (r =? 0) then
        pm_runtime_put ;;
        ret r
      else
        modify_dev (set_streaming true) ;;
        ret r
  else
    ov13855_stop_streaming ;;
    pm_runtime_put ;;
    modify_dev (set_streaming false) ;;
    ret 0.

(** ** Power *)

Definition gpiod_set_value (v : Z) : M unit := emit (GPIOD_SET_VALUE v).

Definition ov13855_set_power (on : bool) : M Z :=
  d <- get_dev ;;
  when (reset_gpio d) (gpiod_set_value 0) ;;
  if on then
    r <- call REGULATOR_BULK_ENABLE ;;
    if negb (r =? 0) then
      (* xclk_off *)
      emit CLK_DISABLE_UNPREPARE ;;
      ret r
    else
      when (reset_gpio d) (gpiod_set_value 1) ;;
      emit (UDELAY 5000) ;;
      r <- call CLK_PREPARE_ENABLE ;;
      if negb (r =? 0) then ret r
      else
        emit (USLEEP_RANGE 10000 20000) ;;
        ret 0
  else
    (* power_off *)
    emit REGULATOR_BULK_DISABLE ;;
    (* xclk_off *)
    emit CLK_DISABLE_UNPREPARE ;;
    ret 0.

(** [ov13855_s_power(sd, on)]: [!on] is 1 for [on == 0] and 0
    otherwise. *)
Definition ov13855_s_power (on : Z) : M Z :=
  let on := to_s32 on in
  d <- get_dev ;;
  (* If the power count is modified from 0 to != 0 or from != 0 to 0,
     update the power state. *)
  r <- (if power_count d =? (if on =? 0 then 1 else 0)
        then ov13855_set_power (negb (on =? 0))
        else ret 0) ;;
  if negb (r =? 0) then ret r
  else
    (* Update the power count. *)
    let n := to_s32 (power_count d + (if negb (on =? 0) then 1 else -1)) in
    modify_dev (set_power_count n) ;;
    when (n <? 0) (emit WARN) ;;
    ret r.

(** Verify chip ID *)
Definition ov13855_identify_module : M Z :=
  r <- ov13855_read_reg OV13855_REG_CHIP_ID OV13855_REG_VALUE_24BIT 0 ;;
  if negb (fst r =? 0) then ret (fst r)
  else if negb (snd r =? OV13855_CHIP_ID) then ret (- EIO)
  else ret 0.

(** [ov13855_probe] up to the creation of the controls: the result of
    the identity check is only reported, the default mode is the
    largest resolution, everything else is zero-initialised. *)
Definition ov13855_probe (has_reset : bool) : M Z :=
  ov13855_identify_module ;;
  modify_dev (fun _ =>
    {| ctrl_handler := ov13855_init_controls mode_4224x3136;
       cur_mode := mode_4224x3136;
       reset_gpio := has_reset;
       power_count := 0;
       streaming := false |}) ;;
  ret 0.

(** Runs a sequence of [s_power] calls, collecting the return codes. *)
Fixpoint s_power_seq (ons : list Z) : M (list Z) :=
  match ons with
  | [] => ret []
  | on :: ons' =>
      r <- ov13855_s_power on ;;
      rs <- s_power_seq ons' ;;
      ret (r :: rs)
  end.

End Driver.

(** ** Concrete platforms and instances *)

(** The instance right after [devm_kzalloc]. *)
Definition fresh_world : world :=
  {| dev := {| ctrl_handler := []; cur_mode := mode_4224x3136;
               reset_gpio := false; power_count := 0; streaming := false |};
     usage_count := 0;
     trace := [] |}.

Definition ok_reply (tr : list event) : Z :=
  match tr with
  | I2C_MASTER_SEND buf :: _ => Z.of_nat (length buf)
  | I2C_TRANSFER _ _ :: _ => 2
  | _ => 0
  end.

(** A platform on which every call succeeds and the sensor reads back
    zeros. *)
Definition env_ok : environment :=
  {| reply := ok_reply; rx := fun _ _ => 0 |}.

(** A platform whose [k]-th call (counting from 1) fails with [err],
    everything else succeeding. *)
Definition env_fail_at (k : nat) (err : Z) : environment :=
  {| reply := fun tr => if (length tr =? k)%nat then err else ok_reply tr;
     rx := fun _ _ => 0 |}.

(** A platform whose sensor answers every read with the bytes [bs]. *)
Definition env_rx (bs : list Z) : environment :=
  {| reply := ok_reply; rx := fun _ k => nth k bs 0 |}.

(** The instance after a successful probe on [env_ok], with the history
    cleared. *)
Definition probed_world : world :=
  set_trace [] (snd (ov13855_probe env_ok false fresh_world)).

(** ** The other sub-device operations *)

(** [MEDIA_BUS_FMT_SBGGR10_1X10] and [V4L2_FIELD_NONE], constants of
    the media headers. *)
Definition OV13855_MEDIA_BUS_FMT : Z := 0x3007.
Definition V4L2_FIELD_NONE : Z := 1.

Definition OV13855_REG_B_MWB_GAIN : Z := 0x5100.
Definition OV13855_REG_G_MWB_GAIN : Z := 0x5102.
Definition OV13855_REG_R_MWB_GAIN : Z := 0x5104.

Definition OV13855_NUM_OF_SKIP_FRAMES : Z := 2.

(** [struct v4l2_mbus_framefmt], the fields the driver sets. *)
Record v4l2_mbus_framefmt := {
  fmt_width : Z;
  fmt_height : Z;
  fmt_code : Z;
  fmt_field : Z;
  fmt_colorspace : Z
}.

(** [struct v4l2_subdev_frame_size_enum]. *)
Record v4l2_subdev_frame_size_enum := {
  fse_index : Z;
  fse_code : Z;
  min_width : Z;
  max_width : Z;
  min_height : Z;
  max_height : Z
}.

(** [ov13855_enum_mbus_code]: the return code and what [code->code]
    holds afterwards, [code0] being what it held before. *)
Definition ov13855_enum_mbus_code (index code0 : Z) : Z * Z :=
  (* Only one bayer order(GRBG) is supported *)
  if 0 <? to_u32 index then (- EINVAL, code0)
  else (0, OV13855_MEDIA_BUS_FMT).

(** [ov13855_enum_frame_size]: the return code and [*fse] afterwards. *)
Definition ov13855_enum_frame_size (fse : v4l2_subdev_frame_size_enum)
    : Z * v4l2_subdev_frame_size_enum :=
  if Z.of_nat (length supported_modes) <=? to_u32 (fse_index fse)
  then (- EINVAL, fse)
  else if negb (to_u32 (fse_code fse) =? OV13855_MEDIA_BUS_FMT)
  then (- EINVAL, fse)
  else
    let m := nth (Z.to_nat (to_u32 (fse_index fse))) supported_modes
               mode_4224x3136 in
    (0, {| fse_index := fse_index fse; fse_code := fse_code fse;
           min_width := width m; max_width := width m;
           min_height := height m; max_height := height m |}).

(** [ov13855_update_pad_format]: the format written to [fmt->format]. *)
Definition ov13855_update_pad_format (mode : ov13855_mode)
    : v4l2_mbus_framefmt :=
  {| fmt_width := width mode; fmt_height := height mode;
     fmt_code := OV13855_MEDIA_BUS_FMT; fmt_field := V4L2_FIELD_NONE;
     fmt_colorspace := 0 |}.

(** [ov13855_get_pad_format] (with [ov13855_do_get_pad_format]):
    [try_fmt] is the format kept in the caller's pad configuration; the
    result is the return code and [fmt->format]. *)
Definition ov13855_get_pad_format (which : Z) (try_fmt : v4l2_mbus_framefmt)
    : M (Z * v4l2_mbus_framefmt) :=
  d <- get_dev ;;
  if which =? 0 (* V4L2_SUBDEV_FORMAT_TRY *) then ret (0, try_fmt)
  else ret (0, ov13855_update_pad_format (cur_mode d)).

(** [ov13855_open]: the return code and the try format it initialises. *)
Definition ov13855_open : M (Z * v4l2_mbus_framefmt) :=
  d <- get_dev ;;
  ret (0, {| fmt_width := width (cur_mode d);
             fmt_height := height (cur_mode d);
             fmt_code := OV13855_MEDIA_BUS_FMT;
             fmt_colorspace := 0;
             fmt_field := V4L2_FIELD_NONE |}).

(** [ov13855_get_skip_frames]: the return code and [*frames]. *)
Definition ov13855_get_skip_frames : Z * Z := (0, OV13855_NUM_OF_SKIP_FRAMES).

Section PowerManagement.

Variable env : environment.

(** [ov13855_update_digital_gain]: the same gain for the three colour
    channels, leaving at the first write that fails. *)
Definition ov13855_update_digital_gain (d_gain : Z) : M Z :=
  e <- ov13855_write_reg env OV13855_REG_B_MWB_GAIN OV13855_REG_VALUE_16BIT
         d_gain ;;
  if negb (e =? 0) then ret e
  else
    e <- ov13855_write_reg env OV13855_REG_G_MWB_GAIN OV13855_REG_VALUE_16BIT
           d_gain ;;
    if negb (e =? 0) then ret e
    else
      ov13855_write_reg env OV13855_REG_R_MWB_GAIN OV13855_REG_VALUE_16BIT
        d_gain.

(** [ov13855_suspend]: the result of stopping is not looked at. *)
Definition ov13855_suspend : M Z :=
  d <- get_dev ;;
  (if streaming d then ov13855_stop_streaming env ;; ret tt else ret tt) ;;
  ret 0.

(** [ov13855_resume]. *)
Definition ov13855_resume : M Z :=
  d <- get_dev ;;
  if streaming d then
    r <- ov13855_start_streaming env ;;
    if negb (r =? 0) then
      (* error: *)
      ov13855_stop_streaming env ;;
      modify_dev (set_streaming false) ;;
      ret r
    else ret 0
  else ret 0.

End PowerManagement.

(** The bus message of one entry of a register list. *)
Definition reg_msg (r : ov13855_reg) : event :=
  I2C_MASTER_SEND
    (cpu_to_be16 (to_u16 (address r)) ++ be_bytes 1 (to_u32 (val r))).

(** The three single-register messages of the streaming code: leave
    software reset, start streaming, enter standby. *)
Definition reset_msg : event := I2C_MASTER_SEND [0x01; 0x03; 0x01].
Definition streaming_msg : event := I2C_MASTER_SEND [0x01; 0x00; 0x01].
Definition standby_msg : event := I2C_MASTER_SEND [0x01; 0x00; 0x00].

(** What [ov13855_set_power] does to the reset line, when the board has
    one. *)
Definition gpio_events (st : world) (v : Z) : list event :=
  if reset_gpio (dev st) then [GPIOD_SET_VALUE v] else [].

(** The value of a byte string read most significant byte first. *)
Definition be_value (bs : list Z) : Z :=
  fold_left (fun acc b => acc * 256 + b) bs 0.

(** A platform on which every call is answered with [r]. *)
Definition env_const (r : Z) : environment :=
  {| reply := fun _ => r; rx := fun _ _ => 0 |}.

(** ** Observations used in the statements *)

(** [preserves f c]: running [c] does not change the observation [f] of
    the world. *)
Definition preserves {A T} (f : world -> T) (c : M A) : Prop :=
  forall st, f (snd (c st)) = f st.

(** Everything but the history of platform calls. *)
Definition software (w : world) : ov13855 * Z := (dev w, usage_count w).

(** Everything but the history and the ranges and values of the
    controls. *)
Definition shell (w : world)
    : ov13855_mode * bool * Z * bool * list ctrl_id * Z :=
  (cur_mode (dev w), reset_gpio (dev w), power_count (dev w),
   streaming (dev w), List.map id (ctrl_handler (dev w)), usage_count w).

Definition first_error (rs : list Z) : Z :=
  hd 0 (List.filter (fun r => negb (r =? 0)) rs).

Definition extends {A} (c : M A) : Prop :=
  forall st, exists evs, trace (snd (c st)) = evs ++ trace st.

(** The bus message that carries [v << 4] to the exposure register. *)
Definition exposure_write (v : Z) : event :=
  I2C_MASTER_SEND ([0x35; 0x00] ++ be_bytes 3 (Z.shiftl v 4)).

(** Two states of a control that differ at most in the current value. *)
Definition same_range (x y : v4l2_ctrl) : Prop :=
  minimum x = minimum y /\ maximum x = maximum y /\ step x = step y /\
  default_value x = default_value y /\ read_only x = read_only y.

(** * Properties *)

Local Open Scope drv_scope.

(** ** Machine integers *)

Lemma to_u32_id z : 0 <= z < 2 ^ 32 -> to_u32 z = z.
Proof. intros H. unfold to_u32. now apply Z.mod_small. Qed.

Lemma to_s32_id z : - 2 ^ 31 <= z < 2 ^ 31 -> to_s32 z = z.
Proof. intros H. unfold to_s32. rewrite Z.mod_small; lia. Qed.

Lemma to_u32_range z : 0 <= to_u32 z < 2 ^ 32.
Proof. unfold to_u32. apply Z.mod_pos_bound. lia. Qed.

Lemma to_s32_range z : - 2 ^ 31 <= to_s32 z < 2 ^ 31.
Proof.
  unfold to_s32. pose proof (Z.mod_pos_bound (z + 2 ^ 31) (2 ^ 32)). lia.
Qed.

(** Comparing an [int] with an unsigned quantity converts the [int]:
    a small non-negative count is matched by that very [int] only. *)
Lemma to_u32_eq_small r n :
  - 2 ^ 31 <= r < 2 ^ 31 -> 0 <= n < 2 ^ 31 -> to_u32 r = n <-> r = n.
Proof.
  intros Hr Hn. unfold to_u32. split; [|intros ->; apply Z.mod_small; lia].
  intros H. destruct (Z_lt_le_dec r 0) as [Hneg|Hpos].
  - replace r with ((r + 2 ^ 32) + (-1) * 2 ^ 32) in H by lia.
    rewrite Z.mod_add in H by lia. rewrite Z.mod_small in H; lia.
  - rewrite Z.mod_small in H; lia.
Qed.

(** ** Register transport *)

Section Transport.

Variable env : environment.

Lemma byte_of_range v k : 0 <= byte_of v k < 256.
Proof.
  unfold byte_of. change 0xff with (Z.ones 8). rewrite Z.land_ones by lia.
  apply Z.mod_pos_bound. lia.
Qed.

Lemma to_u8_hi reg :
  to_u8 (Z.shiftr (to_u16 reg) 8) = byte_of (to_u16 reg) 1.
Proof.
  unfold to_u8, byte_of, to_u16. change 0xff with (Z.ones 8).
  rewrite Z.land_ones by lia. reflexivity.
Qed.

Lemma to_u8_lo reg :
  to_u8 (Z.land (to_u16 reg) 0xff) = byte_of (to_u16 reg) 0.
Proof.
  unfold byte_of. rewrite Z.shiftr_0_r. unfold to_u8.
  apply Z.mod_small. apply (byte_of_range (to_u16 reg) 0).
Qed.

(** What the copy loop leaves in the part of the buffer that is sent. *)
Lemma write_reg_buf_bytes reg len v :
  0 <= len <= 4 ->
  take (Z.to_nat (len + 2)) (write_reg_buf (to_u16 reg) len v) =
  cpu_to_be16 (to_u16 reg) ++ be_bytes (Z.to_nat len) v.
Proof.
  intros H. unfold write_reg_buf. rewrite to_u8_hi, to_u8_lo.
  assert (len = 0 \/ len = 1 \/ len = 2 \/ len = 3 \/ len = 4) as Hc by lia.
  destruct Hc as [-> | [-> | [-> | [-> | ->]]]]; reflexivity.
Qed.

Lemma be_bytes_length w v : length (be_bytes w v) = w.
Proof. induction w as [|w IH]; simpl; [reflexivity | now rewrite IH]. Qed.

Lemma count_eqb x k :
  0 <= k < 2 ^ 31 -> (to_u32 (to_s32 x) =? k) = (to_s32 x =? k).
Proof.
  intros Hk. pose proof (to_s32_range x) as Hx.
  destruct (Z.eqb_spec (to_s32 x) k) as [E|E].
  - apply Z.eqb_eq. apply (proj2 (to_u32_eq_small _ _ Hx Hk)). exact E.
  - apply Z.eqb_neq. intros E'. apply E.
    apply (proj1 (to_u32_eq_small _ _ Hx Hk)). exact E'.
Qed.

(** [ov13855_write_reg] for a width the check lets through: one
    transaction of the address and the [len] low bytes, and [-EIO]
    unless the bus reports exactly [len + 2] bytes. *)
Lemma write_reg_accepted reg len v st :
  0 <= len <= 4 ->
  let buf := cpu_to_be16 (to_u16 reg) ++ be_bytes (Z.to_nat len) (to_u32 v) in
  let tr := I2C_MASTER_SEND buf :: trace st in
  ov13855_write_reg env reg len v st =
  ((if to_s32 (reply env tr) =? len + 2 then 0 else - EIO), set_trace tr st).
Proof.
  intros Hlen buf tr. unfold ov13855_write_reg.
  rewrite (to_u32_id len) by lia.
  destruct (Z.ltb_spec 4 len) as [Hgt|_]; [lia|].
  unfold bind, i2c_master_send, call.
  rewrite write_reg_buf_bytes by lia. fold buf. fold tr.
  rewrite count_eqb by lia.
  destruct (to_s32 (reply env tr) =? len + 2); reflexivity.
Qed.

Lemma write_reg_rejected reg len v st :
  4 < to_u32 len -> ov13855_write_reg env reg len v st = (- EINVAL, st).
Proof.
  intros H. unfold ov13855_write_reg.
  destruct (Z.ltb_spec 4 (to_u32 len)) as [_|Hle]; [reflexivity | lia].
Qed.

(** [ov13855_read_reg] for a width the check lets through. *)
Lemma read_reg_accepted reg len v0 st :
  0 <= len <= 4 ->
  let tr := I2C_TRANSFER (cpu_to_be16 (to_u16 reg)) len :: trace st in
  let data :=
    List.map (fun k => to_u8 (rx env tr k)) (seq 0 (Z.to_nat len)) in
  ov13855_read_reg env reg len v0 st =
  ((if to_s32 (reply env tr) =? 2
    then (0, be32_to_cpu
               (store_bytes (Z.to_nat (4 - len)) data (cpu_to_be32 0)))
    else (- EIO, v0)),
   set_trace tr st).
Proof.
  intros Hlen tr data. unfold ov13855_read_reg.
  rewrite (to_u32_id len) by lia.
  destruct (Z.ltb_spec 4 len) as [Hgt|_]; [lia|].
  unfold bind, i2c_transfer. cbn [fst snd]. fold tr. fold data.
  destruct (to_s32 (reply env tr) =? 2); reflexivity.
Qed.

Lemma read_reg_rejected reg len v0 st :
  4 < to_u32 len -> ov13855_read_reg env reg len v0 st = (- EINVAL, v0, st).
Proof.
  intros H. unfold ov13855_read_reg.
  destruct (Z.ltb_spec 4 (to_u32 len)) as [_|Hle]; [reflexivity | lia].
Qed.

End Transport.

(** C9: a register write of width [w] in 1..4 is one bus transaction of
    exactly [2 + w] bytes -- the two address bytes, high byte first, then
    the [w] low bytes of the value, most significant first -- and returns
    [-EIO] exactly when the bus reports a byte count other than [2 + w];
    a width above 4 returns [-EINVAL] and nothing is sent. *)
Theorem write_reg_wire_format (env : environment) (reg w v : Z) (st : world) :
  1 <= w <= U32_MAX ->
  if w <=? 4 then
    let buf := cpu_to_be16 (to_u16 reg) ++ be_bytes (Z.to_nat w) (to_u32 v) in
    let tr := I2C_MASTER_SEND buf :: trace st in
    let n := to_s32 (reply env tr) in
    Z.of_nat (length buf) = 2 + w /\
    trace (snd (ov13855_write_reg env reg w v st)) = tr /\
    ov13855_write_reg env reg w v st =
      ((if n =? 2 + w then 0 else - EIO), set_trace tr st)
  else
    ov13855_write_reg env reg w v st = (- EINVAL, st).
Proof.
  intros Hw. destruct (Z.leb_spec w 4) as [Hle|Hgt].
  - assert (0 <= w <= 4) as Hr by lia.
    pose proof (write_reg_accepted env reg w v st Hr) as H. cbv zeta in H.
    cbv zeta. rewrite H. rewrite (Z.add_comm 2 w). split; [|split].
    + rewrite length_app, be_bytes_length. simpl length. lia.
    + reflexivity.
    + reflexivity.
  - apply write_reg_rejected. unfold U32_MAX in Hw.
    rewrite to_u32_id by lia. exact Hgt.
Qed.

Lemma write_reg_wire_format_witness :
  1 <= 3 <= U32_MAX /\
  trace (snd (ov13855_write_reg env_ok 0x3500 3 0x6400 probed_world)) =
    [I2C_MASTER_SEND [0x35; 0x00; 0x00; 0x64; 0x00]].
Proof.
  assert (1 <= 3 <= U32_MAX) as Hw by (unfold U32_MAX; lia).
  split; [exact Hw|].
  pose proof (write_reg_wire_format env_ok 0x3500 3 0x6400 probed_world Hw)
    as H.
  change (3 <=? 4) with true in H. cbv beta iota zeta in H.
  destruct H as (_ & Htr & _).
  etransitivity; [exact Htr | vm_compute; reflexivity].
Defined.

(** C10: width 0 passes the width check of both transport functions: a
    width-0 write sends the two address bytes and no value byte, a
    width-0 read asks for 0 bytes and yields the value 0, and [-EINVAL]
    is returned exactly for widths above 4. *)
Theorem width_zero_not_rejected (env : environment) (reg v v0 : Z) (st : world) :
  let a := cpu_to_be16 (to_u16 reg) in
  let trw := I2C_MASTER_SEND a :: trace st in
  let trr := I2C_TRANSFER a 0 :: trace st in
  ov13855_write_reg env reg 0 v st =
    ((if to_s32 (reply env trw) =? 2 then 0 else - EIO), set_trace trw st) /\
  ov13855_read_reg env reg 0 v0 st =
    ((if to_s32 (reply env trr) =? 2 then (0, 0) else (- EIO, v0)),
     set_trace trr st) /\
  (forall len, fst (ov13855_write_reg env reg len v st) = - EINVAL
               <-> 4 < to_u32 len) /\
  (forall len, fst (fst (ov13855_read_reg env reg len v0 st)) = - EINVAL
               <-> 4 < to_u32 len).
Proof.
  cbv zeta. repeat split.
  - apply (write_reg_accepted env reg 0 v st). lia.
  - apply (read_reg_accepted env reg 0 v0 st). lia.
  - intros H. destruct (Z_lt_le_dec 4 (to_u32 len)) as [Hgt|Hle]; [exact Hgt|].
    pose proof (to_u32_range len) as Hr.
    unfold ov13855_write_reg in H.
    destruct (Z.ltb_spec 4 (to_u32 len)) as [?|_]; [lia|].
    unfold bind, i2c_master_send, call, ret in H. simpl in H.
    match type of H with
    | context [if negb ?b then _ else _] => destruct b
    end; simpl in H; unfold EINVAL, EIO in H; lia.
  - intros H. now rewrite write_reg_rejected.
  - intros H. destruct (Z_lt_le_dec 4 (to_u32 len)) as [Hgt|Hle]; [exact Hgt|].
    unfold ov13855_read_reg in H.
    destruct (Z.ltb_spec 4 (to_u32 len)) as [?|_]; [lia|].
    unfold bind, i2c_transfer, ret in H. simpl in H.
    match type of H with
    | context [if negb ?b then _ else _] => destruct b
    end; simpl in H; unfold EINVAL, EIO in H; lia.
  - intros H. now rewrite read_reg_rejected.
Qed.

(** A three-byte read lands in the low end of the big-endian word: the
    chip identification 0x00d855. *)
Example identify_module_chip_id :
  ov13855_identify_module (env_rx [0x00; 0xd8; 0x55]) probed_world
  = (0, set_trace [I2C_TRANSFER [0x30; 0x0a] 3] probed_world).
Proof. vm_compute. reflexivity. Qed.

(** ** Best-fit selection *)

Lemma to_s32_to_u32 x : to_s32 (to_u32 x) = to_s32 x.
Proof.
  unfold to_s32, to_u32. rewrite Z.add_mod_idemp_l by lia. reflexivity.
Qed.

(** On a difference that fits an [int], [abs] of the wrapped [u32]
    difference is the absolute value. *)
Lemma abs_exact x : - 2 ^ 31 < x < 2 ^ 31 -> abs (to_u32 x) = Z.abs x.
Proof.
  intros H. unfold abs. rewrite to_s32_to_u32, (to_s32_id x) by lia.
  destruct (Z.ltb_spec x 0); rewrite to_s32_id; lia.
Qed.

Lemma resolution_dist_exact m fw fh :
  In m supported_modes -> 0 <= fw <= 2 ^ 30 -> 0 <= fh <= 2 ^ 30 ->
  ov13855_get_resolution_dist m fw fh = resolution_distance m fw fh.
Proof.
  intros Hm Hw Hh. unfold ov13855_get_resolution_dist, resolution_distance.
  assert (1056 <= width m <= 4224 /\ 784 <= height m <= 3136) as [Hmw Hmh].
  { simpl in Hm. destruct Hm as [<- | [<- | [<- | []]]]; simpl; lia. }
  assert (2 ^ 30 = 1073741824) as E30 by reflexivity.
  assert (2 ^ 31 = 2147483648) as E31 by reflexivity.
  rewrite !abs_exact by lia. apply to_s32_id. lia.
Qed.

(** Requests whose width and height do not exceed 2^30: the entry
    returned minimises the distance, and among the entries at that
    distance it is the first of the catalogue. *)
Lemma find_best_fit_minimal fw fh :
  0 <= fw <= 2 ^ 30 -> 0 <= fh <= 2 ^ 30 ->
  let i := ov13855_find_best_fit_index fw fh in
  let best := ov13855_find_best_fit fw fh in
  nth_error supported_modes i = Some best /\
  forall j m, nth_error supported_modes j = Some m ->
    resolution_distance best fw fh <= resolution_distance m fw fh /\
    (resolution_distance m fw fh = resolution_distance best fw fh ->
     (i <= j)%nat).
Proof.
  intros Hw Hh. cbv zeta.
  unfold ov13855_find_best_fit, ov13855_find_best_fit_index.
  assert (2 ^ 30 = 1073741824) as E30 by reflexivity.
  assert (2 ^ 32 = 4294967296) as E32 by reflexivity.
  rewrite !to_u32_id by lia.
  unfold supported_modes, best_fit_loop.
  rewrite !resolution_dist_exact by (simpl; auto).
  change (-1 =? -1) with true. cbn [orb].
  assert (forall m, In m supported_modes -> 0 <= resolution_distance m fw fh)
    as Hpos by (intros m _; unfold resolution_distance; lia).
  pose proof (Hpos mode_4224x3136 ltac:(simpl; auto)) as H0.
  pose proof (Hpos mode_2112x1568 ltac:(simpl; auto)) as H1.
  pose proof (Hpos mode_1056x784 ltac:(simpl; auto)) as H2.
  repeat match goal with
         | |- context [?a =? -1] =>
             destruct (Z.eqb_spec a (-1)); [lia|]; cbn [orb]
         | |- context [?a <? ?b] => destruct (Z.ltb_spec a b)
         end;
    (split; [reflexivity|]);
    intros [|[|[|j]]] m Hj; simpl in Hj;
    try (destruct j; discriminate);
    injection Hj as <-; cbn [nth]; split; lia.
Qed.

Example find_best_fit_2000x1500 :
  ov13855_find_best_fit 2000 1500 = mode_2112x1568.
Proof. vm_compute. reflexivity. Qed.

(** C1: on the request 4294967295 x 4294967295 the [u32] differences
    wrap around to small positive numbers (4224 - 4294967295 is 4225),
    the computed distances are 7362, 3682 and 1842, and the entry
    returned is 1056x784 (index 2) although 4224x3136 is the entry at
    minimal distance. *)
Theorem find_best_fit_wraps_on_large_request :
  let fw := 4294967295 in
  let fh := 4294967295 in
  is_u32 fw /\ is_u32 fh /\
  List.map (fun m => ov13855_get_resolution_dist m fw fh) supported_modes
    = [7362; 3682; 1842] /\
  ov13855_find_best_fit_index fw fh = 2%nat /\
  ov13855_find_best_fit fw fh = mode_1056x784 /\
  resolution_distance mode_4224x3136 fw fh
    < resolution_distance (ov13855_find_best_fit fw fh) fw fh.
Proof.
  cbv zeta. unfold is_u32, U32_MAX.
  repeat split; try lia; vm_compute; reflexivity.
Qed.

(** ** What a computation leaves untouched *)

Lemma preserves_ret {A T} (f : world -> T) (a : A) : preserves f (ret a).
Proof. intros st. reflexivity. Qed.

Lemma preserves_bind {A B T} (f : world -> T) (c : M A) (k : A -> M B) :
  preserves f c -> (forall a, preserves f (k a)) -> preserves f (bind c k).
Proof.
  intros Hc Hk st. unfold bind. specialize (Hc st).
  destruct (c st) as [a st1]. simpl in Hc. rewrite Hk. exact Hc.
Qed.

Lemma preserves_if {A T} (f : world -> T) (b : bool) (c1 c2 : M A) :
  preserves f c1 -> preserves f c2 -> preserves f (if b then c1 else c2).
Proof. destruct b; auto. Qed.

Lemma preserves_shell_of_software {A} (c : M A) :
  preserves software c -> preserves shell c.
Proof.
  intros H st. specialize (H st). unfold software in H. unfold shell.
  injection H as Hd Hu. rewrite Hd, Hu. reflexivity.
Qed.

Create HintDb frame.
#[local] Hint Resolve preserves_ret : frame.

Ltac frame_step :=
  first [ solve [auto with frame]
        | apply preserves_shell_of_software; solve [auto with frame]
        | apply preserves_ret
        | apply preserves_if
        | apply preserves_bind; [|intros ?] ].

Section Frames.

Variable env : environment.

Lemma call_software e : preserves software (call env e).
Proof. intros st. reflexivity. Qed.

Lemma emit_software e : preserves software (emit e).
Proof. intros st. reflexivity. Qed.

Lemma write_reg_software reg len v :
  preserves software (ov13855_write_reg env reg len v).
Proof.
  unfold ov13855_write_reg, i2c_master_send.
  destruct (4 <? to_u32 len); [apply preserves_ret|].
  apply preserves_bind; [apply call_software|].
  intros n. apply preserves_if; apply preserves_ret.
Qed.

Lemma write_regs_software regs :
  preserves software (ov13855_write_regs env regs).
Proof.
  induction regs as [|r regs IH]; simpl; [apply preserves_ret|].
  apply preserves_bind; [apply write_reg_software|].
  intros e. apply preserves_if; [apply preserves_ret | exact IH].
Qed.

Lemma read_reg_software reg len v0 :
  preserves software (ov13855_read_reg env reg len v0).
Proof.
  unfold ov13855_read_reg.
  destruct (4 <? to_u32 len); [apply preserves_ret|].
  apply preserves_bind; [intros st; reflexivity|].
  intros r. apply preserves_if; apply preserves_ret.
Qed.

Lemma enable_test_pattern_software pattern :
  preserves software (ov13855_enable_test_pattern env pattern).
Proof.
  unfold ov13855_enable_test_pattern.
  apply preserves_bind; [apply read_reg_software|].
  intros r. apply preserves_if; [apply preserves_ret|].
  apply write_reg_software.
Qed.

#[local] Hint Resolve call_software emit_software write_reg_software
  write_regs_software read_reg_software enable_test_pattern_software : frame.

Lemma update_ctrl_ids c f h :
  (forall x, id (f x) = id x) ->
  List.map id (update_ctrl c f h) = List.map id h.
Proof.
  intros Hf. unfold update_ctrl. rewrite List.map_map.
  apply List.map_ext. intros x. destruct (bool_decide (id x = c)); auto.
Qed.

Lemma modify_range_id mn mx st df x : id (modify_range mn mx st df x) = id x.
Proof.
  unfold modify_range. cbn [set_range cur].
  destruct (mx <? cur x); [reflexivity|].
  destruct (cur x <? mn); reflexivity.
Qed.

Lemma modify_range_shell c mn mx st df :
  preserves shell (__v4l2_ctrl_modify_range c mn mx st df).
Proof.
  intros w. unfold __v4l2_ctrl_modify_range, bind, modify_dev, ret, shell.
  simpl. rewrite update_ctrl_ids; [reflexivity|]. apply modify_range_id.
Qed.

Lemma get_dev_preserves {T} (f : world -> T) : preserves f get_dev.
Proof. intros st. reflexivity. Qed.

#[local] Hint Resolve modify_range_shell get_dev_preserves
  preserves_shell_of_software : frame.

Lemma propagate_ctrl_shell c v : preserves shell (propagate_ctrl c v).
Proof. destruct c; simpl; repeat frame_step. Qed.

Lemma write_ctrl_software c v : preserves software (write_ctrl env c v).
Proof.
  unfold write_ctrl. apply preserves_bind; [apply get_dev_preserves|].
  intros d. destruct c; repeat frame_step.
Qed.

(** A reference taken by [pm_runtime_get_if_in_use] and dropped by
    [pm_runtime_put] after [body] leaves the usage counter as it was. *)
Lemma in_use_bracket_shell (body : M Z) :
  preserves shell body ->
  preserves shell
    (n <- pm_runtime_get_if_in_use ;;
     if n <=? 0 then ret 0 else e <- body ;; pm_runtime_put ;; ret e).
Proof.
  intros Hb st. unfold bind at 1. unfold pm_runtime_get_if_in_use.
  destruct (Z.ltb_spec 0 (usage_count st)) as [Hpos|Hnp].
  - change (1 <=? 0) with false. cbv iota.
    set (st1 := set_trace _ (set_usage_count _ st)).
    specialize (Hb st1). unfold bind. destruct (body st1) as [e st2].
    simpl in Hb. unfold pm_runtime_put, emit, ret. simpl.
    unfold shell in *. simpl in *.
    injection Hb as -> -> -> -> -> ->. repeat f_equal. lia.
  - change (0 <=? 0) with true. reflexivity.
Qed.

Lemma set_ctrl_shell c v : preserves shell (ov13855_set_ctrl env c v).
Proof.
  unfold ov13855_set_ctrl. apply preserves_bind.
  - apply propagate_ctrl_shell.
  - intros _. apply in_use_bracket_shell.
    apply preserves_shell_of_software, write_ctrl_software.
Qed.

Lemma replay_ctrls_shell ids : preserves shell (replay_ctrls env ids).
Proof.
  induction ids as [|c ids IH]; simpl; [apply preserves_ret|].
  apply preserves_bind; [apply get_dev_preserves|]. intros d.
  apply preserves_bind; [apply set_ctrl_shell|]. intros e.
  apply preserves_if; [apply preserves_ret | exact IH].
Qed.

Lemma handler_setup_shell : preserves shell (__v4l2_ctrl_handler_setup env).
Proof.
  unfold __v4l2_ctrl_handler_setup.
  apply preserves_bind; [apply get_dev_preserves|].
  intros d. apply replay_ctrls_shell.
Qed.

#[local] Hint Resolve set_ctrl_shell handler_setup_shell : frame.

Lemma start_streaming_shell : preserves shell (ov13855_start_streaming env).
Proof.
  unfold ov13855_start_streaming, ov13855_write_reg_list.
  repeat frame_step.
Qed.

End Frames.

(** ** Streaming *)

Section Streaming.

Variable env : environment.

Lemma get_sync_usage st :
  usage_count (snd (pm_runtime_get_sync env st)) = usage_count st + 1.
Proof.
  unfold pm_runtime_get_sync, call. simpl.
  destruct (usage_count st =? 0); reflexivity.
Qed.

Lemma get_sync_dev st :
  dev (snd (pm_runtime_get_sync env st)) = dev st.
Proof.
  unfold pm_runtime_get_sync, call. simpl.
  destruct (usage_count st =? 0); reflexivity.
Qed.

Lemma get_sync_result st : fst (pm_runtime_get_sync env st) <= 0.
Proof.
  unfold pm_runtime_get_sync, call. simpl.
  destruct (usage_count st =? 0); simpl; [|lia].
  destruct (Z.ltb_spec (to_s32 (reply env (PM_RUNTIME_GET_SYNC :: trace st))) 0);
    lia.
Qed.

(** The steps of [ov13855_start_streaming], one after the other. *)
Lemma start_streaming_steps st :
  let p1 := ov13855_write_reg env OV13855_REG_SOFTWARE_RST
              OV13855_REG_VALUE_08BIT OV13855_SOFTWARE_RST st in
  let p2 := ov13855_write_regs env init_setting (snd p1) in
  let p3 := ov13855_write_reg_list env
              (reg_list (cur_mode (dev (snd p2)))) (snd p2) in
  let p4 := __v4l2_ctrl_handler_setup env (snd p3) in
  let p5 := ov13855_write_reg env OV13855_REG_MODE_SELECT
              OV13855_REG_VALUE_08BIT OV13855_MODE_STREAMING (snd p4) in
  ov13855_start_streaming env st =
    if negb (fst p1 =? 0) then p1
    else if negb (fst p2 =? 0) then p2
    else if negb (fst p3 =? 0) then p3
    else if negb (fst p4 =? 0) then p4
    else p5.
Proof.
  cbv zeta. unfold ov13855_start_streaming.
  unfold bind at 1.
  destruct (ov13855_write_reg env OV13855_REG_SOFTWARE_RST _ _ st)
    as [e1 s1]. cbn [fst snd].
  destruct (negb (e1 =? 0)); [reflexivity|].
  unfold bind at 1.
  destruct (ov13855_write_regs env init_setting s1) as [e2 s2]. cbn [fst snd].
  destruct (negb (e2 =? 0)); [reflexivity|].
  unfold bind at 1. unfold get_dev at 1. cbv beta iota.
  unfold bind at 1.
  destruct (ov13855_write_reg_list env (reg_list (cur_mode (dev s2))) s2)
    as [e3 s3]. cbn [fst snd].
  destruct (negb (e3 =? 0)); [reflexivity|].
  unfold bind at 1.
  destruct (__v4l2_ctrl_handler_setup env s3) as [e4 s4]. cbn [fst snd].
  destruct (negb (e4 =? 0)); reflexivity.
Qed.

(** [ov13855_set_stream(sd, 1)] in Standby, by the outcome of its two
    stages. *)
Lemma set_stream_on_standby st :
  streaming (dev st) = false ->
  let p0 := pm_runtime_get_sync env st in
  let p := ov13855_start_streaming env (snd p0) in
  ov13855_set_stream env 1 st =
    if fst p0 <? 0 then (fst p0, snd (pm_runtime_put_noidle (snd p0)))
    else if negb (fst p =? 0) then (fst p, snd (pm_runtime_put (snd p)))
    else (fst p, snd (modify_dev (set_streaming true) (snd p))).
Proof.
  intros Hs. cbv zeta. unfold ov13855_set_stream.
  change (to_s32 1) with 1.
  unfold bind at 1. unfold get_dev at 1. cbv beta iota. rewrite Hs.
  change (Z.b2z false =? 1) with false. change (negb (1 =? 0)) with true.
  cbv iota. unfold bind at 1.
  destruct (pm_runtime_get_sync env st) as [r0 s0]. cbn [fst snd].
  destruct (r0 <? 0); [reflexivity|].
  unfold bind at 1.
  destruct (ov13855_start_streaming env s0) as [r s]. cbn [fst snd].
  destruct (negb (r =? 0)); reflexivity.
Qed.

End Streaming.

Lemma first_error_zero r rs : r = 0 -> first_error (r :: rs) = first_error rs.
Proof. intros ->. reflexivity. Qed.

Lemma first_error_nonzero r rs : r <> 0 -> first_error (r :: rs) = r.
Proof.
  intros H. unfold first_error. simpl.
  destruct (Z.eqb_spec r 0); [contradiction | reflexivity].
Qed.

Lemma shell_streaming st st' :
  shell st' = shell st -> streaming (dev st') = streaming (dev st).
Proof. unfold shell. intros H. now injection H. Qed.

Lemma shell_usage st st' :
  shell st' = shell st -> usage_count st' = usage_count st.
Proof. unfold shell. intros H. now injection H. Qed.

(** A step that succeeded: the run goes on to the next one. *)
Ltac step_ok E :=
  rewrite first_error_zero by exact E;
  repeat (rewrite (proj2 (Z.eqb_eq _ _) E); cbn [negb fst snd]).

(** A step that failed: the run ends there with [pm_runtime_put]. *)
Ltac step_fails E S :=
  rewrite first_error_nonzero by exact E;
  repeat (rewrite (proj2 (Z.eqb_neq _ _) E); cbn [negb fst snd]);
  match goal with
  | Hput : forall s, _ -> _ |- _ =>
      split; [reflexivity | split; [exact E | apply Hput, S]]
  end.

(** C4: when [ov13855_set_stream(sd, 1)] is called in Standby and any of
    its steps fails -- power-up, software reset, init sequence, mode
    register list, control replay or the streaming-enable write -- the
    error of the first failing step is returned, the power reference
    taken for the attempt is released again (the last platform call is
    [pm_runtime_put], or [pm_runtime_put_noidle] when it was the
    power-up that failed), and the streaming flag stays false. *)
Theorem set_stream_failure_unwinds (env : environment) (st : world) :
  streaming (dev st) = false ->
  let p0 := pm_runtime_get_sync env st in
  let p1 := ov13855_write_reg env OV13855_REG_SOFTWARE_RST
              OV13855_REG_VALUE_08BIT OV13855_SOFTWARE_RST (snd p0) in
  let p2 := ov13855_write_regs env init_setting (snd p1) in
  let p3 := ov13855_write_reg_list env
              (reg_list (cur_mode (dev (snd p2)))) (snd p2) in
  let p4 := __v4l2_ctrl_handler_setup env (snd p3) in
  let p5 := ov13855_write_reg env OV13855_REG_MODE_SELECT
              OV13855_REG_VALUE_08BIT OV13855_MODE_STREAMING (snd p4) in
  let steps := [fst p0; fst p1; fst p2; fst p3; fst p4; fst p5] in
  Exists (fun r => r <> 0) steps ->
  let out := ov13855_set_stream env 1 st in
  fst out = first_error steps /\
  fst out <> 0 /\
  streaming (dev (snd out)) = false /\
  usage_count (snd out) = usage_count st /\
  exists tr,
    trace (snd out) =
    (if fst p0 <? 0 then PM_RUNTIME_PUT_NOIDLE else PM_RUNTIME_PUT) :: tr.
Proof.
  intros Hs. cbv zeta. intros Hex.
  rewrite (set_stream_on_standby env st Hs). cbv zeta.
  rewrite (start_streaming_steps env (snd (pm_runtime_get_sync env st))).
  cbv zeta.
  pose proof (get_sync_result env st) as H0.
  pose proof (get_sync_usage env st) as U0.
  pose proof (get_sync_dev env st) as D0.
  set (p0 := pm_runtime_get_sync env st) in *.
  set (p1 := ov13855_write_reg env OV13855_REG_SOFTWARE_RST _ _ (snd p0)) in *.
  set (p2 := ov13855_write_regs env init_setting (snd p1)) in *.
  set (p3 := ov13855_write_reg_list env _ (snd p2)) in *.
  set (p4 := __v4l2_ctrl_handler_setup env (snd p3)) in *.
  set (p5 := ov13855_write_reg env OV13855_REG_MODE_SELECT _ _ (snd p4)) in *.
  assert (shell (snd p1) = shell (snd p0)) as S1
    by (apply preserves_shell_of_software, write_reg_software).
  assert (shell (snd p2) = shell (snd p0)) as S2
    by (rewrite <- S1; apply preserves_shell_of_software, write_regs_software).
  assert (shell (snd p3) = shell (snd p0)) as S3
    by (rewrite <- S2; apply preserves_shell_of_software, write_regs_software).
  assert (shell (snd p4) = shell (snd p0)) as S4
    by (rewrite <- S3; apply handler_setup_shell).
  assert (shell (snd p5) = shell (snd p0)) as S5
    by (rewrite <- S4; apply preserves_shell_of_software, write_reg_software).
  assert (forall s, shell s = shell (snd p0) ->
            streaming (dev (snd (pm_runtime_put s))) = false /\
            usage_count (snd (pm_runtime_put s)) = usage_count st /\
            exists tr, trace (snd (pm_runtime_put s)) = PM_RUNTIME_PUT :: tr)
    as Hput.
  { intros s Hsh. pose proof (shell_streaming _ _ Hsh) as Hst.
    pose proof (shell_usage _ _ Hsh) as Hu. simpl.
    rewrite Hst, Hu, D0, U0, Hs. repeat split; [lia | eauto]. }
  destruct (Z.ltb_spec (fst p0) 0) as [Hneg|Hnn].
  { cbn [fst snd]. rewrite first_error_nonzero by lia.
    repeat split; [lia | simpl; now rewrite D0 | simpl; lia | eauto]. }
  cbv iota.
  rewrite first_error_zero by lia.
  destruct (Z.eq_dec (fst p1) 0) as [E1|E1]; [step_ok E1 | step_fails E1 S1].
  destruct (Z.eq_dec (fst p2) 0) as [E2|E2]; [step_ok E2 | step_fails E2 S2].
  destruct (Z.eq_dec (fst p3) 0) as [E3|E3]; [step_ok E3 | step_fails E3 S3].
  destruct (Z.eq_dec (fst p4) 0) as [E4|E4]; [step_ok E4 | step_fails E4 S4].
  destruct (Z.eq_dec (fst p5) 0) as [E5|E5]; [ | step_fails E5 S5].
  exfalso. assert (fst p0 = 0) as E0 by lia.
  apply List.Exists_exists in Hex. destruct Hex as (r & Hin & Hr).
  cbn [In] in Hin.
  destruct Hin as [H | [H | [H | [H | [H | [H | []]]]]]];
    rewrite <- H in Hr; contradiction.
Qed.

Lemma set_stream_failure_unwinds_witness :
  streaming (dev probed_world) = false /\
  fst (ov13855_set_stream (env_fail_at 1 (-19)) 1 probed_world) = -19 /\
  streaming (dev (snd (ov13855_set_stream (env_fail_at 1 (-19)) 1
                         probed_world))) = false /\
  usage_count (snd (ov13855_set_stream (env_fail_at 1 (-19)) 1
                      probed_world)) = 0.
Proof.
  split; [reflexivity|].
  pose proof (set_stream_failure_unwinds (env_fail_at 1 (-19)) probed_world
                eq_refl) as H.
  cbv zeta in H.
  destruct H as (Hret & _ & Hstr & Huse & _).
  - apply Exists_cons_hd. vm_compute. discriminate.
  - split; [|split].
    + etransitivity; [exact Hret | vm_compute; reflexivity].
    + exact Hstr.
    + etransitivity; [exact Huse | reflexivity].
Defined.

(** A failure at each stage in turn -- power-up (call 1), software
    reset (2), init sequence (3), mode register list (207), the VTS
    write of the control replay (310), the streaming-enable write (323)
    -- against the run in which nothing fails. *)
Example set_stream_failure_points :
  List.map
    (fun k =>
       let out := ov13855_set_stream (env_fail_at k (- EIO)) 1 probed_world in
       (fst out, streaming (dev (snd out)), usage_count (snd out),
        hd WARN (trace (snd out))))
    [1; 2; 3; 207; 310; 323; 324]%nat
  = [(- EIO, false, 0, PM_RUNTIME_PUT_NOIDLE);
     (- EIO, false, 0, PM_RUNTIME_PUT);
     (- EIO, false, 0, PM_RUNTIME_PUT);
     (- EIO, false, 0, PM_RUNTIME_PUT);
     (- EIO, false, 0, PM_RUNTIME_PUT);
     (- EIO, false, 0, PM_RUNTIME_PUT);
     (0, true, 1, I2C_MASTER_SEND [0x01; 0x00; 0x01])].
Proof. vm_compute. reflexivity. Qed.

(** C5: a [set_stream] call whose argument matches the current state --
    [set_stream(1)] while streaming ([b = true]), [set_stream(0)] in
    Standby ([b = false]) -- returns 0 and leaves the driver, the power
    reference count and the history of platform calls as they were: no
    register is written. *)
Theorem set_stream_idempotent (env : environment) (st : world) (b : bool) :
  streaming (dev st) = b ->
  ov13855_set_stream env (Z.b2z b) st = (0, st) /\
  trace (snd (ov13855_set_stream env (Z.b2z b) st)) = trace st.
Proof.
  intros Hs.
  assert (ov13855_set_stream env (Z.b2z b) st = (0, st)) as H.
  { unfold ov13855_set_stream, bind, get_dev. rewrite Hs.
    replace (to_s32 (Z.b2z b)) with (Z.b2z b) by (destruct b; reflexivity).
    rewrite Z.eqb_refl. reflexivity. }
  rewrite H. split; reflexivity.
Qed.

Lemma set_stream_idempotent_witness :
  streaming (dev (snd (ov13855_set_stream env_ok 1 probed_world))) = true /\
  ov13855_set_stream env_ok 1 (snd (ov13855_set_stream env_ok 1 probed_world))
    = (0, snd (ov13855_set_stream env_ok 1 probed_world)).
Proof.
  assert (streaming (dev (snd (ov13855_set_stream env_ok 1 probed_world)))
          = true) as Hs by (vm_compute; reflexivity).
  split; [exact Hs|].
  exact (proj1 (set_stream_idempotent env_ok _ true Hs)).
Defined.

(** ** Power *)

Section Power.

Variable env : environment.

(** Away from the two boundaries [ov13855_s_power] only changes the
    count: the power sequencer is not run and no platform call is made
    (but for the warning about a negative count). *)
Lemma s_power_counts_only on st :
  power_count (dev st) <> (if to_s32 on =? 0 then 1 else 0) ->
  let n := to_s32 (power_count (dev st)
                   + (if negb (to_s32 on =? 0) then 1 else -1)) in
  ov13855_s_power env on st =
    (0, snd (when (n <? 0) (emit WARN)
               (set_dev (set_power_count n (dev st)) st))).
Proof.
  intros H. cbv zeta. unfold ov13855_s_power.
  unfold bind at 1. unfold get_dev at 1. cbv beta iota.
  destruct (Z.eqb_spec (power_count (dev st))
              (if to_s32 on =? 0 then 1 else 0)) as [E|_]; [contradiction|].
  unfold bind, ret, modify_dev. simpl.
  destruct (when _ _ _). reflexivity.
Qed.

(** At a boundary -- count 0 and [on], or count 1 and [!on] -- the power
    sequencer runs first, and the count changes only if it succeeds. *)
Lemma s_power_at_boundary on st :
  power_count (dev st) = (if to_s32 on =? 0 then 1 else 0) ->
  let p := ov13855_set_power env (negb (to_s32 on =? 0)) st in
  let n := to_s32 (power_count (dev st)
                   + (if negb (to_s32 on =? 0) then 1 else -1)) in
  ov13855_s_power env on st =
    if negb (fst p =? 0) then p
    else (fst p, snd (when (n <? 0) (emit WARN)
                        (set_dev (set_power_count n (dev (snd p))) (snd p)))).
Proof.
  intros H. cbv zeta. unfold ov13855_s_power.
  unfold bind at 1. unfold get_dev at 1. cbv beta iota.
  rewrite H, Z.eqb_refl. unfold bind at 1.
  destruct (ov13855_set_power env _ st) as [r s]. cbn [fst snd].
  destruct (negb (r =? 0)); [reflexivity|].
  unfold bind, ret, modify_dev. simpl.
  rewrite <- H. destruct (when _ _ _). reflexivity.
Qed.

(** A disable that has a matching enable before it keeps the count
    non-negative. *)
Lemma s_power_count_nonneg on st :
  0 <= power_count (dev st) < INT_MAX ->
  (to_s32 on = 0 -> 1 <= power_count (dev st)) ->
  0 <= power_count (dev (snd (ov13855_s_power env on st))).
Proof.
  intros Hr Hbal.
  assert (preserves (fun w => power_count (dev w))
            (ov13855_set_power env (negb (to_s32 on =? 0)))) as Hsp.
  { unfold ov13855_set_power. unfold when, gpiod_set_value.
    repeat first [ apply preserves_ret
                 | apply preserves_if
                 | apply preserves_bind; [|intros ?]
                 | (intros w; reflexivity) ]. }
  unfold INT_MAX in Hr.
  destruct (Z.eq_dec (power_count (dev st))
              (if to_s32 on =? 0 then 1 else 0)) as [E|E].
  - rewrite (s_power_at_boundary on st E). cbv zeta.
    specialize (Hsp st). cbv beta in Hsp.
    destruct (ov13855_set_power env _ st) as [r s]. cbn [fst snd] in *.
    destruct (negb (r =? 0)); cbn [snd]; [lia|].
    destruct (Z.eqb_spec (to_s32 on) 0) as [Eon|Eon]; cbn [negb] in *;
      rewrite to_s32_id by lia;
      match goal with
      | |- context [when ?b _ _] => destruct b
      end; simpl; lia.
  - rewrite (s_power_counts_only on st E). cbv zeta.
    destruct (Z.eqb_spec (to_s32 on) 0) as [Eon|Eon]; cbn [negb] in *;
      rewrite to_s32_id by lia;
      match goal with
      | |- context [when ?b _ _] => destruct b
      end; simpl; lia.
Qed.

End Power.

(** C6: on a freshly probed instance (count 0) a single
    [ov13855_s_power(sd, 0)] returns 0 and leaves the count at -1; the
    power sequencer is not run, the [WARN_ON] fires, and the next
    [ov13855_s_power(sd, 1)] raises the count from -1 to 0, again without
    running the sequencer. *)
Theorem s_power_off_first_goes_negative (env : environment) :
  let st1 := snd (ov13855_s_power env 0 probed_world) in
  let st2 := snd (ov13855_s_power env 1 st1) in
  power_count (dev probed_world) = 0 /\
  fst (ov13855_s_power env 0 probed_world) = 0 /\
  power_count (dev st1) = -1 /\
  trace st1 = [WARN] /\
  power_count (dev st2) = 0 /\
  trace st2 = [WARN].
Proof. cbv zeta. repeat split. Qed.

(** Nested enables and disables: the regulators and the clock are
    switched at the outer pair only. *)
Example s_power_nested :
  let out := s_power_seq env_ok [1; 1; 0; 0] probed_world in
  fst out = [0; 0; 0; 0] /\
  power_count (dev (snd out)) = 0 /\
  trace (snd out) =
    [CLK_DISABLE_UNPREPARE; REGULATOR_BULK_DISABLE;
     USLEEP_RANGE 10000 20000; CLK_PREPARE_ENABLE; UDELAY 5000;
     REGULATOR_BULK_ENABLE].
Proof. cbv zeta. repeat split; vm_compute; reflexivity. Qed.

(** ** Test pattern *)

(** The argument of [ov13855_enable_test_pattern] has no influence. *)
Lemma enable_test_pattern_ignores_argument env pattern st :
  ov13855_enable_test_pattern env pattern st =
  ov13855_enable_test_pattern env 1 st.
Proof. reflexivity. Qed.

Lemma test_pattern_byte b :
  0 <= b < 256 ->
  byte_of
    (to_u32
       (to_u32
          (Z.lor (Z.land (be32_to_cpu (store_bytes 3 [b] (cpu_to_be32 0)))
                    OV13855_TEST_PATTERN_MASK)
             (Z.lor (to_u32 (1 - 1)) OV13855_TEST_PATTERN_ENABLE)))) 0
  = Z.lor (Z.land b 0xfc) 0x80 /\
  Z.testbit (Z.lor (Z.land b 0xfc) 0x80) 7 = true.
Proof.
  intros Hb.
  assert (forallb
            (fun n =>
               let b := Z.of_nat n in
               (byte_of
                  (to_u32
                     (to_u32
                        (Z.lor
                           (Z.land
                              (be32_to_cpu (store_bytes 3 [b] (cpu_to_be32 0)))
                              OV13855_TEST_PATTERN_MASK)
                           (Z.lor (to_u32 (1 - 1))
                              OV13855_TEST_PATTERN_ENABLE)))) 0
                =? Z.lor (Z.land b 0xfc) 0x80)
               && Z.testbit (Z.lor (Z.land b 0xfc) 0x80) 7)
            (seq 0 256) = true) as Hall by (vm_compute; reflexivity).
  rewrite forallb_forall in Hall.
  specialize (Hall (Z.to_nat b)). cbv zeta in Hall.
  rewrite Z2Nat.id in Hall by lia.
  assert (In (Z.to_nat b) (seq 0 256)) as Hin by (apply in_seq; lia).
  apply Hall in Hin. apply andb_true_iff in Hin. destruct Hin as [H1 H2].
  apply Z.eqb_eq in H1. split; assumption.
Qed.

(** Whatever value is requested and whatever the register holds, the
    byte written back has bit 7 set. *)
Lemma enable_test_pattern_writes (env : environment) (pattern : Z) (st : world) :
  let tr1 := I2C_TRANSFER [0x45; 0x03] 1 :: trace st in
  let b := to_u8 (rx env tr1 0) in
  to_s32 (reply env tr1) = 2 ->
  trace (snd (ov13855_enable_test_pattern env pattern st))
  = I2C_MASTER_SEND [0x45; 0x03; Z.lor (Z.land b 0xfc) 0x80] :: tr1 /\
  Z.testbit (Z.lor (Z.land b 0xfc) 0x80) 7 = true.
Proof.
  cbv zeta. intros Hok.
  assert (0 <= to_u8 (rx env (I2C_TRANSFER [0x45; 0x03] 1 :: trace st) 0) < 256)
    as Hb by (unfold to_u8; apply Z.mod_pos_bound; lia).
  destruct (test_pattern_byte _ Hb) as [Hbyte Hbit].
  split; [|exact Hbit].
  unfold ov13855_enable_test_pattern. unfold bind at 1.
  pose proof (read_reg_accepted env OV13855_REG_TEST_PATTERN
                OV13855_REG_VALUE_08BIT 0 st) as Hr.
  cbv zeta in Hr. rewrite Hr by (unfold OV13855_REG_VALUE_08BIT; lia).
  change (cpu_to_be16 (to_u16 OV13855_REG_TEST_PATTERN)) with [0x45; 0x03].
  change OV13855_REG_VALUE_08BIT with 1.
  rewrite Hok. change (2 =? 2) with true. cbv iota. cbn [fst snd].
  change (negb (0 =? 0)) with false. cbv iota.
  change (negb (1 =? 0)) with true. cbv iota.
  pose proof (write_reg_accepted env OV13855_REG_TEST_PATTERN 1) as Hw.
  cbv zeta in Hw. rewrite Hw by lia. cbn [snd trace set_trace].
  change (cpu_to_be16 (to_u16 OV13855_REG_TEST_PATTERN)) with [0x45; 0x03].
  change (Z.to_nat 1) with 1%nat. cbn [be_bytes app Z.of_nat].
  change (Z.to_nat (4 - 1)) with 3%nat.
  rewrite <- Hbyte. reflexivity.
Qed.

(** C7: the value written to the test-pattern control has no influence
    on the register write.  Writing 0 ("Disabled") on a powered device
    whose register 0x4503 reads 0x00 stores 0x80 there: bit 7 is set,
    not cleared.  Writing 3 stores the same 0x80, not 0x82. *)
Theorem test_pattern_off_sets_enable_bit :
  let st := set_usage_count 1 probed_world in
  let tr := [PM_RUNTIME_PUT;
             I2C_MASTER_SEND [0x45; 0x03; 0x80];
             I2C_TRANSFER [0x45; 0x03] 1;
             PM_RUNTIME_GET_IF_IN_USE] in
  (forall env v w,
     ov13855_set_ctrl env V4L2_CID_TEST_PATTERN v w =
     ov13855_set_ctrl env V4L2_CID_TEST_PATTERN 1 w) /\
  ov13855_set_ctrl env_ok V4L2_CID_TEST_PATTERN 0 st = (0, set_trace tr st) /\
  ov13855_set_ctrl env_ok V4L2_CID_TEST_PATTERN 3 st = (0, set_trace tr st) /\
  Z.testbit 0x80 7 = true.
Proof.
  cbv zeta. split; [intros env v w; reflexivity|].
  repeat split; vm_compute; reflexivity.
Qed.

(** ** Controls *)

Lemma find_update_same c f h :
  (forall x, id (f x) = id x) ->
  find_ctrl c (update_ctrl c f h) = option_map f (find_ctrl c h).
Proof.
  intros Hf. unfold find_ctrl, update_ctrl.
  induction h as [|x h IH]; simpl; [reflexivity|].
  destruct (bool_decide (id x = c)) eqn:E.
  - rewrite Hf, E. reflexivity.
  - rewrite E. exact IH.
Qed.

Lemma find_update_other c c' f h :
  c <> c' -> (forall x, id (f x) = id x) ->
  find_ctrl c (update_ctrl c' f h) = find_ctrl c h.
Proof.
  intros Hne Hf. unfold find_ctrl, update_ctrl.
  induction h as [|x h IH]; simpl; [reflexivity|].
  destruct (bool_decide (id x = c')) eqn:E'.
  - apply bool_decide_eq_true in E'. rewrite Hf.
    destruct (bool_decide (id x = c)) eqn:E.
    + apply bool_decide_eq_true in E. congruence.
    + exact IH.
  - destruct (bool_decide (id x = c)); [reflexivity | exact IH].
Qed.

Section Controls.

Variable env : environment.

Lemma in_use_bracket_dev (body : M Z) :
  preserves dev body ->
  preserves dev
    (n <- pm_runtime_get_if_in_use ;;
     if n <=? 0 then ret 0 else e <- body ;; pm_runtime_put ;; ret e).
Proof.
  intros Hb st. unfold bind at 1. unfold pm_runtime_get_if_in_use.
  destruct (0 <? usage_count st).
  - change (1 <=? 0) with false. cbv iota.
    set (st1 := set_trace _ (set_usage_count _ st)).
    specialize (Hb st1). unfold bind. destruct (body st1) as [e st2].
    simpl in *. exact Hb.
  - reflexivity.
Qed.

Lemma write_ctrl_dev c v : preserves dev (write_ctrl env c v).
Proof.
  intros st. pose proof (write_ctrl_software env c v st) as H.
  unfold software in H. now injection H.
Qed.

(** The controls after [ov13855_set_ctrl] are those its first switch
    leaves. *)
Lemma set_ctrl_dev c v st :
  dev (snd (ov13855_set_ctrl env c v st)) = dev (snd (propagate_ctrl c v st)).
Proof.
  unfold ov13855_set_ctrl. unfold bind at 1.
  destruct (propagate_ctrl c v st) as [[] st1]. cbn [snd].
  apply in_use_bracket_dev, write_ctrl_dev.
Qed.

(** What the first switch does for the vblank control. *)
Lemma propagate_vblank v st :
  propagate_ctrl V4L2_CID_VBLANK v st =
  (tt,
   let d := dev st in
   let max := to_u32 (height (cur_mode d) + to_u32 v - 8) in
   set_dev
     (set_ctrl_handler
        (update_ctrl V4L2_CID_EXPOSURE
           (modify_range (minimum (ctrl V4L2_CID_EXPOSURE d)) max
              (step (ctrl V4L2_CID_EXPOSURE d)) max)
           (ctrl_handler d)) d) st).
Proof. reflexivity. Qed.

Lemma propagate_other c v st :
  c <> V4L2_CID_VBLANK -> propagate_ctrl c v st = (tt, st).
Proof. destruct c; intros H; try reflexivity; contradiction. Qed.

End Controls.

Lemma ctrl_update_same c f d e :
  (forall x, id (f x) = id x) ->
  find_ctrl c (ctrl_handler d) = Some e ->
  ctrl c (set_ctrl_handler (update_ctrl c f (ctrl_handler d)) d) = f e.
Proof.
  intros Hf He. unfold ctrl. cbn [ctrl_handler set_ctrl_handler].
  rewrite find_update_same, He by exact Hf. reflexivity.
Qed.

Lemma ctrl_update_other c c' f d :
  c <> c' -> (forall x, id (f x) = id x) ->
  ctrl c (set_ctrl_handler (update_ctrl c' f (ctrl_handler d)) d) = ctrl c d.
Proof.
  intros Hne Hf. unfold ctrl. cbn [ctrl_handler set_ctrl_handler].
  rewrite find_update_other by assumption. reflexivity.
Qed.

Lemma ctrl_found c d e :
  find_ctrl c (ctrl_handler d) = Some e -> ctrl c d = e.
Proof. unfold ctrl. intros ->. reflexivity. Qed.

Lemma supported_mode_size m :
  In m supported_modes ->
  1056 <= width m <= 4224 /\ 784 <= height m <= 3136 /\
  vts m <= OV13855_VTS_MAX.
Proof.
  simpl. intros [<- | [<- | [<- | []]]]; vm_compute; intuition discriminate.
Qed.

(** C2: when the vblank control changes to a value [v] of its range, the
    [s_ctrl] operation sets the maximum of the exposure control to
    [cur_mode->height + v - 8], and an exposure above the new maximum
    is clamped down to it, so that afterwards
    [minimum <= exposure <= maximum]. *)
Theorem vblank_change_updates_exposure
    (env : environment) (v : Z) (st : world) (e : v4l2_ctrl) :
  In (cur_mode (dev st)) supported_modes ->
  find_ctrl V4L2_CID_EXPOSURE (ctrl_handler (dev st)) = Some e ->
  minimum e = OV13855_EXPOSURE_MIN ->
  minimum e <= cur e ->
  OV13855_VBLANK_MIN <= v <= OV13855_VTS_MAX - height (cur_mode (dev st)) ->
  let st' := snd (ov13855_set_ctrl env V4L2_CID_VBLANK v st) in
  let e' := ctrl V4L2_CID_EXPOSURE (dev st') in
  let max := height (cur_mode (dev st)) + v - 8 in
  maximum e' = max /\
  minimum e' = minimum e /\
  cur e' = Z.min (cur e) max /\
  minimum e' <= cur e' <= maximum e'.
Proof.
  intros Hm He Hmin Hcur Hv. cbv zeta. rewrite set_ctrl_dev.
  pose proof (supported_mode_size _ Hm) as (_ & Hh & _).
  unfold OV13855_VBLANK_MIN, OV13855_VTS_MAX, OV13855_EXPOSURE_MIN in *.
  rewrite propagate_vblank. cbv zeta. cbn [snd dev set_dev].
  rewrite (ctrl_update_same _ _ _ e) by (exact He || apply modify_range_id).
  rewrite (ctrl_found _ _ _ He).
  assert (to_u32 (height (cur_mode (dev st)) + to_u32 v - 8)
          = height (cur_mode (dev st)) + v - 8) as ->.
  { rewrite (to_u32_id v) by lia. apply to_u32_id. lia. }
  unfold modify_range. cbn [set_range cur].
  destruct (Z.ltb_spec (height (cur_mode (dev st)) + v - 8) (cur e)).
  - cbn. repeat split; lia.
  - destruct (Z.ltb_spec (cur e) (minimum e)); cbn; repeat split; lia.
Qed.

Lemma vblank_change_updates_exposure_witness :
  let st := snd (ov13855_set_pad_format env_ok 1 1056 784 probed_world) in
  let st' := snd (ov13855_set_ctrl env_ok V4L2_CID_VBLANK 56 st) in
  cur (ctrl V4L2_CID_EXPOSURE (dev st)) = 1600 /\
  maximum (ctrl V4L2_CID_EXPOSURE (dev st')) = 832 /\
  cur (ctrl V4L2_CID_EXPOSURE (dev st')) = 832.
Proof.
  cbv zeta.
  set (st := snd (ov13855_set_pad_format env_ok 1 1056 784 probed_world)).
  assert (In (cur_mode (dev st)) supported_modes) as Hm
    by (vm_compute; right; right; left; reflexivity).
  assert (find_ctrl V4L2_CID_EXPOSURE (ctrl_handler (dev st))
          = Some (ctrl V4L2_CID_EXPOSURE (dev st))) as He
    by (vm_compute; reflexivity).
  assert (minimum (ctrl V4L2_CID_EXPOSURE (dev st)) = OV13855_EXPOSURE_MIN)
    as Hmin by (vm_compute; reflexivity).
  assert (minimum (ctrl V4L2_CID_EXPOSURE (dev st))
          <= cur (ctrl V4L2_CID_EXPOSURE (dev st))) as Hcur
    by (vm_compute; discriminate).
  assert (OV13855_VBLANK_MIN <= 56
          <= OV13855_VTS_MAX - height (cur_mode (dev st))) as Hv
    by (vm_compute; split; discriminate).
  pose proof (vblank_change_updates_exposure env_ok 56 st _ Hm He Hmin Hcur Hv)
    as H.
  cbv zeta in H. destruct H as (Hmax & _ & Hc & _).
  split; [vm_compute; reflexivity|]. split.
  - etransitivity; [exact Hmax | vm_compute; reflexivity].
  - etransitivity; [exact Hc | vm_compute; reflexivity].
Defined.

(** ** The history only grows *)

Lemma extends_ret {A} (a : A) : extends (ret a).
Proof. intros st. exists []. reflexivity. Qed.

Lemma extends_bind {A B} (c : M A) (k : A -> M B) :
  extends c -> (forall a, extends (k a)) -> extends (bind c k).
Proof.
  intros Hc Hk st. unfold bind. destruct (Hc st) as [evs1 H1].
  destruct (c st) as [a st1]. simpl in H1.
  destruct (Hk a st1) as [evs2 H2]. exists (evs2 ++ evs1).
  rewrite H2, H1. apply app_assoc.
Qed.

Lemma extends_if {A} (b : bool) (c1 c2 : M A) :
  extends c1 -> extends c2 -> extends (if b then c1 else c2).
Proof. destruct b; auto. Qed.

Lemma extends_one {A} (c : M A) :
  (forall st, exists e, trace (snd (c st)) = e :: trace st) -> extends c.
Proof. intros H st. destruct (H st) as [e He]. exists [e]. exact He. Qed.

Lemma extends_of_software {A} (c : M A) :
  (forall st, trace (snd (c st)) = trace st) -> extends c.
Proof. intros H st. exists []. apply H. Qed.

Section History.

Variable env : environment.

Lemma get_dev_extends : extends get_dev.
Proof. apply extends_of_software. reflexivity. Qed.

Lemma call_extends e : extends (call env e).
Proof. apply extends_one. intros st. eexists. reflexivity. Qed.

Lemma emit_extends e : extends (emit e).
Proof. apply extends_one. intros st. eexists. reflexivity. Qed.

Lemma write_reg_extends reg len v : extends (ov13855_write_reg env reg len v).
Proof.
  unfold ov13855_write_reg, i2c_master_send.
  destruct (4 <? to_u32 len); [apply extends_ret|].
  apply extends_bind; [apply call_extends|].
  intros n. apply extends_if; apply extends_ret.
Qed.

Lemma read_reg_extends reg len v0 : extends (ov13855_read_reg env reg len v0).
Proof.
  unfold ov13855_read_reg.
  destruct (4 <? to_u32 len); [apply extends_ret|].
  apply extends_bind.
  - apply extends_one. intros st. eexists. reflexivity.
  - intros r. apply extends_if; apply extends_ret.
Qed.

Lemma enable_test_pattern_extends pattern :
  extends (ov13855_enable_test_pattern env pattern).
Proof.
  unfold ov13855_enable_test_pattern.
  apply extends_bind; [apply read_reg_extends|].
  intros r. apply extends_if; [apply extends_ret | apply write_reg_extends].
Qed.

Lemma set_ctrl_extends c v : extends (ov13855_set_ctrl env c v).
Proof.
  unfold ov13855_set_ctrl. apply extends_bind.
  { destruct c; try apply extends_ret.
    apply extends_of_software. intros st. reflexivity. }
  intros _. apply extends_bind.
  { apply extends_one. intros st. unfold pm_runtime_get_if_in_use.
    destruct (0 <? usage_count st); eexists; reflexivity. }
  intros n. apply extends_if; [apply extends_ret|].
  apply extends_bind.
  { unfold write_ctrl. apply extends_bind; [apply get_dev_extends|].
    intros d. destruct c; first [ apply write_reg_extends
                                | apply enable_test_pattern_extends
                                | apply extends_ret ]. }
  intros e. apply extends_bind; [|intros; apply extends_ret].
  apply extends_one. intros st. eexists. reflexivity.
Qed.

Lemma replay_ctrls_extends ids : extends (replay_ctrls env ids).
Proof.
  induction ids as [|c ids IH]; simpl; [apply extends_ret|].
  apply extends_bind; [apply get_dev_extends|]. intros d.
  apply extends_bind; [apply set_ctrl_extends|]. intros e.
  apply extends_if; [apply extends_ret | exact IH].
Qed.



End History.

(** ** Exposure *)

Section Exposure.

Variable env : environment.




End Exposure.

(** An exposure set while unpowered reaches the sensor at stream start:
    1000 << 4 = 0x3e80. *)
Example exposure_deferred_to_stream_start :
  let st1 := snd (v4l2_s_ctrl env_ok V4L2_CID_EXPOSURE 1000 probed_world) in
  let st2 := snd (ov13855_set_stream env_ok 1 st1) in
  trace st1 = [PM_RUNTIME_GET_IF_IN_USE] /\
  nth_error (trace st2) 8 = Some (exposure_write 1000) /\
  exposure_write 1000 = I2C_MASTER_SEND [0x35; 0x00; 0x00; 0x3e; 0x80].
Proof. cbv zeta. repeat split; vm_compute; reflexivity. Qed.

(** ** Mode change *)

Lemma same_range_refl x : same_range x x.
Proof. repeat split. Qed.

Lemma same_range_trans x y z :
  same_range x y -> same_range y z -> same_range x z.
Proof. unfold same_range. intuition congruence. Qed.

Lemma find_ctrl_in c h :
  In c (List.map id h) ->
  exists e, find_ctrl c h = Some e /\ id e = c.
Proof.
  unfold find_ctrl. induction h as [|x h IH]; simpl; [intros []|].
  intros Hin. destruct (bool_decide (id x = c)) eqn:E.
  - apply bool_decide_eq_true in E. eauto.
  - apply bool_decide_eq_false in E. destruct Hin as [?|Hin]; [contradiction|].
    exact (IH Hin).
Qed.

Lemma ctrl_update_range c c' f d :
  (forall x, id (f x) = id x) -> (forall x, same_range (f x) x) ->
  same_range (ctrl c' (set_ctrl_handler (update_ctrl c f (ctrl_handler d)) d))
             (ctrl c' d).
Proof.
  intros Hid Hr. destruct (decide (c' = c)) as [->|Hne].
  - unfold ctrl. cbn [ctrl_handler set_ctrl_handler].
    rewrite find_update_same by exact Hid.
    destruct (find_ctrl c (ctrl_handler d)); simpl;
      [apply Hr | apply same_range_refl].
  - rewrite ctrl_update_other by assumption. apply same_range_refl.
Qed.

Lemma find_best_fit_supported fw fh :
  In (ov13855_find_best_fit fw fh) supported_modes.
Proof.
  unfold ov13855_find_best_fit.
  destruct (nth_in_or_default (ov13855_find_best_fit_index fw fh)
              supported_modes mode_4224x3136) as [H| ->]; [exact H|].
  left. reflexivity.
Qed.

Section ModeChange.

Variable env : environment.

Lemma s_ctrl_shell c v : preserves shell (__v4l2_ctrl_s_ctrl env c v).
Proof.
  unfold __v4l2_ctrl_s_ctrl.
  apply preserves_bind; [apply get_dev_preserves|]. intros d.
  apply preserves_if; [apply preserves_ret|].
  apply preserves_bind; [apply set_ctrl_shell|]. intros e.
  apply preserves_if; [apply preserves_ret|].
  apply preserves_bind; [|intros; apply preserves_ret].
  intros st. unfold modify_dev, shell. simpl.
  rewrite update_ctrl_ids; reflexivity.
Qed.

Lemma s_ctrl_unfold c v st :
  __v4l2_ctrl_s_ctrl env c v st =
  if (v <? minimum (ctrl c (dev st))) || (maximum (ctrl c (dev st)) <? v)
  then (- ERANGE, st)
  else
    let p := ov13855_set_ctrl env c v st in
    if negb (fst p =? 0) then p
    else (0, set_dev
               (set_ctrl_handler
                  (update_ctrl c (set_cur v) (ctrl_handler (dev (snd p))))
                  (dev (snd p))) (snd p)).
Proof.
  unfold __v4l2_ctrl_s_ctrl. unfold bind at 1. unfold get_dev. cbv beta iota.
  destruct ((v <? minimum (ctrl c (dev st)))
            || (maximum (ctrl c (dev st)) <? v)); [reflexivity|].
  cbv zeta. unfold bind at 1.
  destruct (ov13855_set_ctrl env c v st) as [e s1]. cbn [fst snd].
  destruct (negb (e =? 0)); reflexivity.
Qed.

(** The controls after [__v4l2_ctrl_s_ctrl]: nothing changed, or the
    first switch of the [s_ctrl] operation ran, or it ran and the value
    was recorded. *)
Lemma s_ctrl_dev c v st :
  let d1 := dev (snd (propagate_ctrl c v st)) in
  let d := dev (snd (__v4l2_ctrl_s_ctrl env c v st)) in
  ((v <? minimum (ctrl c (dev st))) || (maximum (ctrl c (dev st)) <? v) = true
   /\ d = dev st) \/
  ((v <? minimum (ctrl c (dev st))) || (maximum (ctrl c (dev st)) <? v) = false
   /\ (d = d1 \/
       d = set_ctrl_handler (update_ctrl c (set_cur v) (ctrl_handler d1)) d1)).
Proof.
  cbv zeta. rewrite s_ctrl_unfold.
  destruct ((v <? minimum (ctrl c (dev st)))
            || (maximum (ctrl c (dev st)) <? v)); [left; split; reflexivity|].
  right. split; [reflexivity|]. cbv zeta.
  pose proof (set_ctrl_dev env c v st) as Hd.
  destruct (ov13855_set_ctrl env c v st) as [e s1]. cbn [fst snd] in *.
  destruct (negb (e =? 0)).
  - left. exact Hd.
  - right. cbn [snd dev set_dev]. rewrite Hd. reflexivity.
Qed.

Lemma propagate_range c c' v st :
  c' <> V4L2_CID_EXPOSURE ->
  ctrl c' (dev (snd (propagate_ctrl c v st))) = ctrl c' (dev st).
Proof.
  intros Hne. destruct (decide (c = V4L2_CID_VBLANK)) as [->|Hc].
  - rewrite propagate_vblank. cbv zeta. cbn [snd dev set_dev].
    apply ctrl_update_other; [exact Hne | apply modify_range_id].
  - rewrite propagate_other by exact Hc. reflexivity.
Qed.

Lemma set_cur_range v x : same_range (set_cur v x) x.
Proof. repeat split. Qed.

(** A set changes the range of no control but that of exposure. *)
Lemma s_ctrl_range c c' v st :
  c' <> V4L2_CID_EXPOSURE ->
  same_range (ctrl c' (dev (snd (__v4l2_ctrl_s_ctrl env c v st))))
             (ctrl c' (dev st)).
Proof.
  intros Hne. pose proof (s_ctrl_dev c v st) as H. cbv zeta in H.
  destruct H as [[_ ->] | [_ [-> | ->]]].
  - apply same_range_refl.
  - rewrite propagate_range by exact Hne. apply same_range_refl.
  - eapply same_range_trans.
    + apply ctrl_update_range; [reflexivity | apply set_cur_range].
    + rewrite propagate_range by exact Hne. apply same_range_refl.
Qed.

(** A vblank value of the control's range reaches the first switch of
    the [s_ctrl] operation, whatever happens to the register write. *)
Lemma s_ctrl_vblank_exposure_max v st e :
  find_ctrl V4L2_CID_EXPOSURE (ctrl_handler (dev st)) = Some e ->
  minimum (ctrl V4L2_CID_VBLANK (dev st)) <= v
    <= maximum (ctrl V4L2_CID_VBLANK (dev st)) ->
  maximum (ctrl V4L2_CID_EXPOSURE
             (dev (snd (__v4l2_ctrl_s_ctrl env V4L2_CID_VBLANK v st))))
  = to_u32 (height (cur_mode (dev st)) + to_u32 v - 8).
Proof.
  intros He Hv. pose proof (s_ctrl_dev V4L2_CID_VBLANK v st) as H.
  cbv zeta in H.
  assert (maximum (ctrl V4L2_CID_EXPOSURE
                     (dev (snd (propagate_ctrl V4L2_CID_VBLANK v st))))
          = to_u32 (height (cur_mode (dev st)) + to_u32 v - 8)) as Hp.
  { rewrite propagate_vblank. cbv zeta. cbn [snd dev set_dev].
    rewrite (ctrl_update_same _ _ _ e) by (exact He || apply modify_range_id).
    unfold modify_range. cbn [set_range cur].
    destruct (_ <? cur e); [reflexivity|].
    destruct (cur e <? _); reflexivity. }
  destruct H as [[Hb _] | [_ [-> | ->]]].
  - apply orb_true_iff in Hb. destruct Hb as [Hb|Hb];
      apply Z.ltb_lt in Hb; lia.
  - exact Hp.
  - destruct (ctrl_update_range V4L2_CID_VBLANK V4L2_CID_EXPOSURE (set_cur v)
                (dev (snd (propagate_ctrl V4L2_CID_VBLANK v st))))
      as (_ & Hmax & _); [reflexivity | apply set_cur_range |].
    rewrite Hmax. exact Hp.
Qed.

Lemma modify_range_dev c mn mx s df st :
  dev (snd (__v4l2_ctrl_modify_range c mn mx s df st)) =
  set_ctrl_handler
    (update_ctrl c (modify_range mn mx s df) (ctrl_handler (dev st))) (dev st).
Proof. reflexivity. Qed.

Lemma modify_range_fields mn mx s df x :
  let y := modify_range mn mx s df x in
  minimum y = mn /\ maximum y = mx /\ step y = s /\ default_value y = df /\
  read_only y = read_only x.
Proof.
  cbv zeta. unfold modify_range. cbn [set_range cur].
  destruct (mx <? cur x); [repeat split|].
  destruct (cur x <? mn); repeat split.
Qed.

(** [ov13855_set_pad_format] for an ACTIVE request, step by step. *)
Lemma set_pad_format_active_steps which fw fh st :
  (which =? V4L2_SUBDEV_FORMAT_TRY) = false ->
  let mode := ov13855_find_best_fit fw fh in
  let s0 := set_dev (set_cur_mode mode (dev st)) st in
  let s1 := snd (__v4l2_ctrl_s_ctrl env V4L2_CID_LINK_FREQ
                   (link_freq_index mode) s0) in
  let s2 := snd (__v4l2_ctrl_s_ctrl_int64 env V4L2_CID_PIXEL_RATE
                   (pixel_rate (link_freq_config_at (link_freq_index mode)))
                   s1) in
  let vblank_def := to_s32 (vts mode - height mode) in
  let s3 := snd (__v4l2_ctrl_modify_range V4L2_CID_VBLANK OV13855_VBLANK_MIN
                   (to_u32 (OV13855_VTS_MAX - height mode)) 1 vblank_def s2) in
  let s4 := snd (__v4l2_ctrl_s_ctrl env V4L2_CID_VBLANK vblank_def s3) in
  let h_blank :=
    to_u32 (pixels_per_line (link_freq_config_at (link_freq_index mode))
            - width mode) in
  let s5 := snd (__v4l2_ctrl_modify_range V4L2_CID_HBLANK h_blank h_blank 1
                   h_blank s4) in
  ov13855_set_pad_format env which fw fh st =
    ((0, (width mode, height mode)), s5).
Proof.
  intros Hw. cbv zeta. unfold ov13855_set_pad_format. rewrite Hw.
  unfold bind at 1. unfold modify_dev at 1. cbv beta iota.
  unfold bind at 1.
  destruct (__v4l2_ctrl_s_ctrl env V4L2_CID_LINK_FREQ _ _) as [r1 s1].
  cbn [snd]. unfold bind at 1.
  destruct (__v4l2_ctrl_s_ctrl_int64 env V4L2_CID_PIXEL_RATE _ s1) as [r2 s2].
  cbn [snd]. unfold bind at 1.
  destruct (__v4l2_ctrl_modify_range V4L2_CID_VBLANK _ _ _ _ s2) as [r3 s3].
  cbn [snd]. unfold bind at 1.
  destruct (__v4l2_ctrl_s_ctrl env V4L2_CID_VBLANK _ s3) as [r4 s4].
  cbn [snd]. unfold bind at 1.
  destruct (__v4l2_ctrl_modify_range V4L2_CID_HBLANK _ _ _ _ s4) as [r5 s5].
  reflexivity.
Qed.

End ModeChange.

Lemma cur_mode_set_ctrl_handler h d :
  cur_mode (set_ctrl_handler h d) = cur_mode d.
Proof. reflexivity. Qed.

Lemma shell_cur_mode st st' :
  shell st' = shell st -> cur_mode (dev st') = cur_mode (dev st).
Proof. unfold shell. intros H. now injection H. Qed.

Lemma shell_ids st st' :
  shell st' = shell st ->
  List.map id (ctrl_handler (dev st')) = List.map id (ctrl_handler (dev st)).
Proof. unfold shell. intros H. now injection H. Qed.

(** What an ACTIVE set-format does by design, for every request on an
    instance that has its vblank, hblank and exposure controls: the
    best-fit mode becomes the current mode; vblank gets the default
    [vts - height] and the range [OV13855_VBLANK_MIN, OV13855_VTS_MAX -
    height]; hblank is pinned to [pixels_per_line - width] and keeps its
    read-only flag; and the maximum of exposure becomes [vts - 8]
    provided the vblank default lies in the vblank range. *)
Lemma set_pad_format_active (env : environment) (which fw fh : Z) (st : world) :
  (which =? V4L2_SUBDEV_FORMAT_TRY) = false ->
  In V4L2_CID_VBLANK (List.map id (ctrl_handler (dev st))) ->
  In V4L2_CID_HBLANK (List.map id (ctrl_handler (dev st))) ->
  In V4L2_CID_EXPOSURE (List.map id (ctrl_handler (dev st))) ->
  let mode := ov13855_find_best_fit fw fh in
  let out := ov13855_set_pad_format env which fw fh st in
  let d := dev (snd out) in
  let h_blank :=
    pixels_per_line (link_freq_config_at (link_freq_index mode))
    - width mode in
  fst out = (0, (width mode, height mode)) /\
  cur_mode d = mode /\
  (default_value (ctrl V4L2_CID_VBLANK d) = vts mode - height mode /\
   minimum (ctrl V4L2_CID_VBLANK d) = OV13855_VBLANK_MIN /\
   maximum (ctrl V4L2_CID_VBLANK d) = OV13855_VTS_MAX - height mode) /\
  (minimum (ctrl V4L2_CID_HBLANK d) = h_blank /\
   maximum (ctrl V4L2_CID_HBLANK d) = h_blank /\
   default_value (ctrl V4L2_CID_HBLANK d) = h_blank /\
   read_only (ctrl V4L2_CID_HBLANK d)
   = read_only (ctrl V4L2_CID_HBLANK (dev st))) /\
  (OV13855_VBLANK_MIN <= vts mode - height mode ->
   maximum (ctrl V4L2_CID_EXPOSURE d) = vts mode - 8).
Proof.
  intros Hw Hvb Hhb Hex. cbv zeta.
  rewrite (set_pad_format_active_steps env which fw fh st Hw). cbv zeta.
  cbn [fst snd].
  pose proof (find_best_fit_supported fw fh) as Hm.
  set (mode := ov13855_find_best_fit fw fh) in *.
  assert (to_s32 (vts mode - height mode) = vts mode - height mode
          /\ to_u32 (OV13855_VTS_MAX - height mode)
             = OV13855_VTS_MAX - height mode
          /\ to_u32 (pixels_per_line
                       (link_freq_config_at (link_freq_index mode))
                     - width mode)
             = pixels_per_line (link_freq_config_at (link_freq_index mode))
               - width mode
          /\ vts mode - height mode <= OV13855_VTS_MAX - height mode
          /\ 0 <= vts mode - height mode < 2 ^ 31
          /\ 8 <= vts mode < 2 ^ 31)
    as (Edef & Emax & Ehb & Hle & Hnn & Hvts).
  { simpl in Hm. destruct Hm as [<- | [<- | [<- | []]]];
      vm_compute; intuition discriminate. }
  rewrite Edef, Emax, Ehb. clearbody mode.
  set (s0 := set_dev (set_cur_mode mode (dev st)) st).
  set (s1 := snd (__v4l2_ctrl_s_ctrl env V4L2_CID_LINK_FREQ _ s0)).
  set (s2 := snd (__v4l2_ctrl_s_ctrl_int64 env V4L2_CID_PIXEL_RATE _ s1)).
  set (s3 := snd (__v4l2_ctrl_modify_range V4L2_CID_VBLANK _ _ _ _ s2)).
  set (s4 := snd (__v4l2_ctrl_s_ctrl env V4L2_CID_VBLANK _ s3)).
  set (hb := pixels_per_line (link_freq_config_at (link_freq_index mode))
             - width mode).
  assert (shell s1 = shell s0) as S1 by apply s_ctrl_shell.
  assert (shell s2 = shell s0) as S2
    by (rewrite <- S1; apply (s_ctrl_shell env V4L2_CID_PIXEL_RATE)).
  assert (shell s3 = shell s0) as S3
    by (rewrite <- S2; apply modify_range_shell).
  assert (shell s4 = shell s0) as S4 by (rewrite <- S3; apply s_ctrl_shell).
  assert (forall s c, shell s = shell s0 ->
            In c (List.map id (ctrl_handler (dev st))) ->
            exists e, find_ctrl c (ctrl_handler (dev s)) = Some e) as Hfind.
  { intros s c Hs Hin. apply shell_ids in Hs.
    change (List.map id (ctrl_handler (dev s0)))
      with (List.map id (ctrl_handler (dev st))) in Hs.
    rewrite <- Hs in Hin. destruct (find_ctrl_in c _ Hin) as (e & He & _).
    eauto. }
  (* vblank after its range has been recomputed *)
  destruct (Hfind s2 V4L2_CID_VBLANK S2 Hvb) as [vb2 Hvb2].
  assert (ctrl V4L2_CID_VBLANK (dev s3)
          = modify_range OV13855_VBLANK_MIN (OV13855_VTS_MAX - height mode) 1
              (vts mode - height mode) vb2) as Hv3.
  { unfold s3. rewrite modify_range_dev.
    apply ctrl_update_same; [apply modify_range_id | exact Hvb2]. }
  pose proof (modify_range_fields OV13855_VBLANK_MIN
                (OV13855_VTS_MAX - height mode) 1 (vts mode - height mode) vb2)
    as Hf3.
  cbv zeta in Hf3. rewrite <- Hv3 in Hf3.
  destruct Hf3 as (Hmin3 & Hmax3 & _ & Hdef3 & _).
  assert (same_range (ctrl V4L2_CID_VBLANK (dev s4))
                      (ctrl V4L2_CID_VBLANK (dev s3))) as Hr4
    by (apply s_ctrl_range; discriminate).
  destruct Hr4 as (Hmin4 & Hmax4 & _ & Hdef4 & _).
  (* hblank keeps its flag until the last step *)
  assert (read_only (ctrl V4L2_CID_HBLANK (dev s4))
          = read_only (ctrl V4L2_CID_HBLANK (dev st))) as Hro.
  { assert (same_range (ctrl V4L2_CID_HBLANK (dev s4))
                        (ctrl V4L2_CID_HBLANK (dev s3))) as R4
      by (apply s_ctrl_range; discriminate).
    assert (ctrl V4L2_CID_HBLANK (dev s3) = ctrl V4L2_CID_HBLANK (dev s2))
      as R3.
    { unfold s3. rewrite modify_range_dev.
      apply ctrl_update_other; [discriminate | apply modify_range_id]. }
    assert (same_range (ctrl V4L2_CID_HBLANK (dev s2))
                        (ctrl V4L2_CID_HBLANK (dev s1))) as R2
      by (apply s_ctrl_range; discriminate).
    assert (same_range (ctrl V4L2_CID_HBLANK (dev s1))
                        (ctrl V4L2_CID_HBLANK (dev s0))) as R1
      by (apply s_ctrl_range; discriminate).
    destruct R4 as (_ & _ & _ & _ & ->). rewrite R3.
    destruct R2 as (_ & _ & _ & _ & ->).
    destruct R1 as (_ & _ & _ & _ & ->). reflexivity. }
  destruct (Hfind s4 V4L2_CID_HBLANK S4 Hhb) as [hb4 Hhb4].
  pose proof (modify_range_fields hb hb 1 hb hb4) as Hf5. cbv zeta in Hf5.
  rewrite modify_range_dev.
  rewrite (ctrl_update_same _ _ _ hb4) by (apply modify_range_id || exact Hhb4).
  rewrite !ctrl_update_other by (discriminate || apply modify_range_id).
  destruct Hf5 as (Hmin5 & Hmax5 & _ & Hdef5 & Hro5).
  split; [reflexivity|]. split.
  { rewrite cur_mode_set_ctrl_handler. apply shell_cur_mode in S4.
    rewrite S4. reflexivity. }
  split; [repeat split; congruence|].
  split.
  { repeat split; try assumption.
    rewrite Hro5, <- Hro, (ctrl_found _ _ _ Hhb4). reflexivity. }
  intros Hin.
  destruct (Hfind s3 V4L2_CID_EXPOSURE S3 Hex) as [ex3 Hex3].
  unfold s4.
  rewrite (s_ctrl_vblank_exposure_max env _ s3 ex3 Hex3) by lia.
  apply shell_cur_mode in S3. rewrite S3. cbn [cur_mode set_cur_mode dev s0 set_dev].
  rewrite (to_u32_id (vts mode - height mode)).
  - rewrite to_u32_id; [lia|].
    assert (2 ^ 31 = 2147483648) as E31 by reflexivity.
    assert (2 ^ 32 = 4294967296) as E32 by reflexivity. lia.
  - assert (2 ^ 31 = 2147483648) as E31 by reflexivity.
    assert (2 ^ 32 = 4294967296) as E32 by reflexivity. lia.
Qed.

(** C3: an ACTIVE set-format to 2112x1568, on a freshly probed instance
    and on a streaming one.  The mode is installed and hblank pinned to
    [2244 - 2112 = 132], but the vblank default [vts - height = 40] lies
    below [OV13855_VBLANK_MIN = 56], the set of vblank to it is refused,
    and the maximum of exposure stays at 3206 instead of
    [vts - 8 = 1600]; no vblank value of the range could give 1600. *)
Theorem set_fmt_2112x1568_exposure_max_not_updated (env : environment) :
  let fresh := probed_world in
  let live := snd (ov13855_set_stream env_ok 1 probed_world) in
  let d1 := dev (snd (ov13855_set_pad_format env V4L2_SUBDEV_FORMAT_ACTIVE
                        2112 1568 fresh)) in
  let d2 := dev (snd (ov13855_set_pad_format env_ok V4L2_SUBDEV_FORMAT_ACTIVE
                        2112 1568 live)) in
  streaming (dev live) = true /\
  cur_mode d1 = mode_2112x1568 /\ cur_mode d2 = mode_2112x1568 /\
  vts mode_2112x1568 - 8 = 1600 /\
  maximum (ctrl V4L2_CID_EXPOSURE d1) = 3206 /\
  maximum (ctrl V4L2_CID_EXPOSURE d2) = 3206 /\
  default_value (ctrl V4L2_CID_VBLANK d1) = 40 /\
  minimum (ctrl V4L2_CID_VBLANK d1) = 56 /\
  cur (ctrl V4L2_CID_VBLANK d1) = 78 /\
  minimum (ctrl V4L2_CID_HBLANK d1) = 132 /\
  maximum (ctrl V4L2_CID_HBLANK d1) = 132 /\
  read_only (ctrl V4L2_CID_HBLANK d1) = true /\
  (forall v, OV13855_VBLANK_MIN <= v ->
             height mode_2112x1568 + v - 8 <> vts mode_2112x1568 - 8).
Proof.
  cbv zeta. repeat split; try (vm_compute; reflexivity).
  intros v Hv. unfold OV13855_VBLANK_MIN in Hv. simpl.
  unfold OV13855_VTS_60FPS. lia.
Qed.

(** The other two modes do get [vts - 8]. *)
Example set_fmt_1056x784_exposure_max (env : environment) :
  maximum (ctrl V4L2_CID_EXPOSURE
             (dev (snd (ov13855_set_pad_format env V4L2_SUBDEV_FORMAT_ACTIVE
                          1056 784 probed_world))))
  = vts mode_1056x784 - 8.
Proof.
  assert (In V4L2_CID_VBLANK
            (List.map id (ctrl_handler (dev probed_world))) /\
          In V4L2_CID_HBLANK
            (List.map id (ctrl_handler (dev probed_world))) /\
          In V4L2_CID_EXPOSURE
            (List.map id (ctrl_handler (dev probed_world))))
    as (H1 & H2 & H3) by (vm_compute; tauto).
  destruct (set_pad_format_active env V4L2_SUBDEV_FORMAT_ACTIVE 1056 784
              probed_world eq_refl H1 H2 H3) as (_ & _ & _ & _ & H).
  apply H. vm_compute. discriminate.
Qed.

(** An external write to hblank is refused and changes nothing. *)
Example hblank_external_write_refused (env : environment) :
  v4l2_s_ctrl env V4L2_CID_HBLANK 132
    (snd (ov13855_set_pad_format env V4L2_SUBDEV_FORMAT_ACTIVE 2112 1568
            probed_world))
  = (- EACCES,
     snd (ov13855_set_pad_format env V4L2_SUBDEV_FORMAT_ACTIVE 2112 1568
            probed_world)).
Proof. vm_compute. reflexivity. Qed.

(** * Further properties of the driver *)

(** ** Byte order *)

Lemma land_shiftl_small a b k :
  0 <= k -> 0 <= b < 2 ^ k -> Z.land (Z.shiftl a k) b = 0.
Proof.
  intros Hk Hb. apply Z.bits_inj'. intros n Hn.
  rewrite Z.land_spec, Z.bits_0.
  destruct (Z_lt_le_dec n k) as [Hlt|Hge].
  - rewrite Z.shiftl_spec_low by lia. reflexivity.
  - rewrite <- (Z.mod_small b (2 ^ k)) by lia.
    rewrite Z.mod_pow2_bits_high by lia. apply andb_false_r.
Qed.

Lemma lor_shiftl_add a b k :
  0 <= k -> 0 <= b < 2 ^ k -> Z.lor (Z.shiftl a k) b = a * 2 ^ k + b.
Proof.
  intros Hk Hb. rewrite <- Z.lxor_lor by (apply land_shiftl_small; lia).
  rewrite <- Z.add_nocarry_lxor by (apply land_shiftl_small; lia).
  rewrite Z.shiftl_mul_pow2 by lia. reflexivity.
Qed.

(** [be32_to_cpu] on four bytes is their big-endian value. *)
Lemma be32_to_cpu_value a b c d :
  0 <= a < 256 -> 0 <= b < 256 -> 0 <= c < 256 -> 0 <= d < 256 ->
  be32_to_cpu [a; b; c; d] = be_value [a; b; c; d].
Proof.
  intros Ha Hb Hc Hd. unfold be32_to_cpu, be_value. cbn [nth fold_left].
  assert (2 ^ 8 = 256) as E8 by reflexivity.
  assert (2 ^ 16 = 65536) as E16 by reflexivity.
  assert (2 ^ 24 = 16777216) as E24 by reflexivity.
  rewrite (lor_shiftl_add c d 8) by lia.
  rewrite (lor_shiftl_add b _ 16) by lia.
  rewrite (lor_shiftl_add a _ 24) by lia. lia.
Qed.

Lemma be_value_app bs x : be_value (bs ++ [x]) = be_value bs * 256 + x.
Proof. unfold be_value. rewrite fold_left_app. reflexivity. Qed.

Lemma be_value_cons x bs :
  be_value (x :: bs) = x * 256 ^ Z.of_nat (length bs) + be_value bs.
Proof.
  revert x. induction bs as [|b bs IH] using rev_ind; intros x.
  - unfold be_value. simpl. lia.
  - rewrite app_comm_cons, !be_value_app, IH, length_app. simpl length.
    rewrite Nat2Z.inj_add. change (Z.of_nat 1) with 1.
    rewrite Z.pow_add_r by lia. lia.
Qed.

Lemma be_value_range bs :
  Forall (fun b => 0 <= b < 256) bs ->
  0 <= be_value bs < 256 ^ Z.of_nat (length bs).
Proof.
  induction bs as [|b bs IH] using rev_ind; intros H.
  - unfold be_value. simpl. lia.
  - apply Forall_app in H. destruct H as [Hbs Hb].
    apply Forall_inv in Hb. specialize (IH Hbs).
    rewrite be_value_app, length_app. simpl length.
    rewrite Nat2Z.inj_add. change (Z.of_nat 1) with 1.
    rewrite Z.pow_add_r by lia. lia.
Qed.

(** The [w] low bytes of [v], read back, are [v] modulo [2 ^ (8 w)]. *)
Lemma be_value_be_bytes w v :
  be_value (be_bytes w v) = v mod 2 ^ (8 * Z.of_nat w).
Proof.
  induction w as [|w IH].
  - simpl. unfold be_value. simpl. rewrite Z.mod_1_r. reflexivity.
  - cbn [be_bytes]. rewrite be_value_cons, IH, be_bytes_length.
    unfold byte_of. change 0xff with (Z.ones 8).
    rewrite Z.land_ones, Z.shiftr_div_pow2 by lia.
    replace (8 * Z.of_nat (S w)) with (8 * Z.of_nat w + 8) by lia.
    rewrite Z.pow_add_r by lia.
    rewrite (Z.rem_mul_r v (2 ^ (8 * Z.of_nat w)) (2 ^ 8)) by lia.
    replace (256 ^ Z.of_nat w) with (2 ^ (8 * Z.of_nat w)).
    + lia.
    + rewrite Z.pow_mul_r by lia. reflexivity.
Qed.

(** ** Register transport, continued *)

Section TransportMore.

Variable env : environment.

Lemma rx_bytes_range tr n :
  Forall (fun b => 0 <= b < 256)
         (List.map (fun k => to_u8 (rx env tr k)) (seq 0 n)).
Proof.
  apply List.Forall_forall. intros b Hb. apply List.in_map_iff in Hb.
  destruct Hb as (k & <- & _). unfold to_u8. apply Z.mod_pos_bound. lia.
Qed.

(** The word assembled from [w] received bytes is their big-endian
    value. *)
Lemma read_word_value w bytes :
  1 <= w <= 4 -> length bytes = Z.to_nat w ->
  Forall (fun b => 0 <= b < 256) bytes ->
  be32_to_cpu (store_bytes (Z.to_nat (4 - w)) bytes (cpu_to_be32 0))
  = be_value bytes.
Proof.
  intros Hw Hlen Hr. change (cpu_to_be32 0) with [0; 0; 0; 0].
  assert (w = 1 \/ w = 2 \/ w = 3 \/ w = 4) as Hc by lia.
  destruct Hc as [-> | [-> | [-> | ->]]];
    repeat (destruct bytes as [|? bytes]; try discriminate Hlen);
    repeat match goal with
           | H : Forall _ (_ :: _) |- _ => inversion H; clear H; subst
           end;
    match goal with
    | |- context [Z.to_nat (4 - ?n)] =>
        let k := eval vm_compute in (Z.to_nat (4 - n)) in
        change (Z.to_nat (4 - n)) with k
    end;
    cbn;
    rewrite be32_to_cpu_value by lia; unfold be_value;
    cbn [fold_left]; lia.
Qed.

Lemma read_reg_value reg w v0 st :
  1 <= w <= 4 ->
  let tr := I2C_TRANSFER (cpu_to_be16 (to_u16 reg)) w :: trace st in
  let bytes :=
    List.map (fun k => to_u8 (rx env tr k)) (seq 0 (Z.to_nat w)) in
  ov13855_read_reg env reg w v0 st =
    ((if to_s32 (reply env tr) =? 2 then (0, be_value bytes)
      else (- EIO, v0)),
     set_trace tr st).
Proof.
  intros Hw tr bytes.
  pose proof (read_reg_accepted env reg w v0 st) as H. cbv zeta in H.
  rewrite H by lia. fold tr. fold bytes.
  assert (length bytes = Z.to_nat w) as Hlen
    by (unfold bytes; rewrite length_map, length_seq; reflexivity).
  rewrite (read_word_value w bytes Hw Hlen (rx_bytes_range tr _)).
  reflexivity.
Qed.

Lemma write_regs_cons r regs st :
  let tr := reg_msg r :: trace st in
  ov13855_write_regs env (r :: regs) st =
    if to_s32 (reply env tr) =? 3
    then ov13855_write_regs env regs (set_trace tr st)
    else (- EIO, set_trace tr st).
Proof.
  cbv zeta. cbn [ov13855_write_regs]. unfold bind.
  pose proof (write_reg_accepted env (address r) 1 (val r) st) as Hw.
  cbv zeta in Hw. rewrite Hw by lia. change (Z.to_nat 1) with 1%nat.
  fold (reg_msg r). change (1 + 2) with 3.
  destruct (to_s32 (reply env (reg_msg r :: trace st)) =? 3); reflexivity.
Qed.

(** Writing a register list: how far it got. *)
Lemma write_regs_progress regs st :
  let out := ov13855_write_regs env regs st in
  exists k,
    (k <= length regs)%nat /\
    trace (snd out) = rev (List.map reg_msg (firstn k regs)) ++ trace st /\
    (fst out = 0 -> k = length regs) /\
    (fst out <> 0 -> fst out = - EIO /\ (0 < k)%nat).
Proof.
  cbv zeta. revert st. induction regs as [|r regs IH]; intros st.
  - exists 0%nat. simpl. repeat split; lia.
  - rewrite write_regs_cons. cbv zeta.
    destruct (to_s32 (reply env (reg_msg r :: trace st)) =? 3).
    + destruct (IH (set_trace (reg_msg r :: trace st) st))
        as (k & Hk & Htr & Hok & Hfail).
      exists (S k). split; [simpl; lia|]. split.
      { cbn [firstn List.map rev]. rewrite Htr. cbn [trace set_trace].
        rewrite <- app_assoc. reflexivity. }
      split.
      { intros H. rewrite (Hok H). reflexivity. }
      intros H. destruct (Hfail H) as [He _]. split; [exact He | lia].
    + exists 1%nat. split; [simpl; lia|]. split; [reflexivity|].
      split; [unfold EIO; intros H; discriminate H|].
      intros _. split; [reflexivity | lia].
Qed.

End TransportMore.

(** X1: a read of [w] bytes (1..4) that the bus completes returns the
    big-endian value of the [w] bytes received, a number below
    [2 ^ (8 w)]; when the transfer does not complete the result is
    [-EIO] and [*val] keeps what it held. *)
Theorem read_reg_big_endian
    (env : environment) (reg w v0 : Z) (st : world) :
  1 <= w <= 4 ->
  let tr := I2C_TRANSFER (cpu_to_be16 (to_u16 reg)) w :: trace st in
  let bytes :=
    List.map (fun k => to_u8 (rx env tr k)) (seq 0 (Z.to_nat w)) in
  ov13855_read_reg env reg w v0 st =
    ((if to_s32 (reply env tr) =? 2 then (0, be_value bytes)
      else (- EIO, v0)),
     set_trace tr st) /\
  0 <= be_value bytes < 2 ^ (8 * w).
Proof.
  intros Hw tr bytes. split; [apply read_reg_value; exact Hw|].
  pose proof (be_value_range bytes (rx_bytes_range env tr _)) as Hr.
  unfold bytes in Hr at 3. rewrite length_map, length_seq in Hr.
  rewrite Z2Nat.id in Hr by lia.
  replace (2 ^ (8 * w)) with (256 ^ w); [exact Hr|].
  change 256 with (2 ^ 8). rewrite <- Z.pow_mul_r by lia. reflexivity.
Qed.

Lemma read_reg_big_endian_witness :
  1 <= 3 <= 4 /\
  ov13855_read_reg (env_rx [0x00; 0xd8; 0x55]) OV13855_REG_CHIP_ID 3 0
    probed_world
  = ((0, 0xd855), set_trace [I2C_TRANSFER [0x30; 0x0a] 3] probed_world).
Proof.
  assert (1 <= 3 <= 4) as Hw by lia. split; [exact Hw|].
  destruct (read_reg_big_endian (env_rx [0x00; 0xd8; 0x55])
              OV13855_REG_CHIP_ID 3 0 probed_world Hw) as [H _].
  etransitivity; [exact H | vm_compute; reflexivity].
Defined.

(** X2: a register written with width [w] and read back with the same
    width gives the value modulo [2 ^ (8 w)]: if the bytes a completed
    read receives are the value bytes of the message the write put on
    the bus, the read returns [v mod 2 ^ (8 w)] for a 32-bit [v]. *)
Theorem write_read_round_trip
    (env : environment) (reg w v v0 : Z) (st1 st2 : world) :
  1 <= w <= 4 ->
  0 <= v < 2 ^ 32 ->
  let tr := I2C_TRANSFER (cpu_to_be16 (to_u16 reg)) w :: trace st2 in
  let bytes :=
    List.map (fun k => to_u8 (rx env tr k)) (seq 0 (Z.to_nat w)) in
  to_s32 (reply env tr) = 2 ->
  hd_error (trace (snd (ov13855_write_reg env reg w v st1)))
  = Some (I2C_MASTER_SEND (cpu_to_be16 (to_u16 reg) ++ bytes)) ->
  ov13855_read_reg env reg w v0 st2 = ((0, v mod 2 ^ (8 * w)), set_trace tr st2).
Proof.
  intros Hw Hv tr bytes Hok Hsent.
  pose proof (write_reg_accepted env reg w v st1) as Hwr. cbv zeta in Hwr.
  rewrite Hwr in Hsent by lia. cbn [snd trace set_trace hd_error] in Hsent.
  injection Hsent as Hb.
  rewrite (read_reg_value env reg w v0 st2 Hw). fold tr. fold bytes.
  rewrite Hok. change (2 =? 2) with true. cbv iota.
  rewrite <- Hb, be_value_be_bytes, Z2Nat.id by lia.
  rewrite (to_u32_id v) by exact Hv. reflexivity.
Qed.

Lemma write_read_round_trip_witness :
  ov13855_read_reg (env_rx [0x0c; 0x8e]) OV13855_REG_VTS 2 0 probed_world
  = ((0, 0x12340c8e mod 2 ^ (8 * 2)),
     set_trace [I2C_TRANSFER [0x38; 0x0e] 2] probed_world).
Proof.
  apply (write_read_round_trip (env_rx [0x0c; 0x8e]) OV13855_REG_VTS 2
           0x12340c8e 0 probed_world probed_world).
  - lia.
  - split; [discriminate | reflexivity].
  - reflexivity.
  - vm_compute. reflexivity.
Defined.

Section WriteRegsOutcome.

Variable env : environment.

Lemma sent_cons r regs j t :
  rev (List.map reg_msg (firstn (S j) (r :: regs))) ++ t
  = rev (List.map reg_msg (firstn j regs)) ++ reg_msg r :: t.
Proof.
  cbn [firstn List.map rev]. rewrite <- app_assoc. reflexivity.
Qed.

Lemma set_trace_same st : set_trace (trace st) st = st.
Proof. destruct st. reflexivity. Qed.

(** Every write taken: the whole list goes out. *)
Lemma write_regs_all_taken regs st :
  (forall j, (j < length regs)%nat ->
     to_s32 (reply env
               (rev (List.map reg_msg (firstn (S j) regs)) ++ trace st)) = 3) ->
  ov13855_write_regs env regs st =
    (0, set_trace (rev (List.map reg_msg regs) ++ trace st) st).
Proof.
  revert st. induction regs as [|r regs IH]; intros st Hall.
  - cbn [List.map rev app]. rewrite set_trace_same. reflexivity.
  - rewrite write_regs_cons. cbv zeta.
    pose proof (Hall 0%nat ltac:(cbn; lia)) as H0.
    change (rev (List.map reg_msg (firstn 1 (r :: regs))) ++ trace st)
      with (reg_msg r :: trace st) in H0.
    rewrite H0. change (3 =? 3) with true. cbv iota.
    rewrite IH.
    + cbn [List.map rev trace set_trace]. rewrite <- app_assoc. reflexivity.
    + intros j Hj. cbn [trace set_trace].
      rewrite <- sent_cons. apply Hall. cbn [length]. lia.
Qed.

(** A first write refused: it is the last one sent. *)
Lemma write_regs_first_refused regs st k :
  (k < length regs)%nat ->
  (forall j, (j < k)%nat ->
     to_s32 (reply env
               (rev (List.map reg_msg (firstn (S j) regs)) ++ trace st)) = 3) ->
  to_s32 (reply env
            (rev (List.map reg_msg (firstn (S k) regs)) ++ trace st)) <> 3 ->
  ov13855_write_regs env regs st =
    (- EIO,
     set_trace (rev (List.map reg_msg (firstn (S k) regs)) ++ trace st) st).
Proof.
  revert st k. induction regs as [|r regs IH]; intros st k Hk Hbefore Hno.
  - cbn in Hk. lia.
  - rewrite write_regs_cons. cbv zeta. destruct k as [|k].
    + change (rev (List.map reg_msg (firstn 1 (r :: regs))) ++ trace st)
        with (reg_msg r :: trace st) in *.
      rewrite (proj2 (Z.eqb_neq _ _) Hno). reflexivity.
    + pose proof (Hbefore 0%nat ltac:(lia)) as H0.
      change (rev (List.map reg_msg (firstn 1 (r :: regs))) ++ trace st)
        with (reg_msg r :: trace st) in H0.
      rewrite H0. change (3 =? 3) with true. cbv iota.
      rewrite (IH _ k).
      * cbn [trace set_trace]. rewrite <- sent_cons. reflexivity.
      * cbn [length] in Hk. lia.
      * intros j Hj. cbn [trace set_trace]. rewrite <- sent_cons.
        apply Hbefore. lia.
      * cbn [trace set_trace]. rewrite <- sent_cons. exact Hno.
Qed.

End WriteRegsOutcome.

(** X3: a register list is written entry by entry in the listed order,
    one three-byte message each, a write being taken when the bus
    reports three bytes.  If every write is taken the whole list is
    sent and 0 is returned.  Otherwise the run stops at the first
    write that is not taken: its message is the last one sent, the
    entries after it are not written, and the result is [-EIO].  The
    empty list sends nothing and returns 0.  The driver state is not
    touched. *)
Theorem write_regs_in_order (env : environment)
    (regs : list ov13855_reg) (st : world) :
  let sent j := rev (List.map reg_msg (firstn j regs)) ++ trace st in
  let taken j := to_s32 (reply env (sent (S j))) = 3 in
  let out := ov13855_write_regs env regs st in
  dev (snd out) = dev st /\
  usage_count (snd out) = usage_count st /\
  ((forall j, (j < length regs)%nat -> taken j) ->
   fst out = 0 /\ trace (snd out) = sent (length regs)) /\
  (forall k, (k < length regs)%nat ->
     (forall j, (j < k)%nat -> taken j) -> ~ taken k ->
     fst out = - EIO /\ trace (snd out) = sent (S k)) /\
  ov13855_write_regs env [] st = (0, st).
Proof.
  cbv zeta.
  pose proof (write_regs_software env regs st) as H. unfold software in H.
  injection H as Hd Hu.
  split; [exact Hd|]. split; [exact Hu|]. split; [|split].
  - intros Hall. rewrite (write_regs_all_taken env regs st Hall).
    rewrite firstn_all. split; reflexivity.
  - intros k Hk Hbefore Hno.
    rewrite (write_regs_first_refused env regs st k Hk Hbefore Hno).
    split; reflexivity.
  - reflexivity.
Qed.

(** X4: the identity check reads the three bytes at 0x300a and writes
    nothing; it returns 0 exactly when the read completes with the
    bytes 0x00, 0xd8, 0x55, and [-EIO] otherwise. *)
Theorem identify_module_accepts_only_chip_id
    (env : environment) (st : world) :
  let tr := I2C_TRANSFER [0x30; 0x0a] 3 :: trace st in
  let out := ov13855_identify_module env st in
  snd out = set_trace tr st /\
  (fst out = 0 <->
   to_s32 (reply env tr) = 2 /\
   List.map (fun k => to_u8 (rx env tr k)) (seq 0 3) = [0x00; 0xd8; 0x55]) /\
  (fst out <> 0 -> fst out = - EIO).
Proof.
  cbv zeta. unfold ov13855_identify_module. unfold bind.
  pose proof (read_reg_value env OV13855_REG_CHIP_ID OV13855_REG_VALUE_24BIT
                0 st) as Hr.
  cbv zeta in Hr. rewrite Hr by (unfold OV13855_REG_VALUE_24BIT; lia).
  clear Hr.
  change (cpu_to_be16 (to_u16 OV13855_REG_CHIP_ID)) with [0x30; 0x0a].
  change OV13855_REG_VALUE_24BIT with 3. change (Z.to_nat 3) with 3%nat.
  set (tr := I2C_TRANSFER [0x30; 0x0a] 3 :: trace st).
  pose proof (rx_bytes_range env tr 3) as Hb.
  cbn [seq List.map] in *.
  set (b0 := to_u8 (rx env tr 0)) in *.
  set (b1 := to_u8 (rx env tr 1)) in *.
  set (b2 := to_u8 (rx env tr 2)) in *.
  inversion Hb as [|? ? H0 Hb1]; subst. inversion Hb1 as [|? ? H1 Hb2]; subst.
  inversion Hb2 as [|? ? H2 _]; subst.
  unfold be_value. cbn [fold_left]. unfold OV13855_CHIP_ID, EIO.
  destruct (Z.eqb_spec (to_s32 (reply env tr)) 2) as [E|E]; cbn [fst snd].
  - change (negb (0 =? 0)) with false. cbv iota.
    destruct (Z.eqb_spec (((0 * 256 + b0) * 256 + b1) * 256 + b2) 0x00d855)
      as [Ev|Ev]; cbn [negb fst snd ret].
    + split; [reflexivity|]. split; [|intros H; contradiction].
      split; [intros _|reflexivity]. split; [exact E|].
      assert (b0 = 0 /\ b1 = 0xd8 /\ b2 = 0x55) as (-> & -> & ->) by lia.
      reflexivity.
    + split; [reflexivity|]. split; [|intros _; reflexivity].
      split; [intros H; discriminate H|].
      intros [_ Hl]. injection Hl as -> -> ->. contradiction Ev. reflexivity.
  - change (negb (-5 =? 0)) with true. cbv iota. cbn [fst snd ret].
    split; [reflexivity|]. split; [|intros _; reflexivity].
    split; [intros H; discriminate H | intros [H _]; contradiction].
Qed.

(** ** Streaming, suspend and resume *)

Section StreamingMore.

Variable env : environment.

Lemma stop_streaming_run st :
  let tr := standby_msg :: trace st in
  ov13855_stop_streaming env st =
    ((if to_s32 (reply env tr) =? 3 then 0 else - EIO), set_trace tr st).
Proof.
  cbv zeta. unfold ov13855_stop_streaming.
  pose proof (write_reg_accepted env OV13855_REG_MODE_SELECT
                OV13855_REG_VALUE_08BIT OV13855_MODE_STANDBY st) as H.
  cbv zeta in H. rewrite H by (unfold OV13855_REG_VALUE_08BIT; lia).
  reflexivity.
Qed.

Lemma handler_setup_extends : extends (__v4l2_ctrl_handler_setup env).
Proof.
  unfold __v4l2_ctrl_handler_setup.
  apply extends_bind; [apply get_dev_extends|].
  intros d. apply replay_ctrls_extends.
Qed.

Lemma write_regs_all regs st :
  fst (ov13855_write_regs env regs st) = 0 ->
  trace (snd (ov13855_write_regs env regs st))
  = rev (List.map reg_msg regs) ++ trace st.
Proof.
  intros H0.
  destruct (write_regs_progress env regs st) as (k & Hk & Htr & Hall & _).
  rewrite Htr, (Hall H0), firstn_all. reflexivity.
Qed.

End StreamingMore.

Section StreamingOps.

Variable env : environment.

Lemma set_stream_off_run st :
  streaming (dev st) = true ->
  ov13855_set_stream env 0 st =
    (0, {| dev := set_streaming false (dev st);
           usage_count := usage_count st - 1;
           trace := PM_RUNTIME_PUT :: standby_msg :: trace st |}).
Proof.
  intros Hs. unfold ov13855_set_stream. change (to_s32 0) with 0.
  unfold bind at 1. unfold get_dev at 1. cbv beta iota. rewrite Hs.
  change (Z.b2z true =? 0) with false. change (negb (0 =? 0)) with false.
  cbv iota. unfold bind at 1. rewrite stop_streaming_run. cbv zeta.
  destruct st as [d u t]. reflexivity.
Qed.

Lemma set_stream_on_shell st :
  streaming (dev st) = false ->
  let out := ov13855_set_stream env 1 st in
  shell (snd out) =
    if fst out =? 0
    then shell {| dev := set_streaming true (dev st);
                  usage_count := usage_count st + 1; trace := trace st |}
    else shell st.
Proof.
  intros Hs. cbv zeta. rewrite (set_stream_on_standby env st Hs). cbv zeta.
  pose proof (get_sync_result env st) as H0.
  pose proof (get_sync_usage env st) as U0.
  pose proof (get_sync_dev env st) as D0.
  set (p0 := pm_runtime_get_sync env st) in *. clearbody p0.
  pose proof (start_streaming_shell env (snd p0)) as S.
  set (p := ov13855_start_streaming env (snd p0)) in *. clearbody p.
  unfold shell in *. injection S as S1 S2 S3 S4 S5 S6.
  destruct (Z.ltb_spec (fst p0) 0) as [Hneg|Hnn]; cbn [fst snd].
  - destruct (Z.eqb_spec (fst p0) 0) as [E|_]; [lia|].
    cbn. rewrite D0, U0. repeat f_equal. lia.
  - destruct (Z.eqb_spec (fst p) 0) as [E|E]; cbn [negb fst snd].
    + rewrite (proj2 (Z.eqb_eq _ _) E).
      cbn. rewrite S1, S2, S3, S5, S6, D0, U0. reflexivity.
    + rewrite (proj2 (Z.eqb_neq _ _) E).
      cbn. rewrite S1, S2, S3, S4, S5, S6, D0, U0. repeat f_equal. lia.
Qed.

Lemma set_stream_noop st (b : bool) :
  streaming (dev st) = b -> ov13855_set_stream env (Z.b2z b) st = (0, st).
Proof.
  intros Hs. unfold ov13855_set_stream, bind, get_dev. rewrite Hs.
  replace (to_s32 (Z.b2z b)) with (Z.b2z b) by (destruct b; reflexivity).
  rewrite Z.eqb_refl. reflexivity.
Qed.

End StreamingOps.

Section StreamingRun.

Variable env : environment.

Lemma world_eq a b :
  dev a = dev b -> usage_count a = usage_count b -> trace a = trace b ->
  a = b.
Proof. destruct a, b. cbn. intros -> -> ->. reflexivity. Qed.

Lemma get_sync_state st :
  snd (pm_runtime_get_sync env st) =
  set_trace (PM_RUNTIME_GET_SYNC :: trace st)
    (set_usage_count (usage_count st + 1) st).
Proof.
  unfold pm_runtime_get_sync, call. cbn [trace set_usage_count].
  destruct (usage_count st =? 0); reflexivity.
Qed.

Lemma write_regs_state regs st :
  fst (ov13855_write_regs env regs st) = 0 ->
  snd (ov13855_write_regs env regs st)
  = set_trace (rev (List.map reg_msg regs) ++ trace st) st.
Proof.
  intros H0. apply world_eq.
  - pose proof (write_regs_software env regs st) as H. unfold software in H.
    now injection H.
  - pose proof (write_regs_software env regs st) as H. unfold software in H.
    now injection H.
  - exact (write_regs_all env regs st H0).
Qed.

(** A start of streaming that went through, state by state: the
    reset write, the two tables, the control replay on the state they
    leave, the streaming-enable write. *)
Lemma start_streaming_run st :
  let s3 := set_trace
              (rev (List.map reg_msg (reg_list (cur_mode (dev st))))
               ++ rev (List.map reg_msg init_setting)
               ++ reset_msg :: trace st) st in
  let p4 := __v4l2_ctrl_handler_setup env s3 in
  fst (ov13855_start_streaming env st) = 0 ->
  fst p4 = 0 /\
  snd (ov13855_start_streaming env st)
  = set_trace (streaming_msg :: trace (snd p4)) (snd p4).
Proof.
  cbv zeta. rewrite (start_streaming_steps env st). cbv zeta.
  pose proof (write_reg_accepted env OV13855_REG_SOFTWARE_RST
                OV13855_REG_VALUE_08BIT OV13855_SOFTWARE_RST st) as H1.
  cbv zeta in H1. specialize (H1 ltac:(unfold OV13855_REG_VALUE_08BIT; lia)).
  set (p1 := ov13855_write_reg env OV13855_REG_SOFTWARE_RST _ _ st) in *.
  assert (snd p1 = set_trace (reset_msg :: trace st) st) as S1
    by (rewrite H1; reflexivity).
  clearbody p1. clear H1.
  destruct (Z.eqb_spec (fst p1) 0) as [E1|E1]; cbn [negb];
    [|intros H; contradiction].
  rewrite S1.
  pose proof (write_regs_state init_setting
                (set_trace (reset_msg :: trace st) st)) as S2.
  set (p2 := ov13855_write_regs env init_setting _) in *. clearbody p2.
  destruct (Z.eqb_spec (fst p2) 0) as [E2|E2]; cbn [negb];
    [|intros H; contradiction].
  rewrite (S2 E2). cbn [trace set_trace dev].
  set (I := rev (List.map reg_msg init_setting)). clearbody I.
  unfold ov13855_write_reg_list.
  pose proof (write_regs_state (reg_list (cur_mode (dev st)))
                (set_trace (I ++ reset_msg :: trace st) st)) as S3.
  set (p3 := ov13855_write_regs env (reg_list (cur_mode (dev st))) _) in *.
  clearbody p3.
  destruct (Z.eqb_spec (fst p3) 0) as [E3|E3]; cbn [negb];
    [|intros H; contradiction].
  rewrite (S3 E3). cbn [trace set_trace dev].
  set (T := rev (List.map reg_msg (reg_list (cur_mode (dev st))))).
  clearbody T.
  set (p4 := __v4l2_ctrl_handler_setup env _). clearbody p4.
  destruct (Z.eqb_spec (fst p4) 0) as [E4|E4]; cbn [negb];
    [|intros H; contradiction].
  pose proof (write_reg_accepted env OV13855_REG_MODE_SELECT
                OV13855_REG_VALUE_08BIT OV13855_MODE_STREAMING (snd p4)) as H5.
  cbv zeta in H5. specialize (H5 ltac:(unfold OV13855_REG_VALUE_08BIT; lia)).
  rewrite H5. cbn [fst snd]. intros _. split; [exact E4 | reflexivity].
Qed.

Lemma set_stream_on_run st :
  streaming (dev st) = false ->
  let s3 := set_trace
              (rev (List.map reg_msg (reg_list (cur_mode (dev st))))
               ++ rev (List.map reg_msg init_setting)
               ++ reset_msg :: PM_RUNTIME_GET_SYNC :: trace st)
              (set_usage_count (usage_count st + 1) st) in
  let p4 := __v4l2_ctrl_handler_setup env s3 in
  fst (ov13855_set_stream env 1 st) = 0 ->
  fst p4 = 0 /\
  snd (ov13855_set_stream env 1 st)
  = set_dev (set_streaming true (dev (snd p4)))
      (set_trace (streaming_msg :: trace (snd p4)) (snd p4)).
Proof.
  intros Hs. cbv zeta. rewrite (set_stream_on_standby env st Hs). cbv zeta.
  pose proof (get_sync_result env st) as H0.
  rewrite get_sync_state.
  set (r0 := fst (pm_runtime_get_sync env st)) in *. clearbody r0.
  destruct (Z.ltb_spec r0 0) as [Hneg|Hnn]; cbn [fst snd];
    [intros E; lia|].
  pose proof (start_streaming_run
                (set_trace (PM_RUNTIME_GET_SYNC :: trace st)
                   (set_usage_count (usage_count st + 1) st))) as Hrun.
  cbv zeta in Hrun. cbn [trace set_trace dev set_usage_count] in Hrun.
  set (p := ov13855_start_streaming env _) in *. clearbody p.
  destruct (Z.eqb_spec (fst p) 0) as [E|E]; cbn [negb fst snd];
    [intros _ | intros E'; contradiction].
  destruct (Hrun E) as [H4 Hst]. split; [exact H4|].
  rewrite Hst. reflexivity.
Qed.

End StreamingRun.

(** What a start of streaming can change in the instance: it writes
    the instance only in the first switch of [ov13855_set_ctrl] for the
    vblank control.  [g] is any observation of the instance which that
    switch and the streaming flag leave alone. *)
Section InstanceFrame.

Variable env : environment.
Context {T : Type}.
Variable g : ov13855 -> T.
Hypothesis g_streaming : forall b d, g (set_streaming b d) = g d.
Hypothesis g_vblank :
  forall v s, g (dev (snd (propagate_ctrl V4L2_CID_VBLANK v s))) = g (dev s).

Lemma frame_of_software {A} (c : M A) :
  preserves software c -> preserves (fun w => g (dev w)) c.
Proof.
  intros H st. specialize (H st). unfold software in H.
  injection H as Hd _. cbv beta. rewrite Hd. reflexivity.
Qed.

Lemma set_ctrl_frame c v :
  preserves (fun w => g (dev w)) (ov13855_set_ctrl env c v).
Proof.
  intros st. cbv beta. rewrite set_ctrl_dev.
  destruct (decide (c = V4L2_CID_VBLANK)) as [->|Hc].
  - apply g_vblank.
  - rewrite (propagate_other c v st Hc). reflexivity.
Qed.

Lemma replay_ctrls_frame ids :
  preserves (fun w => g (dev w)) (replay_ctrls env ids).
Proof.
  induction ids as [|c ids IH]; simpl; [apply preserves_ret|].
  apply preserves_bind; [apply get_dev_preserves|]. intros d.
  apply preserves_bind; [apply set_ctrl_frame|]. intros e.
  apply preserves_if; [apply preserves_ret | exact IH].
Qed.

Lemma handler_setup_frame :
  preserves (fun w => g (dev w)) (__v4l2_ctrl_handler_setup env).
Proof.
  unfold __v4l2_ctrl_handler_setup.
  apply preserves_bind; [apply get_dev_preserves|].
  intros d. apply replay_ctrls_frame.
Qed.

Lemma start_streaming_frame :
  preserves (fun w => g (dev w)) (ov13855_start_streaming env).
Proof.
  intros st. rewrite (start_streaming_steps env st). cbv zeta.
  pose proof (frame_of_software _
                (write_reg_software env OV13855_REG_SOFTWARE_RST
                   OV13855_REG_VALUE_08BIT OV13855_SOFTWARE_RST) st) as F1.
  set (p1 := ov13855_write_reg env OV13855_REG_SOFTWARE_RST _ _ st) in *.
  clearbody p1.
  pose proof (frame_of_software _ (write_regs_software env init_setting)
                (snd p1)) as F2.
  set (p2 := ov13855_write_regs env init_setting (snd p1)) in *.
  clearbody p2.
  unfold ov13855_write_reg_list.
  pose proof (frame_of_software _
                (write_regs_software env (reg_list (cur_mode (dev (snd p2)))))
                (snd p2)) as F3.
  set (p3 := ov13855_write_regs env _ (snd p2)) in *. clearbody p3.
  pose proof (handler_setup_frame (snd p3)) as F4.
  set (p4 := __v4l2_ctrl_handler_setup env (snd p3)) in *. clearbody p4.
  pose proof (frame_of_software _
                (write_reg_software env OV13855_REG_MODE_SELECT
                   OV13855_REG_VALUE_08BIT OV13855_MODE_STREAMING) (snd p4))
    as F5.
  set (p5 := ov13855_write_reg env OV13855_REG_MODE_SELECT _ _ (snd p4)) in *.
  clearbody p5. cbv beta in *.
  destruct (negb (fst p1 =? 0)); [exact F1|].
  destruct (negb (fst p2 =? 0)); [congruence|].
  destruct (negb (fst p3 =? 0)); [congruence|].
  destruct (negb (fst p4 =? 0)); congruence.
Qed.

(** From Standby, a start followed by a stop. *)
Lemma set_stream_on_off_frame st :
  streaming (dev st) = false ->
  g (dev (snd (ov13855_set_stream env 0
                 (snd (ov13855_set_stream env 1 st))))) = g (dev st).
Proof.
  intros Hs.
  assert (g (dev (snd (ov13855_set_stream env 1 st))) = g (dev st)) as Hon.
  { rewrite (set_stream_on_standby env st Hs). cbv zeta.
    pose proof (get_sync_dev env st) as D0.
    set (p0 := pm_runtime_get_sync env st) in *. clearbody p0.
    pose proof (start_streaming_frame (snd p0)) as F.
    set (p := ov13855_start_streaming env (snd p0)) in *. clearbody p.
    cbv beta in F.
    destruct (fst p0 <? 0); cbn [snd].
    - cbn. rewrite D0. reflexivity.
    - destruct (negb (fst p =? 0)); cbn [snd]; cbn;
        rewrite ?g_streaming, F, D0; reflexivity. }
  set (s1 := snd (ov13855_set_stream env 1 st)) in *. clearbody s1.
  destruct (streaming (dev s1)) eqn:S1.
  - rewrite (set_stream_off_run env s1 S1). cbn [snd dev].
    rewrite g_streaming. exact Hon.
  - pose proof (set_stream_noop env s1 false S1) as Hn.
    change (Z.b2z false) with 0 in Hn. rewrite Hn. exact Hon.
Qed.

End InstanceFrame.

(** The vblank switch rewrites the exposure control only, and of it
    only maximum, default and value. *)
Lemma propagate_vblank_other c v s :
  c <> V4L2_CID_EXPOSURE ->
  ctrl c (dev (snd (propagate_ctrl V4L2_CID_VBLANK v s))) = ctrl c (dev s).
Proof.
  intros Hc. rewrite propagate_vblank. cbv zeta. cbn [snd dev set_dev].
  apply ctrl_update_other; [exact Hc|]. intros x. apply modify_range_id.
Qed.

Lemma propagate_vblank_exposure v s :
  let e := ctrl V4L2_CID_EXPOSURE (dev s) in
  let e' := ctrl V4L2_CID_EXPOSURE
              (dev (snd (propagate_ctrl V4L2_CID_VBLANK v s))) in
  (minimum e', step e', read_only e') = (minimum e, step e, read_only e).
Proof.
  cbv zeta. rewrite propagate_vblank. cbv zeta. cbn [snd dev set_dev].
  unfold ctrl. cbn [ctrl_handler set_ctrl_handler].
  rewrite !find_update_same by (intros x; apply modify_range_id).
  destruct (find_ctrl V4L2_CID_EXPOSURE (ctrl_handler (dev s))) as [e|];
    [|reflexivity].
  cbn. unfold modify_range. cbn [set_range cur].
  destruct (_ <? cur e); [reflexivity|].
  destruct (cur e <? _); reflexivity.
Qed.

(** X5: stopping a running stream cannot fail: [ov13855_set_stream(sd, 0)]
    on a streaming instance returns 0 whatever the bus answers to the
    standby write, sends that write and then drops the power reference,
    and clears the streaming flag; nothing else of the instance
    changes. *)
Theorem set_stream_off_always_succeeds (env : environment) (st : world) :
  streaming (dev st) = true ->
  let out := ov13855_set_stream env 0 st in
  fst out = 0 /\
  dev (snd out) = set_streaming false (dev st) /\
  usage_count (snd out) = usage_count st - 1 /\
  trace (snd out) = PM_RUNTIME_PUT :: standby_msg :: trace st.
Proof.
  intros Hs. cbv zeta. rewrite (set_stream_off_run env st Hs).
  repeat split.
Qed.

Lemma set_stream_off_always_succeeds_witness :
  let st := snd (ov13855_set_stream env_ok 1 probed_world) in
  let out := ov13855_set_stream (env_const (- EIO)) 0 st in
  streaming (dev st) = true /\
  fst out = 0 /\ streaming (dev (snd out)) = false /\
  usage_count (snd out) = 0.
Proof.
  cbv zeta.
  assert (streaming (dev (snd (ov13855_set_stream env_ok 1 probed_world)))
          = true) as Hs by (vm_compute; reflexivity).
  split; [exact Hs|].
  destruct (set_stream_off_always_succeeds (env_const (- EIO)) _ Hs)
    as (Hr & Hd & Hu & _).
  split; [exact Hr|]. split.
  - rewrite Hd. reflexivity.
  - etransitivity; [exact Hu | vm_compute; reflexivity].
Defined.

(** X6: a start of streaming from Standby that returns 0 has issued, in
    this order: the power reference request, the software-reset write,
    the whole initialisation table, the whole register table of the
    current mode, then the control replay, and last of all the
    streaming-enable write.  The replay is [__v4l2_ctrl_handler_setup]
    run on the instance as it was, with one more power reference and
    the history so far; it has returned 0, and its platform calls and
    the controls it leaves are those of the result.  The flag is then
    set and one power reference is held. *)
Theorem set_stream_on_sequence (env : environment) (st : world) :
  streaming (dev st) = false ->
  let before_replay :=
    set_trace
      (rev (List.map reg_msg (reg_list (cur_mode (dev st))))
       ++ rev (List.map reg_msg init_setting)
       ++ reset_msg :: PM_RUNTIME_GET_SYNC :: trace st)
      (set_usage_count (usage_count st + 1) st) in
  let replay := __v4l2_ctrl_handler_setup env before_replay in
  let out := ov13855_set_stream env 1 st in
  fst out = 0 ->
  fst replay = 0 /\
  dev (snd out) = set_streaming true (dev (snd replay)) /\
  usage_count (snd out) = usage_count st + 1 /\
  trace (snd out) = streaming_msg :: trace (snd replay) /\
  (exists ctrls, trace (snd replay) = ctrls ++ trace before_replay) /\
  streaming (dev (snd out)) = true.
Proof.
  intros Hs. cbv zeta. intros H0.
  destruct (set_stream_on_run env st Hs H0) as [H4 Hst].
  rewrite Hst. cbn [dev usage_count trace set_dev set_trace streaming
                    set_streaming].
  split; [exact H4|]. split; [reflexivity|].
  split.
  { pose proof (handler_setup_shell env
                  (set_trace
                     (rev (List.map reg_msg (reg_list (cur_mode (dev st))))
                      ++ rev (List.map reg_msg init_setting)
                      ++ reset_msg :: PM_RUNTIME_GET_SYNC :: trace st)
                     (set_usage_count (usage_count st + 1) st))) as Hsh.
    exact (shell_usage _ _ Hsh). }
  split; [reflexivity|]. split; [|reflexivity].
  apply handler_setup_extends.
Qed.

Lemma set_stream_on_sequence_witness :
  let out := ov13855_set_stream env_ok 1 probed_world in
  streaming (dev (snd out)) = true /\ usage_count (snd out) = 0 + 1 /\
  hd_error (trace (snd out)) = Some streaming_msg /\
  List.last (trace (snd out)) WARN = PM_RUNTIME_GET_SYNC.
Proof.
  cbv zeta.
  destruct (set_stream_on_sequence env_ok probed_world eq_refl)
    as (_ & _ & Hu & _ & _ & Hs).
  - vm_compute. reflexivity.
  - split; [exact Hs|]. split; [exact Hu|].
    split; vm_compute; reflexivity.
Defined.

(** X7: from Standby, [set_stream(1)] followed by [set_stream(0)]
    leaves the instance in Standby with its power reference count, power
    count, current mode, reset line and set of controls as before,
    whether or not the start went through, and the second call returns
    0.  Every control but exposure has its range and value as before;
    the exposure control keeps its minimum, step and read-only flag,
    while its maximum, default and value are what the replay of the
    vblank control left and can differ from before. *)
Theorem set_stream_on_off_restores (env : environment) (st : world) :
  streaming (dev st) = false ->
  let st1 := snd (ov13855_set_stream env 1 st) in
  let out := ov13855_set_stream env 0 st1 in
  let e := ctrl V4L2_CID_EXPOSURE (dev st) in
  let e' := ctrl V4L2_CID_EXPOSURE (dev (snd out)) in
  fst out = 0 /\ shell (snd out) = shell st /\
  (forall c, c <> V4L2_CID_EXPOSURE ->
     ctrl c (dev (snd out)) = ctrl c (dev st)) /\
  (minimum e', step e', read_only e') = (minimum e, step e, read_only e).
Proof.
  intros Hs. cbv zeta.
  assert (fst (ov13855_set_stream env 0 (snd (ov13855_set_stream env 1 st)))
          = 0 /\
          shell (snd (ov13855_set_stream env 0
                        (snd (ov13855_set_stream env 1 st)))) = shell st)
    as [H0 Hsh].
  { pose proof (set_stream_on_shell env st Hs) as Hsh. cbv zeta in Hsh.
    set (p := ov13855_set_stream env 1 st) in *. clearbody p.
    destruct (Z.eqb_spec (fst p) 0) as [E|E].
    - assert (streaming (dev (snd p)) = true) as Hon
        by exact (shell_streaming _ _ Hsh).
      rewrite (set_stream_off_run env (snd p) Hon). split; [reflexivity|].
      unfold shell in *. cbn [fst snd dev usage_count] in *.
      injection Hsh as S1 S2 S3 _ S5 S6.
      destruct (dev (snd p)) as [h m g c s].
      destruct (dev st) as [h' m' g' c' s'].
      cbn in *. subst. rewrite S5, S6. repeat f_equal. lia.
    - assert (streaming (dev (snd p)) = false) as Hoff
        by (rewrite (shell_streaming _ _ Hsh); exact Hs).
      pose proof (set_stream_noop env (snd p) false Hoff) as Hn.
      change (Z.b2z false) with 0 in Hn. rewrite Hn.
      split; [reflexivity | exact Hsh]. }
  split; [exact H0|]. split; [exact Hsh|]. split.
  - intros c Hc.
    apply (set_stream_on_off_frame env (fun d => ctrl c d));
      [reflexivity | | exact Hs].
    intros v s. apply propagate_vblank_other. exact Hc.
  - apply (set_stream_on_off_frame env
             (fun d => (minimum (ctrl V4L2_CID_EXPOSURE d),
                        step (ctrl V4L2_CID_EXPOSURE d),
                        read_only (ctrl V4L2_CID_EXPOSURE d))));
      [reflexivity | | exact Hs].
    intros v s. apply propagate_vblank_exposure.
Qed.

Lemma set_stream_on_off_restores_witness :
  let st1 := snd (ov13855_set_stream (env_fail_at 207 (- EIO)) 1
                    probed_world) in
  let out := ov13855_set_stream (env_fail_at 207 (- EIO)) 0 st1 in
  streaming (dev probed_world) = false /\
  fst out = 0 /\ shell (snd out) = shell probed_world.
Proof.
  cbv zeta. split; [reflexivity|].
  destruct (set_stream_on_off_restores (env_fail_at 207 (- EIO)) probed_world
              eq_refl) as (H0 & Hsh & _).
  split; [exact H0 | exact Hsh].
Defined.

(** X8: suspend always returns 0 and changes nothing in the instance or
    its power reference count; in particular the streaming flag stays
    as it is.  It sends the standby write exactly when the instance is
    streaming, and ignores the outcome of that write. *)
Theorem suspend_keeps_state (env : environment) (st : world) :
  let out := ov13855_suspend env st in
  fst out = 0 /\
  dev (snd out) = dev st /\
  usage_count (snd out) = usage_count st /\
  trace (snd out) =
    (if streaming (dev st) then standby_msg :: trace st else trace st).
Proof.
  cbv zeta.
  assert (ov13855_suspend env st =
          (0, if streaming (dev st)
              then set_trace (standby_msg :: trace st) st else st)) as ->.
  { unfold ov13855_suspend, bind, get_dev.
    destruct (streaming (dev st)); [|reflexivity].
    rewrite stop_streaming_run. reflexivity. }
  destruct (streaming (dev st)); repeat split.
Qed.

(** X9: resume does nothing on an instance that is not streaming.  On a
    streaming one it runs the start sequence again; if that goes
    through, 0 is returned and the flag stays set.  If it fails, the
    error is returned, the standby write is sent after the failed
    sequence and the streaming flag is cleared, but the power reference
    held for the stream is not dropped: the count is as before, and a
    later [set_stream(0)] finds the flag clear and does nothing. *)
Theorem resume_restarts_or_gives_up (env : environment) (st : world) :
  let p := ov13855_start_streaming env st in
  let out := ov13855_resume env st in
  (streaming (dev st) = false -> out = (0, st)) /\
  (streaming (dev st) = true -> fst p = 0 ->
   out = (0, snd p) /\ streaming (dev (snd out)) = true) /\
  (streaming (dev st) = true -> fst p <> 0 ->
   fst out = fst p /\
   streaming (dev (snd out)) = false /\
   usage_count (snd out) = usage_count st /\
   trace (snd out) = standby_msg :: trace (snd p) /\
   ov13855_set_stream env 0 (snd out) = (0, snd out)).
Proof.
  cbv zeta.
  assert (ov13855_resume env st =
          if streaming (dev st)
          then if negb (fst (ov13855_start_streaming env st) =? 0)
               then (fst (ov13855_start_streaming env st),
                     set_dev (set_streaming false
                                (dev (snd (ov13855_start_streaming env st))))
                       (set_trace
                          (standby_msg
                           :: trace (snd (ov13855_start_streaming env st)))
                          (snd (ov13855_start_streaming env st))))
               else (0, snd (ov13855_start_streaming env st))
          else (0, st)) as ->.
  { unfold ov13855_resume. unfold bind at 1. unfold get_dev at 1.
    cbv beta iota. destruct (streaming (dev st)); [|reflexivity].
    unfold bind at 1. destruct (ov13855_start_streaming env st) as [r s].
    cbn [fst snd]. destruct (negb (r =? 0)); [|reflexivity].
    unfold bind at 1. rewrite stop_streaming_run. reflexivity. }
  pose proof (start_streaming_shell env st) as Hsh.
  set (p := ov13855_start_streaming env st) in *. clearbody p.
  split; [intros ->; reflexivity|].
  split.
  - intros Hs E. rewrite Hs, E. change (negb (0 =? 0)) with false. cbv iota.
    split; [reflexivity|]. cbn [snd].
    rewrite (shell_streaming _ _ Hsh). exact Hs.
  - intros Hs E. rewrite Hs, (proj2 (Z.eqb_neq _ _) E). cbn [negb fst snd].
    split; [reflexivity|]. split; [reflexivity|].
    split; [exact (shell_usage _ _ Hsh)|]. split; [reflexivity|].
    apply (set_stream_noop env _ false). reflexivity.
Qed.

Lemma resume_restarts_or_gives_up_witness :
  let st := snd (ov13855_set_stream env_ok 1 probed_world) in
  let out := ov13855_resume (env_const (- EIO)) st in
  streaming (dev st) = true /\
  fst out = - EIO /\ streaming (dev (snd out)) = false /\
  usage_count (snd out) = 1.
Proof.
  cbv zeta.
  assert (streaming (dev (snd (ov13855_set_stream env_ok 1 probed_world)))
          = true) as Hs by (vm_compute; reflexivity).
  split; [exact Hs|].
  destruct (resume_restarts_or_gives_up (env_const (- EIO))
              (snd (ov13855_set_stream env_ok 1 probed_world)))
    as (_ & _ & H).
  destruct (H Hs) as (Hr & Hf & Hu & _).
  - vm_compute. discriminate.
  - split; [etransitivity; [exact Hr | vm_compute; reflexivity]|].
    split; [exact Hf|].
    etransitivity; [exact Hu | vm_compute; reflexivity].
Defined.

(** ** Power sequencing *)

Section PowerMore.

Variable env : environment.

Lemma set_power_software on : preserves software (ov13855_set_power env on).
Proof.
  unfold ov13855_set_power, when, gpiod_set_value.
  repeat first [ apply preserves_ret
               | apply preserves_if
               | apply preserves_bind; [|intros ?]
               | (intros w; reflexivity) ].
Qed.

Lemma set_power_off_run st :
  ov13855_set_power env false st =
    (0, set_trace ([CLK_DISABLE_UNPREPARE; REGULATOR_BULK_DISABLE]
                   ++ gpio_events st 0 ++ trace st) st).
Proof.
  unfold ov13855_set_power, gpio_events, bind, get_dev, when, gpiod_set_value,
    emit, ret.
  destruct st as [d u t]. destruct (reset_gpio d) eqn:G; cbn; rewrite ?G;
    reflexivity.
Qed.

Lemma set_power_on_run st :
  let t0 := REGULATOR_BULK_ENABLE :: gpio_events st 0 ++ trace st in
  let t1 := CLK_PREPARE_ENABLE :: UDELAY 5000 :: gpio_events st 1 ++ t0 in
  ov13855_set_power env true st =
    if negb (to_s32 (reply env t0) =? 0)
    then (to_s32 (reply env t0), set_trace (CLK_DISABLE_UNPREPARE :: t0) st)
    else if negb (to_s32 (reply env t1) =? 0)
    then (to_s32 (reply env t1), set_trace t1 st)
    else (0, set_trace (USLEEP_RANGE 10000 20000 :: t1) st).
Proof.
  cbv zeta.
  unfold ov13855_set_power, gpio_events, bind, get_dev, when, gpiod_set_value,
    emit, call, ret.
  unfold set_trace.
  destruct st as [d u t]. destruct (reset_gpio d) eqn:G;
    cbn [dev trace usage_count app fst snd]; rewrite ?G;
    cbn [dev trace usage_count app fst snd];
    match goal with
    | |- context [negb (?x =? 0)] => destruct (negb (x =? 0)); [reflexivity|]
    end;
    cbn [dev trace usage_count app fst snd];
    match goal with
    | |- context [negb (?x =? 0)] => destruct (negb (x =? 0)); reflexivity
    end.
Qed.

End PowerMore.

Section PowerCount.

Variable env : environment.

Lemma set_power_count_same d : set_power_count (power_count d) d = d.
Proof. destruct d. reflexivity. Qed.

Lemma set_dev_same st : set_dev (dev st) st = st.
Proof. destruct st. reflexivity. Qed.

Lemma s_power_seq_cons on ons st :
  s_power_seq env (on :: ons) st =
  let p := ov13855_s_power env on st in
  let q := s_power_seq env ons (snd p) in
  (fst p :: fst q, snd q).
Proof.
  cbv zeta. cbn [s_power_seq]. unfold bind.
  destruct (ov13855_s_power env on st) as [r s]. cbn [fst snd].
  destruct (s_power_seq env ons s) as [rs s']. reflexivity.
Qed.

Lemma s_power_seq_app ons1 ons2 st :
  s_power_seq env (ons1 ++ ons2) st =
  let p1 := s_power_seq env ons1 st in
  let p2 := s_power_seq env ons2 (snd p1) in
  (fst p1 ++ fst p2, snd p2).
Proof.
  revert st. induction ons1 as [|on ons1 IH]; intros st; cbv zeta.
  - cbn [app s_power_seq ret fst snd]. destruct (s_power_seq env ons2 st).
    reflexivity.
  - rewrite <- app_comm_cons, !s_power_seq_cons. cbv zeta.
    rewrite IH. reflexivity.
Qed.

(** Further enables of a powered instance only count up. *)
Lemma s_power_seq_ups n st :
  1 <= power_count (dev st) ->
  power_count (dev st) + Z.of_nat n <= INT_MAX ->
  s_power_seq env (repeat 1 n) st =
    (repeat 0 n,
     set_dev (set_power_count (power_count (dev st) + Z.of_nat n) (dev st))
       st).
Proof.
  revert st. unfold INT_MAX.
  induction n as [|n IH]; intros st Hc Hn.
  - cbn [repeat s_power_seq ret]. rewrite Z.add_0_r, set_power_count_same,
      set_dev_same. reflexivity.
  - cbn [repeat]. rewrite s_power_seq_cons. cbv zeta.
    rewrite (s_power_counts_only env 1 st)
      by (change (to_s32 1 =? 0) with false; cbv iota; lia).
    cbv zeta. change (to_s32 1 =? 0) with false. cbn [negb].
    assert (2 ^ 31 = 2147483648) as E31 by reflexivity.
    rewrite to_s32_id by lia.
    destruct (Z.ltb_spec (power_count (dev st) + 1) 0) as [Hl|_]; [lia|].
    cbn [when ret fst snd].
    rewrite IH by (cbn; lia). cbn [fst snd].
    rewrite Nat2Z.inj_succ.
    destruct st as [d u t]. destruct d.
    unfold set_dev, set_power_count.
    cbn [dev usage_count trace ctrl_handler cur_mode reset_gpio power_count
         streaming].
    match goal with
    | |- context [?a + ?b + Z.of_nat n] =>
        replace (a + b + Z.of_nat n) with (a + Z.succ (Z.of_nat n)) by lia
    | |- context [?a + ?b - Z.of_nat n] =>
        replace (a + b - Z.of_nat n) with (a - Z.succ (Z.of_nat n)) by lia
    end.
    reflexivity.
Qed.

(** Disables that leave at least one user only count down. *)
Lemma s_power_seq_downs n st :
  1 <= power_count (dev st) - Z.of_nat n ->
  power_count (dev st) <= INT_MAX ->
  s_power_seq env (repeat 0 n) st =
    (repeat 0 n,
     set_dev (set_power_count (power_count (dev st) - Z.of_nat n) (dev st))
       st).
Proof.
  revert st. unfold INT_MAX.
  induction n as [|n IH]; intros st Hc Hn.
  - cbn [repeat s_power_seq ret]. rewrite Z.sub_0_r, set_power_count_same,
      set_dev_same. reflexivity.
  - cbn [repeat]. rewrite s_power_seq_cons. cbv zeta.
    rewrite (s_power_counts_only env 0 st)
      by (change (to_s32 0 =? 0) with true; cbv iota; lia).
    cbv zeta. change (to_s32 0 =? 0) with true. cbn [negb].
    assert (2 ^ 31 = 2147483648) as E31 by reflexivity.
    rewrite to_s32_id by lia.
    destruct (Z.ltb_spec (power_count (dev st) + -1) 0) as [Hl|_]; [lia|].
    cbn [when ret fst snd].
    rewrite IH by (cbn; lia). cbn [fst snd].
    rewrite Nat2Z.inj_succ.
    destruct st as [d u t]. destruct d.
    unfold set_dev, set_power_count.
    cbn [dev usage_count trace ctrl_handler cur_mode reset_gpio power_count
         streaming].
    match goal with
    | |- context [?a + ?b + Z.of_nat n] =>
        replace (a + b + Z.of_nat n) with (a + Z.succ (Z.of_nat n)) by lia
    | |- context [?a + ?b - Z.of_nat n] =>
        replace (a + b - Z.of_nat n) with (a - Z.succ (Z.of_nat n)) by lia
    end.
    reflexivity.
Qed.

End PowerCount.

(** X10: the power sequencer touches neither the instance nor the
    power reference count.  Powering down always returns 0: the reset
    line (if any) goes low, the regulators and then the clock are
    switched off.  Powering up drives the reset line low and enables
    the regulators; if that call reports an error, the error is
    returned after disabling the clock (which was not yet enabled).
    Otherwise the reset line is released and, after 5 ms, the clock is
    enabled; if that call reports an error, the error is returned at
    once and nothing is undone.  Only when both calls report 0 does
    power-up return 0, after a further sleep.  No path of a power-up
    switches the regulators off. *)
Theorem set_power_paths (env : environment) (st : world) :
  let t0 := REGULATOR_BULK_ENABLE :: gpio_events st 0 ++ trace st in
  let t1 := CLK_PREPARE_ENABLE :: UDELAY 5000 :: gpio_events st 1 ++ t0 in
  let regulators := to_s32 (reply env t0) in
  let clock := to_s32 (reply env t1) in
  let up := ov13855_set_power env true st in
  ov13855_set_power env false st =
    (0, set_trace ([CLK_DISABLE_UNPREPARE; REGULATOR_BULK_DISABLE]
                   ++ gpio_events st 0 ++ trace st) st) /\
  (regulators <> 0 ->
   up = (regulators, set_trace (CLK_DISABLE_UNPREPARE :: t0) st)) /\
  (regulators = 0 -> clock <> 0 -> up = (clock, set_trace t1 st)) /\
  (regulators = 0 -> clock = 0 ->
   up = (0, set_trace (USLEEP_RANGE 10000 20000 :: t1) st)) /\
  (exists evs,
     trace (snd up) = evs ++ trace st /\ ~ In REGULATOR_BULK_DISABLE evs).
Proof.
  cbv zeta. split; [apply set_power_off_run|].
  rewrite set_power_on_run. cbv zeta.
  set (g0 := gpio_events st 0). set (g1 := gpio_events st 1).
  assert (~ In REGULATOR_BULK_DISABLE g0) as N0.
  { unfold g0, gpio_events. destruct (reset_gpio (dev st)); cbn;
      intuition discriminate. }
  assert (~ In REGULATOR_BULK_DISABLE g1) as N1.
  { unfold g1, gpio_events. destruct (reset_gpio (dev st)); cbn;
      intuition discriminate. }
  set (r0 := to_s32 (reply env (REGULATOR_BULK_ENABLE :: g0 ++ trace st))).
  set (r1 := to_s32 (reply env _)). clearbody r0 r1.
  destruct (Z.eqb_spec r0 0) as [E0|E0]; cbn [negb].
  - destruct (Z.eqb_spec r1 0) as [E1|E1]; cbn [negb].
    + split; [intros H; contradiction|].
      split; [intros _ H; contradiction|].
      split; [intros _ _; reflexivity|].
      exists ([USLEEP_RANGE 10000 20000; CLK_PREPARE_ENABLE; UDELAY 5000]
              ++ g1 ++ REGULATOR_BULK_ENABLE :: g0).
      cbn [snd trace set_trace].
      split; [cbn [app]; rewrite <- ?app_assoc; reflexivity|].
      cbn [app In]. rewrite in_app_iff. cbn [In]. intuition discriminate.
    + split; [intros H; contradiction|].
      split; [intros _ _; reflexivity|].
      split; [intros _ H; contradiction|].
      exists ([CLK_PREPARE_ENABLE; UDELAY 5000]
              ++ g1 ++ REGULATOR_BULK_ENABLE :: g0).
      cbn [snd trace set_trace].
      split; [cbn [app]; rewrite <- ?app_assoc; reflexivity|].
      cbn [app In]. rewrite in_app_iff. cbn [In]. intuition discriminate.
  - split; [intros _; reflexivity|].
    split; [intros H; contradiction|].
    split; [intros H; contradiction|].
    exists ([CLK_DISABLE_UNPREPARE; REGULATOR_BULK_ENABLE] ++ g0).
    cbn [snd trace set_trace]. split; [reflexivity|].
    cbn [app In]. intuition discriminate.
Qed.

(** X11: [ov13855_s_power] can only fail when it powers up an instance
    whose count is 0: the error is the sequencer's and the count stays
    0.  In every other case it returns 0 and moves the count by exactly
    one, up for a non-zero [on] and down for [on = 0].  Away from the
    two boundaries (count 0 going up, count 1 going down) no platform
    call is made, but for the warning when the count turns negative. *)
Theorem s_power_count_moves (env : environment) (on : Z) (st : world) :
  - INT_MAX <= power_count (dev st) < INT_MAX ->
  let out := ov13855_s_power env on st in
  let step := if to_s32 on =? 0 then -1 else 1 in
  (fst out = 0 ->
   power_count (dev (snd out)) = power_count (dev st) + step) /\
  (fst out <> 0 ->
   to_s32 on <> 0 /\ power_count (dev st) = 0 /\
   out = ov13855_set_power env true st /\
   power_count (dev (snd out)) = 0) /\
  (power_count (dev st) <> (if to_s32 on =? 0 then 1 else 0) ->
   fst out = 0 /\
   trace (snd out) =
     (if power_count (dev st) + step <? 0 then WARN :: trace st
      else trace st)).
Proof.
  unfold INT_MAX. intros Hr. cbv zeta.
  assert (2 ^ 31 = 2147483648) as E31 by reflexivity.
  destruct (Z.eq_dec (power_count (dev st))
              (if to_s32 on =? 0 then 1 else 0)) as [E|E].
  - rewrite (s_power_at_boundary env on st E). cbv zeta.
    pose proof (set_power_software env (negb (to_s32 on =? 0)) st) as Hsw.
    unfold software in Hsw. injection Hsw as Hd _.
    destruct (Z.eqb_spec (to_s32 on) 0) as [Eon|Eon]; cbn [negb] in *.
    + rewrite set_power_off_run in *. cbn [fst snd] in *.
      change (negb (0 =? 0)) with false. cbv iota. cbn [fst snd].
      rewrite E. change (to_s32 (1 + -1)) with 0.
      change (0 <? 0) with false. cbn [when ret snd].
      split; [intros _; reflexivity|].
      split; [intros H; contradiction | intros H; contradiction].
    + set (p := ov13855_set_power env true st) in *. clearbody p.
      rewrite E. change (to_s32 (0 + 1)) with 1.
      change (1 <? 0) with false. cbn [when ret snd].
      destruct (Z.eqb_spec (fst p) 0) as [Ep|Ep]; cbn [negb fst snd].
      * split; [intros _; reflexivity|].
        split; [intros H; contradiction | intros H; contradiction].
      * split; [intros H; contradiction|].
        split; [|intros H; contradiction].
        intros _. split; [exact Eon|]. split; [reflexivity|].
        split; [reflexivity|]. rewrite Hd. exact E.
  - rewrite (s_power_counts_only env on st E). cbv zeta. cbn [fst].
    replace (if negb (to_s32 on =? 0) then 1 else -1)
      with (if to_s32 on =? 0 then -1 else 1)
      by (destruct (to_s32 on =? 0); reflexivity).
    assert (-1 <= (if to_s32 on =? 0 then -1 else 1) <= 1) as Hstep
      by (destruct (to_s32 on =? 0); lia).
    rewrite to_s32_id by lia.
    split; [|split; [intros H; contradiction|]].
    + intros _. destruct (_ <? 0); reflexivity.
    + intros _. split; [reflexivity|].
      destruct (_ <? 0); reflexivity.
Qed.

Lemma s_power_count_moves_witness :
  - INT_MAX <= power_count (dev probed_world) < INT_MAX /\
  power_count (dev (snd (ov13855_s_power env_ok 1 probed_world))) = 0 + 1.
Proof.
  assert (- INT_MAX <= power_count (dev probed_world) < INT_MAX) as Hr
    by (vm_compute; split; [discriminate | reflexivity]).
  split; [exact Hr|].
  destruct (s_power_count_moves env_ok 1 probed_world Hr) as (H & _).
  apply H. vm_compute. reflexivity.
Defined.

(** X12: nested use is balanced.  From count 0, [n] calls with [on = 1]
    followed by [n] calls with [on = 0] all return 0 when the power-up
    goes through; the sequencer runs exactly twice, up at the first
    call and down at the last, and the instance ends as it began. *)
Theorem s_power_nested_balanced (env : environment) (n : nat) (st : world) :
  power_count (dev st) = 0 ->
  (1 <= n)%nat ->
  Z.of_nat n <= INT_MAX ->
  fst (ov13855_set_power env true st) = 0 ->
  let up := snd (ov13855_set_power env true st) in
  let out := s_power_seq env (repeat 1 n ++ repeat 0 n) st in
  fst out = repeat 0 (n + n) /\
  dev (snd out) = dev st /\
  usage_count (snd out) = usage_count st /\
  trace (snd out) =
    [CLK_DISABLE_UNPREPARE; REGULATOR_BULK_DISABLE]
    ++ gpio_events st 0 ++ trace up.
Proof.
  unfold INT_MAX. intros Hc Hn Hmax Hup. cbv zeta.
  assert (2 ^ 31 = 2147483648) as E31 by reflexivity.
  destruct n as [|m]; [lia|].
  change (repeat 0 (S m)) with (0 :: repeat 0 m). rewrite (repeat_cons m 0).
  change (repeat 1 (S m)) with (1 :: repeat 1 m). rewrite <- app_comm_cons.
  rewrite s_power_seq_cons. cbv zeta.
  rewrite (s_power_at_boundary env 1 st)
    by (change (to_s32 1 =? 0) with false; exact Hc).
  cbv zeta. change (to_s32 1 =? 0) with false. cbn [negb].
  pose proof (set_power_software env true st) as Hsw.
  unfold software in Hsw. injection Hsw as Hd Hu.
  set (p := ov13855_set_power env true st) in *. clearbody p.
  rewrite Hup. change (negb (0 =? 0)) with false. cbv iota.
  rewrite Hc. change (to_s32 (0 + 1)) with 1. change (1 <? 0) with false.
  cbn [when ret fst snd].
  set (s1 := set_dev (set_power_count 1 (dev (snd p))) (snd p)).
  assert (power_count (dev s1) = 1) as C1 by reflexivity.
  rewrite s_power_seq_app. cbv zeta.
  rewrite (s_power_seq_ups env m s1) by (unfold INT_MAX; lia).
  cbn [fst snd].
  set (s2 := set_dev _ s1).
  assert (power_count (dev s2) = 1 + Z.of_nat m) as C2
    by (unfold s2; rewrite C1; reflexivity).
  rewrite s_power_seq_app. cbv zeta.
  rewrite (s_power_seq_downs env m s2) by (unfold INT_MAX; lia).
  cbn [fst snd].
  set (s3 := set_dev _ s2).
  assert (power_count (dev s3) = 1) as C3
    by (unfold s3; cbn [dev set_dev set_power_count power_count]; lia).
  rewrite s_power_seq_cons. cbv zeta.
  rewrite (s_power_at_boundary env 0 s3)
    by (change (to_s32 0 =? 0) with true; exact C3).
  cbv zeta. change (to_s32 0 =? 0) with true. cbn [negb].
  rewrite set_power_off_run. cbn [fst snd].
  change (negb (0 =? 0)) with false. cbv iota. cbn [fst snd].
  rewrite C3. change (to_s32 (1 + -1)) with 0. change (0 <? 0) with false.
  cbn [when ret s_power_seq fst snd].
  assert (gpio_events s3 0 = gpio_events st 0) as G.
  { unfold gpio_events, s3, s2, s1.
    cbn [dev set_dev set_power_count reset_gpio]. rewrite Hd. reflexivity. }
  assert (trace s3 = trace (snd p)) as T3 by reflexivity.
  assert (usage_count s3 = usage_count st) as U3 by exact Hu.
  rewrite G, T3.
  split.
  { rewrite <- (repeat_cons m 0).
    change (0 :: repeat 0 m ++ 0 :: repeat 0 m)
      with (repeat 0 (S m) ++ repeat 0 (S m)).
    rewrite <- repeat_app. reflexivity. }
  split.
  { cbn [dev set_dev set_trace].
    unfold s3, s2, s1. cbn [dev set_dev set_power_count]. rewrite Hd, <- Hc.
    destruct (dev st). reflexivity. }
  split; [exact U3 | reflexivity].
Qed.

Lemma s_power_nested_balanced_witness :
  let out := s_power_seq env_ok (repeat 1 3 ++ repeat 0 3) probed_world in
  power_count (dev probed_world) = 0 /\
  fst out = repeat 0 (3 + 3) /\ dev (snd out) = dev probed_world.
Proof.
  cbv zeta. split; [reflexivity|].
  destruct (s_power_nested_balanced env_ok 3 probed_world)
    as (Hr & Hd & _).
  - reflexivity.
  - lia.
  - vm_compute. discriminate.
  - vm_compute. reflexivity.
  - split; [exact Hr | exact Hd].
Defined.

(** ** Formats *)

Lemma best_fit_loop_bound modes fw fh (i cur N : nat) d :
  (i + length modes = N)%nat -> (cur < N)%nat ->
  (best_fit_loop modes fw fh i cur d < N)%nat.
Proof.
  revert i cur d. induction modes as [|m rest IH]; intros i cur d Hi Hc.
  - exact Hc.
  - cbn [best_fit_loop length] in *.
    destruct ((d =? -1) || (ov13855_get_resolution_dist m fw fh <? d));
      apply IH; lia.
Qed.

Lemma find_best_fit_index_bound fw fh :
  (ov13855_find_best_fit_index fw fh < length supported_modes)%nat.
Proof.
  unfold ov13855_find_best_fit_index.
  apply best_fit_loop_bound; [reflexivity|]. cbn. lia.
Qed.

Lemma find_best_fit_fixed m :
  In m supported_modes -> ov13855_find_best_fit (width m) (height m) = m.
Proof.
  cbn [supported_modes In]. intros [<- | [<- | [<- | []]]];
    vm_compute; reflexivity.
Qed.

(** X13: whatever size is requested, also one whose differences wrap
    around, the loop of [ov13855_find_best_fit] ends on an index inside
    [supported_modes], so the mode returned is an entry of the table. *)
Theorem find_best_fit_in_table (fw fh : Z) :
  let i := ov13855_find_best_fit_index fw fh in
  (i < length supported_modes)%nat /\
  nth_error supported_modes i = Some (ov13855_find_best_fit fw fh).
Proof.
  cbv zeta. split; [apply find_best_fit_index_bound|].
  unfold ov13855_find_best_fit. apply nth_error_nth'.
  apply find_best_fit_index_bound.
Qed.

(** X14: format negotiation is idempotent: the size [set_fmt] answers
    with, requested again, is answered with itself, for every first
    request. *)
Theorem set_pad_format_idempotent
    (env : environment) (fw fh : Z) (st st' : world) :
  let out := ov13855_set_pad_format env V4L2_SUBDEV_FORMAT_TRY fw fh st in
  let size := snd (fst out) in
  fst (ov13855_set_pad_format env V4L2_SUBDEV_FORMAT_TRY
         (fst size) (snd size) st')
  = fst out.
Proof.
  cbv zeta. unfold ov13855_set_pad_format.
  change (V4L2_SUBDEV_FORMAT_TRY =? V4L2_SUBDEV_FORMAT_TRY) with true.
  cbv iota. unfold ret. cbn [fst snd].
  rewrite (find_best_fit_fixed _ (find_best_fit_supported fw fh)).
  reflexivity.
Qed.

(** X15: a TRY request whose width and height do not exceed 2^30 is
    answered with the size of a supported mode at minimal distance
    [|w - fw| + |h - fh|] from the request, and changes neither the
    instance nor the bus history. *)
Theorem set_pad_format_try_nearest
    (env : environment) (fw fh : Z) (st : world) :
  0 <= fw <= 2 ^ 30 -> 0 <= fh <= 2 ^ 30 ->
  let out := ov13855_set_pad_format env V4L2_SUBDEV_FORMAT_TRY fw fh st in
  snd out = st /\
  exists best,
    In best supported_modes /\
    fst out = (0, (width best, height best)) /\
    forall m, In m supported_modes ->
      resolution_distance best fw fh <= resolution_distance m fw fh.
Proof.
  intros Hw Hh. cbv zeta. unfold ov13855_set_pad_format.
  change (V4L2_SUBDEV_FORMAT_TRY =? V4L2_SUBDEV_FORMAT_TRY) with true.
  cbv iota. unfold ret. cbn [fst snd]. split; [reflexivity|].
  exists (ov13855_find_best_fit fw fh).
  split; [apply find_best_fit_supported|]. split; [reflexivity|].
  intros m Hm. apply In_nth_error in Hm. destruct Hm as [j Hj].
  destruct (find_best_fit_minimal fw fh Hw Hh) as [_ Hmin].
  exact (proj1 (Hmin j m Hj)).
Qed.

Lemma set_pad_format_try_nearest_witness :
  fst (ov13855_set_pad_format env_ok V4L2_SUBDEV_FORMAT_TRY 2000 1500
         probed_world) = (0, (2112, 1568)).
Proof.
  destruct (set_pad_format_try_nearest env_ok 2000 1500 probed_world)
    as (_ & best & _ & Hout & _); [lia | lia |].
  etransitivity; [exact Hout|]. rewrite <- Hout. vm_compute. reflexivity.
Defined.

(** X16: bus-code enumeration answers index 0 only, with code 0x3007,
    and leaves the request alone otherwise.  Frame-size enumeration
    answers exactly the indices 0, 1, 2 with that code; any other index
    or code gives [-EINVAL] and leaves the request as it was.  An
    answer is a discrete size (minimum equal to maximum), that of
    [supported_modes[index]], and requesting that size selects this
    very mode. *)
Theorem enum_frame_size_lists_modes (fse : v4l2_subdev_frame_size_enum) :
  let out := ov13855_enum_frame_size fse in
  let i := Z.to_nat (to_u32 (fse_index fse)) in
  (fst out = 0 <->
   to_u32 (fse_index fse) < 3 /\
   to_u32 (fse_code fse) = snd (ov13855_enum_mbus_code 0 0)) /\
  (fst out <> 0 -> fst out = - EINVAL /\ snd out = fse) /\
  (forall index code0,
     ov13855_enum_mbus_code index code0 =
     if to_u32 index =? 0 then (0, 0x3007) else (- EINVAL, code0)) /\
  (fst out = 0 ->
   exists m,
     nth_error supported_modes i = Some m /\
     min_width (snd out) = width m /\ max_width (snd out) = width m /\
     min_height (snd out) = height m /\ max_height (snd out) = height m /\
     ov13855_find_best_fit (min_width (snd out)) (min_height (snd out)) = m).
Proof.
  cbv zeta.
  assert (forall index code0,
            ov13855_enum_mbus_code index code0 =
            if to_u32 index =? 0 then (0, 0x3007) else (- EINVAL, code0))
    as Hmbus.
  { intros index code0. unfold ov13855_enum_mbus_code.
    assert (0 <= to_u32 index) as Hnn
      by (unfold to_u32; apply Z.mod_pos_bound; reflexivity).
    destruct (Z.ltb_spec 0 (to_u32 index)), (Z.eqb_spec (to_u32 index) 0);
      try lia; reflexivity. }
  unfold ov13855_enum_frame_size.
  change (snd (ov13855_enum_mbus_code 0 0)) with OV13855_MEDIA_BUS_FMT.
  change (Z.of_nat (length supported_modes)) with 3.
  assert (0 <= to_u32 (fse_index fse)) as Hnn
    by (unfold to_u32; apply Z.mod_pos_bound; reflexivity).
  destruct (Z.leb_spec 3 (to_u32 (fse_index fse))) as [Hi|Hi].
  { cbn [fst snd]. unfold EINVAL.
    split; [split; [discriminate | intros [H _]; lia]|].
    split; [intros _; split; reflexivity|].
    split; [exact Hmbus | discriminate]. }
  destruct (Z.eqb_spec (to_u32 (fse_code fse)) OV13855_MEDIA_BUS_FMT)
    as [Ec|Ec]; cbn [negb fst snd].
  - split; [split; [intros _; split; [exact Hi | exact Ec] | reflexivity]|].
    split; [intros H; contradiction|]. split; [exact Hmbus|]. intros _.
    set (i := Z.to_nat (to_u32 (fse_index fse))).
    assert (i < length supported_modes)%nat as Hlt
      by (unfold i; change (length supported_modes) with 3%nat; lia).
    exists (nth i supported_modes mode_4224x3136).
    split; [apply nth_error_nth'; exact Hlt|].
    cbn [min_width max_width min_height max_height].
    repeat (split; [reflexivity|]).
    apply find_best_fit_fixed. apply nth_In. exact Hlt.
  - unfold EINVAL.
    split; [split; [discriminate | intros [_ H]; contradiction]|].
    split; [intros _; split; reflexivity|].
    split; [exact Hmbus | discriminate].
Qed.

(** X17: after a [set_fmt] on the ACTIVE format, [get_fmt] reports the
    size [set_fmt] answered with, as bus code 0x3007 and field order
    "none", and does not change the instance; a sub-device opened then
    starts with that same format as its try format.  A TRY [set_fmt]
    leaves the instance alone, so the active format is still the old
    one. *)
Theorem set_then_get_format
    (env : environment) (fw fh : Z) (try_fmt : v4l2_mbus_framefmt)
    (st : world) :
  let set := ov13855_set_pad_format env V4L2_SUBDEV_FORMAT_ACTIVE fw fh st in
  let get := ov13855_get_pad_format V4L2_SUBDEV_FORMAT_ACTIVE try_fmt
               (snd set) in
  let try := ov13855_set_pad_format env V4L2_SUBDEV_FORMAT_TRY fw fh st in
  fst get = (0, ov13855_update_pad_format (ov13855_find_best_fit fw fh)) /\
  (fmt_width (snd (fst get)), fmt_height (snd (fst get))) = snd (fst set) /\
  snd get = snd set /\
  ov13855_open (snd set) = get /\
  fst (ov13855_get_pad_format V4L2_SUBDEV_FORMAT_ACTIVE try_fmt (snd try))
  = (0, ov13855_update_pad_format (cur_mode (dev st))).
Proof.
  cbv zeta.
  rewrite (set_pad_format_active_steps env V4L2_SUBDEV_FORMAT_ACTIVE fw fh st
             eq_refl).
  cbv zeta. cbn [fst snd].
  set (mode := ov13855_find_best_fit fw fh). clearbody mode.
  set (s0 := set_dev (set_cur_mode mode (dev st)) st).
  assert (cur_mode (dev s0) = mode) as C0 by reflexivity. clearbody s0.
  pose proof (s_ctrl_shell env V4L2_CID_LINK_FREQ (link_freq_index mode) s0)
    as S1.
  set (s1 := snd (__v4l2_ctrl_s_ctrl env V4L2_CID_LINK_FREQ _ s0)) in *.
  clearbody s1.
  pose proof (s_ctrl_shell env V4L2_CID_PIXEL_RATE
                (pixel_rate (link_freq_config_at (link_freq_index mode))) s1)
    as S2.
  unfold __v4l2_ctrl_s_ctrl_int64.
  set (s2 := snd (__v4l2_ctrl_s_ctrl env V4L2_CID_PIXEL_RATE _ s1)) in *.
  clearbody s2.
  pose proof (modify_range_shell V4L2_CID_VBLANK OV13855_VBLANK_MIN
                (to_u32 (OV13855_VTS_MAX - height mode)) 1
                (to_s32 (vts mode - height mode)) s2) as S3.
  set (s3 := snd (__v4l2_ctrl_modify_range V4L2_CID_VBLANK _ _ _ _ s2)) in *.
  clearbody s3.
  pose proof (s_ctrl_shell env V4L2_CID_VBLANK
                (to_s32 (vts mode - height mode)) s3) as S4.
  set (s4 := snd (__v4l2_ctrl_s_ctrl env V4L2_CID_VBLANK _ s3)) in *.
  clearbody s4.
  set (hb := to_u32 _).
  pose proof (modify_range_shell V4L2_CID_HBLANK hb hb 1 hb s4) as S5.
  set (s5 := snd (__v4l2_ctrl_modify_range V4L2_CID_HBLANK _ _ _ _ s4)) in *.
  clearbody s5.
  assert (cur_mode (dev s5) = mode) as C5.
  { rewrite (shell_cur_mode _ _ S5), (shell_cur_mode _ _ S4),
      (shell_cur_mode _ _ S3), (shell_cur_mode _ _ S2),
      (shell_cur_mode _ _ S1). exact C0. }
  unfold ov13855_get_pad_format, ov13855_open, bind, get_dev, ret.
  change (V4L2_SUBDEV_FORMAT_ACTIVE =? 0) with false. cbv iota.
  cbn [fst snd]. rewrite C5.
  repeat split.
Qed.

(** ** The [s_ctrl] operation *)

Section ControlsMore.

Variable env : environment.

(** The bracket of [ov13855_set_ctrl] on a powered device. *)
Lemma set_ctrl_powered c v st :
  0 < usage_count st ->
  let s0 := snd (propagate_ctrl c v st) in
  let s1 := set_trace (PM_RUNTIME_GET_IF_IN_USE :: trace s0)
              (set_usage_count (usage_count s0 + 1) s0) in
  let p := write_ctrl env c v s1 in
  ov13855_set_ctrl env c v st = (fst p, snd (pm_runtime_put (snd p))).
Proof.
  intros Hu. cbv zeta. unfold ov13855_set_ctrl. unfold bind at 1.
  assert (usage_count (snd (propagate_ctrl c v st)) = usage_count st) as U
    by (destruct c; reflexivity).
  destruct (propagate_ctrl c v st) as [[] s0]. cbn [snd] in *.
  unfold bind at 1. unfold pm_runtime_get_if_in_use.
  destruct (Z.ltb_spec 0 (usage_count s0)) as [_|Hle]; [|lia].
  change (1 <=? 0) with false. cbv iota. unfold bind at 1.
  destruct (write_ctrl env c v _) as [e s2]. reflexivity.
Qed.

Lemma set_ctrl_idle c v st :
  usage_count st <= 0 ->
  let s0 := snd (propagate_ctrl c v st) in
  ov13855_set_ctrl env c v st =
    (0, set_trace (PM_RUNTIME_GET_IF_IN_USE :: trace s0) s0).
Proof.
  intros Hu. cbv zeta. unfold ov13855_set_ctrl. unfold bind at 1.
  assert (usage_count (snd (propagate_ctrl c v st)) = usage_count st) as U
    by (destruct c; reflexivity).
  destruct (propagate_ctrl c v st) as [[] s0]. cbn [snd] in *.
  unfold bind at 1. unfold pm_runtime_get_if_in_use.
  destruct (Z.ltb_spec 0 (usage_count s0)) as [Hlt|_]; [lia|]. reflexivity.
Qed.

Lemma propagate_trace c v st : trace (snd (propagate_ctrl c v st)) = trace st.
Proof. destruct c; reflexivity. Qed.

Lemma propagate_usage c v st :
  usage_count (snd (propagate_ctrl c v st)) = usage_count st.
Proof. destruct c; reflexivity. Qed.

Lemma propagate_cur_mode c v st :
  cur_mode (dev (snd (propagate_ctrl c v st))) = cur_mode (dev st).
Proof. destruct c; reflexivity. Qed.

End ControlsMore.

(** X18: while the device is not in use (power reference count not
    positive) the [s_ctrl] operation returns 0 for every control and
    every value and makes no bus transfer: the only platform call is
    the [pm_runtime_get_if_in_use] query.  The reference count is
    unchanged, and so is the instance unless the control is vblank. *)
Theorem set_ctrl_not_in_use_no_transfer
    (env : environment) (c : ctrl_id) (v : Z) (st : world) :
  usage_count st <= 0 ->
  let out := ov13855_set_ctrl env c v st in
  fst out = 0 /\
  trace (snd out) = PM_RUNTIME_GET_IF_IN_USE :: trace st /\
  usage_count (snd out) = usage_count st /\
  (c <> V4L2_CID_VBLANK -> dev (snd out) = dev st).
Proof.
  intros Hu. cbv zeta. rewrite (set_ctrl_idle env c v st Hu). cbv zeta.
  cbn [fst snd trace set_trace usage_count dev].
  rewrite propagate_trace.
  split; [reflexivity|]. split; [reflexivity|].
  split; [apply propagate_usage|].
  intros Hc. rewrite (propagate_other c v st Hc). reflexivity.
Qed.

Lemma set_ctrl_not_in_use_no_transfer_witness :
  usage_count probed_world <= 0 /\
  trace (snd (ov13855_set_ctrl (env_const (- EIO)) V4L2_CID_VBLANK 100
                probed_world))
  = [PM_RUNTIME_GET_IF_IN_USE].
Proof.
  assert (usage_count probed_world <= 0) as Hu by (vm_compute; discriminate).
  split; [exact Hu|].
  exact (proj1 (proj2 (set_ctrl_not_in_use_no_transfer (env_const (- EIO))
                         V4L2_CID_VBLANK 100 probed_world Hu))).
Defined.

(** X19: on a device in use, setting vblank to [v] writes the frame
    length [height + v] of the current mode as a 16-bit big-endian
    value to register 0x380e, between taking and dropping a power
    reference; for [v] up to [0x7fff - height], the maximum of the
    control, the two bytes hold the frame length exactly.  The result
    is 0 when the bus takes the four bytes and [-EIO] otherwise. *)
Theorem set_ctrl_vblank_writes_vts
    (env : environment) (v : Z) (st : world) :
  In (cur_mode (dev st)) supported_modes ->
  0 <= v <= OV13855_VTS_MAX - height (cur_mode (dev st)) ->
  0 < usage_count st ->
  let frame := height (cur_mode (dev st)) + v in
  let tr := I2C_MASTER_SEND ([0x38; 0x0e] ++ be_bytes 2 frame)
            :: PM_RUNTIME_GET_IF_IN_USE :: trace st in
  let out := ov13855_set_ctrl env V4L2_CID_VBLANK v st in
  fst out = (if to_s32 (reply env tr) =? 4 then 0 else - EIO) /\
  trace (snd out) = PM_RUNTIME_PUT :: tr /\
  usage_count (snd out) = usage_count st /\
  be_value (be_bytes 2 frame) = frame.
Proof.
  intros Hm Hv Hu. cbv zeta.
  destruct (supported_mode_size _ Hm) as (_ & Hh & _).
  unfold OV13855_VTS_MAX in Hv.
  assert (2 ^ 32 = 4294967296) as E32 by reflexivity.
  rewrite (set_ctrl_powered env V4L2_CID_VBLANK v st Hu). cbv zeta.
  pose proof (propagate_trace V4L2_CID_VBLANK v st) as T0.
  pose proof (propagate_usage V4L2_CID_VBLANK v st) as U0.
  pose proof (propagate_cur_mode V4L2_CID_VBLANK v st) as C0.
  set (s0 := snd (propagate_ctrl V4L2_CID_VBLANK v st)) in *. clearbody s0.
  unfold write_ctrl, bind, get_dev.
  cbn [dev set_trace set_usage_count].
  pose proof (write_reg_accepted env OV13855_REG_VTS OV13855_REG_VALUE_16BIT
                (to_u32 (height (cur_mode (dev s0)) + to_u32 v))
                (set_trace (PM_RUNTIME_GET_IF_IN_USE :: trace s0)
                   (set_usage_count (usage_count s0 + 1) s0))) as Hw.
  cbv zeta in Hw. rewrite Hw by (unfold OV13855_REG_VALUE_16BIT; lia).
  clear Hw.
  rewrite C0, T0, U0, (to_u32_id v) by lia.
  rewrite !(to_u32_id (height (cur_mode (dev st)) + v)) by lia.
  change (cpu_to_be16 (to_u16 OV13855_REG_VTS)) with [0x38; 0x0e].
  change (Z.to_nat OV13855_REG_VALUE_16BIT) with 2%nat.
  change (OV13855_REG_VALUE_16BIT + 2) with 4.
  cbn [fst snd trace set_trace set_usage_count usage_count pm_runtime_put
       emit].
  split; [reflexivity|]. split; [reflexivity|]. split.
  - unfold pm_runtime_put, emit. cbn [snd usage_count set_trace
      set_usage_count]. lia.
  - rewrite be_value_be_bytes. apply Z.mod_small.
    change (2 ^ (8 * Z.of_nat 2)) with 65536. lia.
Qed.

Lemma set_ctrl_vblank_writes_vts_witness :
  let st := snd (ov13855_set_stream env_ok 1 probed_world) in
  0 < usage_count st /\
  hd_error (trace (snd (ov13855_set_ctrl env_ok V4L2_CID_VBLANK 100 st)))
  = Some PM_RUNTIME_PUT /\
  be_value (be_bytes 2 (3136 + 100)) = 3136 + 100.
Proof.
  cbv zeta.
  assert (0 < usage_count (snd (ov13855_set_stream env_ok 1 probed_world)))
    as Hu by (vm_compute; reflexivity).
  split; [exact Hu|].
  destruct (set_ctrl_vblank_writes_vts env_ok 100
              (snd (ov13855_set_stream env_ok 1 probed_world)))
    as (_ & Ht & _ & Hb).
  - vm_compute. left. reflexivity.
  - vm_compute. split; discriminate.
  - exact Hu.
  - split; [rewrite Ht; reflexivity | exact Hb].
Defined.

(** X20: the controls without a case in the second switch -- link
    frequency, pixel rate, hblank and analogue gain -- never reach the
    sensor: on a device in use their [s_ctrl] operation returns 0 after
    taking and dropping a power reference, with no bus transfer and no
    change of the instance. *)
Theorem set_ctrl_unhandled_no_transfer
    (env : environment) (c : ctrl_id) (v : Z) (st : world) :
  0 < usage_count st ->
  c <> V4L2_CID_EXPOSURE -> c <> V4L2_CID_VBLANK ->
  c <> V4L2_CID_TEST_PATTERN ->
  let out := ov13855_set_ctrl env c v st in
  fst out = 0 /\
  trace (snd out) = PM_RUNTIME_PUT :: PM_RUNTIME_GET_IF_IN_USE :: trace st /\
  usage_count (snd out) = usage_count st /\
  dev (snd out) = dev st.
Proof.
  intros Hu He Hv Ht. cbv zeta.
  rewrite (set_ctrl_powered env c v st Hu). cbv zeta.
  rewrite (propagate_other c v st Hv). cbn [snd].
  assert (write_ctrl env c v
            (set_trace (PM_RUNTIME_GET_IF_IN_USE :: trace st)
               (set_usage_count (usage_count st + 1) st))
          = (0, set_trace (PM_RUNTIME_GET_IF_IN_USE :: trace st)
                  (set_usage_count (usage_count st + 1) st))) as ->
    by (destruct c; try reflexivity; contradiction).
  cbn [fst snd]. unfold pm_runtime_put, emit.
  cbn [fst snd trace usage_count dev set_trace set_usage_count].
  repeat split. lia.
Qed.

Lemma set_ctrl_unhandled_no_transfer_witness :
  let st := snd (ov13855_set_stream env_ok 1 probed_world) in
  0 < usage_count st /\
  fst (ov13855_set_ctrl (env_const (- EIO)) V4L2_CID_ANALOGUE_GAIN 0x100 st)
  = 0 /\
  dev (snd (ov13855_set_ctrl (env_const (- EIO)) V4L2_CID_ANALOGUE_GAIN
              0x100 st)) = dev st.
Proof.
  cbv zeta.
  assert (0 < usage_count (snd (ov13855_set_stream env_ok 1 probed_world)))
    as Hu by (vm_compute; reflexivity).
  split; [exact Hu|].
  destruct (set_ctrl_unhandled_no_transfer (env_const (- EIO))
              V4L2_CID_ANALOGUE_GAIN 0x100
              (snd (ov13855_set_stream env_ok 1 probed_world)) Hu)
    as (Hr & _ & _ & Hd).
  - discriminate.
  - discriminate.
  - discriminate.
  - split; [exact Hr | exact Hd].
Defined.

(** X21: the digital gain goes to the blue, green and red channel
    registers 0x5100, 0x5102, 0x5104, in this order, as the same 16-bit
    big-endian value, the gain modulo 2^16; a write is taken when the
    bus reports four bytes.  If the blue write is not taken, [-EIO] is
    returned and green and red are not written; if the green write is
    not taken, [-EIO] is returned and red is not written; otherwise
    the result is that of the red write.  The instance is not
    touched. *)
Theorem update_digital_gain_channels
    (env : environment) (d_gain : Z) (st : world) :
  let msg reg :=
    I2C_MASTER_SEND (cpu_to_be16 reg ++ be_bytes 2 (to_u32 d_gain)) in
  let tB := msg 0x5100 :: trace st in
  let tG := msg 0x5102 :: tB in
  let tR := msg 0x5104 :: tG in
  let taken t := to_s32 (reply env t) = 4 in
  let out := ov13855_update_digital_gain env d_gain st in
  be_value (be_bytes 2 (to_u32 d_gain)) = d_gain mod 2 ^ 16 /\
  (~ taken tB -> out = (- EIO, set_trace tB st)) /\
  (taken tB -> ~ taken tG -> out = (- EIO, set_trace tG st)) /\
  (taken tB -> taken tG -> taken tR -> out = (0, set_trace tR st)) /\
  (taken tB -> taken tG -> ~ taken tR -> out = (- EIO, set_trace tR st)).
Proof.
  cbv zeta. unfold ov13855_update_digital_gain.
  assert (forall reg s,
            ov13855_write_reg env reg OV13855_REG_VALUE_16BIT d_gain s =
            ((if to_s32 (reply env
                           (I2C_MASTER_SEND
                              (cpu_to_be16 (to_u16 reg)
                               ++ be_bytes 2 (to_u32 d_gain)) :: trace s))
                  =? 4 then 0 else - EIO),
             set_trace (I2C_MASTER_SEND
                          (cpu_to_be16 (to_u16 reg)
                           ++ be_bytes 2 (to_u32 d_gain)) :: trace s) s))
    as Hw.
  { intros reg s.
    pose proof (write_reg_accepted env reg OV13855_REG_VALUE_16BIT d_gain s)
      as H.
    cbv zeta in H. apply H. unfold OV13855_REG_VALUE_16BIT. lia. }
  unfold bind. rewrite Hw.
  change (to_u16 OV13855_REG_B_MWB_GAIN) with 0x5100.
  set (mB := I2C_MASTER_SEND
               (cpu_to_be16 0x5100 ++ be_bytes 2 (to_u32 d_gain))).
  set (mG := I2C_MASTER_SEND
               (cpu_to_be16 0x5102 ++ be_bytes 2 (to_u32 d_gain))).
  set (mR := I2C_MASTER_SEND
               (cpu_to_be16 0x5104 ++ be_bytes 2 (to_u32 d_gain))).
  split.
  { rewrite be_value_be_bytes. unfold to_u32.
    change (2 ^ (8 * Z.of_nat 2)) with (2 ^ 16).
    apply Z.mod_mod_divide. exists (2 ^ 16). reflexivity. }
  unfold EIO.
  destruct (Z.eqb_spec (to_s32 (reply env (mB :: trace st))) 4) as [EB|EB];
    cbn [negb fst snd Z.eqb Z.opp trace set_trace].
  2:{ split; [intros _; reflexivity|].
      repeat (split; [intros H; contradiction|]). intros H; contradiction. }
  rewrite Hw. change (to_u16 OV13855_REG_G_MWB_GAIN) with 0x5102.
  fold mG. cbn [trace set_trace].
  destruct (Z.eqb_spec (to_s32 (reply env (mG :: mB :: trace st))) 4)
    as [EG|EG]; cbn [negb fst snd Z.eqb Z.opp trace set_trace].
  2:{ split; [intros H; contradiction|].
      split; [intros _ _; reflexivity|].
      split; intros _ H; contradiction. }
  rewrite Hw. change (to_u16 OV13855_REG_R_MWB_GAIN) with 0x5104.
  fold mR. cbn [fst snd trace set_trace].
  split; [intros H; contradiction|].
  split; [intros _ H; contradiction|].
  destruct (Z.eqb_spec (to_s32 (reply env (mR :: mG :: mB :: trace st))) 4)
    as [ER|ER].
  - split; [intros _ _ _; reflexivity | intros _ _ H; contradiction].
  - split; [intros _ _ H; contradiction | intros _ _ _; reflexivity].
Qed.

(** ** Exposure written at stream start *)

Section DeferredExposure.

Variable env : environment.







End DeferredExposure.


